(** * GA4 audit (app.py): report aggregation, insight rules and CSV rows

    A shallow embedding of the audit run of [src/app.py] (lines 394-675):
    the metric fetcher, the aggregation of the raw rows, the funnel
    conversion rates, the insight rules and the rows of the CSV export.

    Python numbers are modelled as they are in the source: [int] is [Z],
    [float] is IEEE 754 binary64 with round-to-nearest-even, written out
    over [Z] (module [F64]), and [round(x, 2)] is CPython's correctly
    rounded two-digit rounding. *)

From Stdlib Require Import ZArith List Ascii String Bool Lia.
From Stdlib Require Import Reals Lra.
From Stdlib Require Floats.SpecFloat.
Import ListNotations.
Local Open Scope Z_scope.

(** ** Binary64 arithmetic *)

Module F64.

(** A float is [m * 2^e], an infinity or a NaN.  The sign of a zero is
    not kept: nothing in the audit distinguishes [-0.0] from [0.0]. *)
Inductive float : Type :=
| Finite (m e : Z)
| Infinity (neg : bool)
| NaN.

Definition prec : Z := 53.
Definition emin : Z := -1074.
Definition emax : Z := 1024.

Definition zero : float := Finite 0 0.

(** [rne p q], for [0 < q]: the integer nearest to [p / q], ties to the
    even one. *)
Definition rne (p q : Z) : Z :=
  let f := p / q in
  let r := 2 * (p mod q) in
  if r <? q then f
  else if q <? r then f + 1
  else if Z.even f then f else f + 1.

(** [scale p q e] is the fraction [p / (q * 2^e)] with integer terms. *)
Definition scale (p q e : Z) : Z * Z :=
  if 0 <=? e then (p, q * 2 ^ e) else (p * 2 ^ (- e), q).

(** [ilog2 p q], for [0 < p] and [0 < q]: the [l] with
    [2^l <= p / q < 2^(l+1)]. *)
Definition ilog2 (p q : Z) : Z :=
  let l := Z.log2 p - Z.log2 q in
  let '(a, b) := scale p q l in
  if b <=? a then l else l - 1.

(** Canonical form of [m * 2^e] for [0 <= m <= 2^53], or the overflow. *)
Definition normalize (neg : bool) (m e : Z) : float :=
  if m =? 0 then zero
  else
    let '(m', e') := if m =? 2 ^ prec then (2 ^ (prec - 1), e + 1) else (m, e) in
    if emax - prec <? e' then Infinity neg
    else Finite (if neg then - m' else m') e'.

(** The binary64 nearest to [p / q], for [0 < q]. *)
Definition RN (p q : Z) : float :=
  if p =? 0 then zero
  else
    let a := Z.abs p in
    let e := Z.max (ilog2 a q - (prec - 1)) emin in
    let '(n, d) := scale a q e in
    normalize (p <? 0) (rne n d) e.

Definition of_int (n : Z) : float := RN n 1.

(** [x * y] *)
Definition mul (x y : float) : float :=
  match x, y with
  | NaN, _ | _, NaN => NaN
  | Finite m1 e1, Finite m2 e2 =>
      let '(n, d) := scale (m1 * m2) 1 (- (e1 + e2)) in RN n d
  | Finite m _, Infinity s | Infinity s, Finite m _ =>
      if m =? 0 then NaN else Infinity (xorb s (m <? 0))
  | Infinity s1, Infinity s2 => Infinity (xorb s1 s2)
  end.

(** [hundredths x]: the integer nearest to [100 * x], ties to even, for a
    finite [x]; the digits that CPython's [round(x, 2)] prints. *)
Definition hundredths (m e : Z) : Z :=
  let '(n, d) := scale (100 * m) 1 (- e) in rne n d.

Definition of_hundredths (k : Z) : float := RN k 100.

(** [round(x, 2)]: infinities and NaN round to themselves, a finite
    value goes to the float nearest its two-digit decimal. *)
Definition round2 (x : float) : float :=
  match x with
  | Finite m e => of_hundredths (hundredths m e)
  | _ => x
  end.

(** Exact comparison of finite values. *)
Definition cmp_finite (m1 e1 m2 e2 : Z) : comparison :=
  let e := Z.min e1 e2 in
  (m1 * 2 ^ (e1 - e)) ?= (m2 * 2 ^ (e2 - e)).

(** [x < y], false on NaN. *)
Definition ltb (x y : float) : bool :=
  match x, y with
  | NaN, _ | _, NaN => false
  | Finite m1 e1, Finite m2 e2 =>
      match cmp_finite m1 e1 m2 e2 with Lt => true | _ => false end
  | Infinity s, Finite _ _ => s
  | Finite _ _, Infinity s => negb s
  | Infinity s1, Infinity s2 => s1 && negb s2
  end.

(** The real number a finite float stands for. *)
Definition F2R (m e : Z) : R := (IZR m * powerRZ 2 e)%R.

End F64.

Import F64.

(** Agreement with the Standard Library's IEEE 754 model on samples. *)
Module SF.
Import Floats.SpecFloat.
Definition of_spec (x : spec_float) : float :=
  match x with
  | S754_zero _ => zero
  | S754_infinity s => Infinity s
  | S754_nan => NaN
  | S754_finite s m e => Finite (if s then Z.neg m else Z.pos m) e
  end.
Definition div (a b : positive) : float :=
  of_spec (SFdiv 53 1024 (S754_finite false a 0) (S754_finite false b 0)).
Definition mul100 (a b : positive) : float :=
  of_spec (SFmul 53 1024
             (SFdiv 53 1024 (S754_finite false a 0) (S754_finite false b 0))
             (binary_normalize 53 1024 100 0 false)).
End SF.

(** ** Python values *)

(** A number of the audit: an [int] or a [float]. *)
Inductive pynum : Type :=
| PInt (n : Z)
| PFloat (x : float).

(** The value of a number as [m * 2^e]; an int is taken as it is, not
    rounded, since Python compares an int with a float exactly. *)
Definition exact (v : pynum) : float :=
  match v with
  | PInt n => Finite n 0
  | PFloat x => x
  end.

(** [a < b] and [a > b]. *)
Definition num_ltb (a b : pynum) : bool := F64.ltb (exact a) (exact b).
Definition num_gtb (a b : pynum) : bool := num_ltb b a.

Inductive exn : Type :=
| ValueError
| IndexError
| OverflowError
| ZeroDivisionError
| TypeError
| AttributeError
| KeyError.

(** [a / b] on ints: the correctly rounded quotient. *)
Definition int_true_div (a b : Z) : exn + float :=
  if b =? 0 then inl ZeroDivisionError
  else
    match RN (if b <? 0 then - a else a) (Z.abs b) with
    | Infinity _ => inl OverflowError
    | x => inr x
    end.

(** Line 427:
    [round(total_sessions / total_users, 2) if total_users > 0 else 0] *)
Definition sessions_per_user (total_sessions total_users : Z) : exn + pynum :=
  if 0 <? total_users then
    match int_true_div total_sessions total_users with
    | inl e => inl e
    | inr q => inr (PFloat (round2 q))
    end
  else inr (PInt 0).

(** [round((b / a) * 100, 2)] *)
Definition percent (b a : Z) : exn + pynum :=
  match int_true_div b a with
  | inl e => inl e
  | inr q => inr (PFloat (round2 (F64.mul q (of_int 100))))
  end.

(** Line 450:
    [round((unassigned_sessions / total_sessions) * 100, 2)
     if total_sessions > 0 else 0] *)
Definition percent_unassigned (unassigned_sessions total_sessions : Z)
  : exn + pynum :=
  if 0 <? total_sessions then percent unassigned_sessions total_sessions
  else inr (PInt 0).

(** ** Funnel *)

Record FunnelData : Type := mkFunnel {
  view_item : Z;
  add_to_cart : Z;
  begin_checkout : Z;
  purchase : Z
}.

Record Rates : Type := mkRates {
  view_to_cart : pynum;
  cart_to_checkout : pynum;
  checkout_to_purchase : pynum;
  view_to_purchase : pynum
}.

(** Lines 591-595.  The four rates exist only under the guard
    [funnel_data["view_item"] > 0]; [None] is the run that skips them. *)
Definition funnel_rates (f : FunnelData) : exn + option Rates :=
  if 0 <? view_item f then
    match percent (add_to_cart f) (view_item f) with
    | inl e => inl e
    | inr v2c =>
      match (if 0 <? add_to_cart f
             then percent (begin_checkout f) (add_to_cart f)
             else inr (PInt 0)) with
      | inl e => inl e
      | inr c2c =>
        match (if 0 <? begin_checkout f
               then percent (purchase f) (begin_checkout f)
               else inr (PInt 0)) with
        | inl e => inl e
        | inr c2p =>
          match percent (purchase f) (view_item f) with
          | inl e => inl e
          | inr v2p => inr (Some (mkRates v2c c2c c2p v2p))
          end
        end
      end
    end
  else inr None.

(** ** Reports of the Data API *)

(** A row of a report, after JSON decoding: the ["value"] strings of its
    ["dimensionValues"] and ["metricValues"]. *)
Record MetricRow : Type := mkRow {
  dimensionValues : list string;
  metricValues : list string
}.

(** A JSON value where the code only prints it (line 412): a string
    prints as it is and [null] as [None]; for a number, a boolean, an
    array or an object the text that Python's [str] gives is taken as
    given. *)
Inductive MessageValue : Type :=
| MessageString (s : string)
| MessageNull
| MessageOther (str : string).

Definition py_str (m : MessageValue) : string :=
  match m with
  | MessageString s => s
  | MessageNull => "None"
  | MessageOther t => t
  end.

(** The ["error"] entry of a response: an object, of which the code reads
    the ["message"] entry if it has one, or a JSON value that is not an
    object ([null], a string, a number, a boolean, an array). *)
Inductive ErrorValue : Type :=
| ErrorObject (message : option MessageValue)
| NotAnObject.

(** A decoded response that is a JSON object: either key may be missing.
    The ["rows"] entry is read as the API documents it, an array of
    rows. *)
Record Report : Type := mkReport {
  error : option ErrorValue;
  rows : option (list MetricRow)
}.

(** What [response.json()] returns: any JSON value. *)
Inductive Payload : Type :=
| Object (report : Report)
| Array (strings : list string)   (* an array; the strings among its items *)
| Text (s : string)               (* a string *)
| Atom.                           (* a number, a boolean or [null] *)

Inductive FilterExpression : Type :=
| StringFilter (fieldName value : string)
| NumericFilter (fieldName operation int64Value : string).

(** The body of a [runReport] request (lines 395-402). *)
Record Body : Type := mkBody {
  startDate : string;
  endDate : string;
  metrics : list string;
  dimensions : option (list string);
  dimensionFilter : option FilterExpression
}.

(** ** What the run shows *)

(** A piece of an f-string; number formats are kept, not printed. *)
Inductive frag : Type :=
| Lit (s : string)
| FStr (s : string)            (* {s} *)
| FInt (n : Z)                 (* {n} *)
| FIntComma (n : Z)            (* {n:,} *)
| FNum (v : pynum)             (* {v} *)
| FMoney (v : pynum).          (* {v:,.2f} *)

Definition fstring : Type := list frag.

(** A value of the CSV table: a number or a formatted string. *)
Inductive cell : Type :=
| CNum (v : pynum)
| CStr (s : fstring).

Inductive event : Type :=
| Post (body : Body)
| StatusText (s : string)
| Progress (n : Z)
| ProgressEmpty
| StatusEmpty
| StError (s : string)
| Markdown (s : string)
| Metric (label : string) (value : fstring)
| Write (s : fstring)
| Info (s : string)
| Success (s : string)
| Download (label : string) (columns : list string) (data : list (string * cell))
| Button (label : string).

(** How a run ends early: [st.stop()] or an uncaught exception. *)
Inductive halt : Type :=
| Stop
| Raise (e : exn).

(** A computation writes events and then halts or returns. *)
Definition M (A : Type) : Type := list event * (halt + A).

Definition ret {A} (a : A) : M A := ([], inr a).

Definition bind {A B} (m : M A) (k : A -> M B) : M B :=
  match m with
  | (t, inl h) => (t, inl h)
  | (t, inr a) => let '(t', r) := k a in (t ++ t', r)
  end.

Definition emit (e : event) : M unit := ([e], inr tt).
Definition stop {A} : M A := ([], inl Stop).
Definition raise {A} (e : exn) : M A := ([], inl (Raise e)).

Definition lift {A} (r : exn + A) : M A :=
  match r with
  | inl e => raise e
  | inr a => ret a
  end.

Declare Scope run_scope.
Delimit Scope run_scope with run.
Notation "x <- m ;; k" := (bind m (fun x => k))
  (at level 61, m at next level, right associativity) : run_scope.
Notation "m ;; k" := (bind m (fun _ => k))
  (at level 61, right associativity) : run_scope.
Local Open Scope run_scope.
Local Open Scope string_scope.
Local Open Scope list_scope.
Local Open Scope Z_scope.

(** [for x in xs: body], threading the loop's variables. *)
Fixpoint for_each {A S} (xs : list A) (body : S -> A -> M S) (s : S) : M S :=
  match xs with
  | [] => ret s
  | x :: xs' => s' <- body s x ;; for_each xs' body s'
  end.

Record Medium : Type := mkMedium {
  medium : string;
  sessions : Z
}.

Record Duplicate : Type := mkDuplicate {
  transaction_id : string;
  count : Z
}.

(** [audit_data] (lines 520-528). *)
Record AuditData : Type := mkAudit {
  total_sessions : Z;
  total_users : Z;
  ad_sessions_per_user : pynum;
  unassigned_sessions : Z;
  ad_percent_unassigned : pynum;
  total_transactions : Z;
  total_revenue : pynum
}.

(** The rows of an object: [data.get("rows", [])]. *)
Definition get_rows (data : Report) : list MetricRow :=
  match rows data with
  | Some rs => rs
  | None => []
  end.

(** The first row of an object when it is there:
    ["rows" in data and data["rows"]]. *)
Definition first_row (data : Report) : option MetricRow :=
  match rows data with
  | Some (r :: _) => Some r
  | _ => None
  end.

(** [sub in s] on strings. *)
Fixpoint contains (sub s : string) : bool :=
  String.prefix sub s ||
  match s with
  | EmptyString => false
  | String _ s' => contains sub s'
  end.

(** [key in data] for the key ["error"] or ["rows"] and any payload: the
    key is looked up in an object, among the items of an array and as a
    part of a string; a number, a boolean or [null] cannot be searched. *)
Definition has_key (key : string) (in_object : Report -> bool)
    (data : Payload) : exn + bool :=
  match data with
  | Object r => inr (in_object r)
  | Array items => inr (existsb (String.eqb key) items)
  | Text s => inr (contains key s)
  | Atom => inl TypeError
  end.

Definition is_some {A} (x : option A) : bool :=
  match x with
  | Some _ => true
  | None => false
  end.

(** ["error" in result] *)
Definition has_error (result : Payload) : exn + bool :=
  has_key "error" (fun r => is_some (error r)) result.

(** [result['error'].get('message', 'Unknown error')], as the f-string of
    line 412 prints it.  An array or a string is not indexed by a string,
    and only an object has [get]. *)
Definition error_message (result : Payload) : exn + string :=
  match result with
  | Object r =>
      match error r with
      | Some (ErrorObject (Some m)) => inr (py_str m)
      | Some (ErrorObject None) => inr "Unknown error"
      | Some NotAnObject => inl AttributeError
      | None => inl KeyError
      end
  | _ => inl TypeError
  end.

(** ["rows" in data and data["rows"]], for any payload: the first row when
    it is there. *)
Definition read_first_row (data : Payload) : exn + option MetricRow :=
  match has_key "rows" (fun r => is_some (rows r)) data with
  | inl e => inl e
  | inr false => inr None
  | inr true =>
      match data with
      | Object r => inr (first_row r)
      | _ => inl TypeError
      end
  end.

(** [data.get("rows", [])], for any payload: only an object has [get]. *)
Definition read_rows (data : Payload) : exn + list MetricRow :=
  match data with
  | Object r => inr (get_rows r)
  | _ => inl AttributeError
  end.

(** ** Insight rules (lines 661-669) *)

Definition low_sessions_warning : string :=
  "⚠️ **Low sessions per user** - Consider improving user engagement".
Definition high_unassigned_warning : string :=
  "⚠️ **High unassigned traffic** - Review UTM parameters and attribution".
Definition duplicate_warning : string :=
  "⚠️ **Duplicate transactions detected** - Review e-commerce implementation".
Definition no_purchase_warning : string :=
  "⚠️ **No purchase events** - Check e-commerce tracking setup".
Definition healthy_message : string :=
  "✅ All metrics look healthy!".

(** The literal [1.5]. *)
Definition one_and_a_half : float := RN 3 2.

Definition insights (sessions_per_user percent_unassigned : pynum)
    (duplicate_transaction_ids : list Duplicate) (funnel_data : FunnelData)
  : list string :=
  let insights := [] in
  let insights :=
    if num_ltb sessions_per_user (PFloat one_and_a_half)
    then insights ++ [low_sessions_warning] else insights in
  let insights :=
    if num_gtb percent_unassigned (PInt 20)
    then insights ++ [high_unassigned_warning] else insights in
  let insights :=
    if 0 <? Z.of_nat (List.length duplicate_transaction_ids)
    then insights ++ [duplicate_warning] else insights in
  let insights :=
    if purchase funnel_data =? 0
    then insights ++ [no_purchase_warning] else insights in
  insights.

(** Lines 671-675. *)
Definition show_insights (insights : list string) : M unit :=
  match insights with
  | [] => emit (Success healthy_message)
  | _ => for_each insights (fun _ insight => emit (Write [Lit insight])) tt
  end.

(** ** CSV rows (lines 626-648) *)

Definition csv_audit_data (a : AuditData) (funnel_data : FunnelData)
    (unassigned_mediums : list Medium)
    (duplicate_transaction_ids : list Duplicate) : list (string * cell) :=
  let csv_audit_data := [
    ("Total Sessions (L90)", CNum (PInt (total_sessions a)));
    ("Total Users (L90)", CNum (PInt (total_users a)));
    ("Sessions per User", CNum (ad_sessions_per_user a));
    ("Unassigned Sessions (L90)", CNum (PInt (unassigned_sessions a)));
    ("Percent Unassigned Sessions",
       CStr [FNum (ad_percent_unassigned a); Lit "%"]);
    ("Total Transactions (L90)", CNum (PInt (total_transactions a)));
    ("Total Revenue (L90)", CNum (total_revenue a));
    ("View Item Events", CNum (PInt (view_item funnel_data)));
    ("Add to Cart Events", CNum (PInt (add_to_cart funnel_data)));
    ("Begin Checkout Events", CNum (PInt (begin_checkout funnel_data)));
    ("Purchase Events", CNum (PInt (purchase funnel_data)))
  ] in
  let csv_audit_data :=
    fold_left (fun csv medium_data =>
                 csv ++ [(("Unassigned - " ++ medium medium_data)%string,
                          CNum (PInt (sessions medium_data)))])
              unassigned_mediums csv_audit_data in
  let csv_audit_data :=
    fold_left (fun csv dup_data =>
                 csv ++ [(("Duplicate Transaction - " ++ transaction_id dup_data)%string,
                          CNum (PInt (count dup_data)))])
              duplicate_transaction_ids csv_audit_data in
  csv_audit_data.

Definition csv_columns : list string := ["Metric"; "Value"].

(** ** The audit run (lines 394-675) *)

Definition invalid_json_message : string :=
  "❌ Invalid JSON response from GA4 API.".
Definition api_error_message (m : string) : string :=
  ("❌ GA4 API error: " ++ m)%string.
Definition missing_baseline_message : string :=
  "❌ Failed to retrieve sessions and users data".

(** The request that [fetch_metric_report] builds (lines 395-402). *)
Definition request (metrics dimensions : list string)
    (filters : option FilterExpression) : Body :=
  mkBody "90daysAgo" "today" metrics
         (match dimensions with [] => None | _ => Some dimensions end)
         filters.

(** Truth value of a [str]. *)
Definition not_empty (s : string) : bool :=
  match s with
  | EmptyString => false
  | String _ _ => true
  end.

Section Run.

(** Python's [str.strip()], and the text of the URL field (line 67). *)
Variable strip : string -> string.
Variable sheet_url : string.

(** Python's [int(s)] and [float(s)]; [None] is their [ValueError]. *)
Variable py_int : string -> option Z.
Variable py_float : string -> option float.

(** The Data API behind [requests.post(run_report_url, ...)]: the decoded
    JSON of the response, [None] when [response.json()] raises its
    [ValueError]. *)
Variable post : Body -> option Payload.

(** Lines 394-415.  No call of the run passes [date_range]. *)
Definition fetch_metric_report (metrics dimensions : list string)
    (filters : option FilterExpression) : M Payload :=
  let body := request metrics dimensions filters in
  emit (Post body) ;;
  match post body with
  | None => emit (StError invalid_json_message) ;; stop
  | Some result =>
      found <- lift (has_error result) ;;
      if found : bool then
        message <- lift (error_message result) ;;
        emit (StError (api_error_message message)) ;;
        stop
      else ret result
  end.

(** [row["dimensionValues"][i]["value"]] *)
Definition dimension_value (row : MetricRow) (i : nat) : M string :=
  match nth_error (dimensionValues row) i with
  | Some s => ret s
  | None => raise IndexError
  end.

(** [int(row["metricValues"][i]["value"])] *)
Definition int_metric (row : MetricRow) (i : nat) : M Z :=
  match nth_error (metricValues row) i with
  | Some s =>
      match py_int s with
      | Some n => ret n
      | None => raise ValueError
      end
  | None => raise IndexError
  end.

(** [float(row["metricValues"][i]["value"])] *)
Definition float_metric (row : MetricRow) (i : nat) : M float :=
  match nth_error (metricValues row) i with
  | Some s =>
      match py_float s with
      | Some x => ret x
      | None => raise ValueError
      end
  | None => raise IndexError
  end.

(** Section 1 (lines 418-430): total sessions, total users and their
    ratio. *)
Definition sessions_and_users : M (Z * Z * pynum) :=
  emit (StatusText "📊 Analyzing Sessions and Users (Last 90 Days)...") ;;
  emit (Progress 20) ;;
  sessions_users_data <- fetch_metric_report ["sessions"; "totalUsers"] [] None ;;
  first <- lift (read_first_row sessions_users_data) ;;
  match first with
  | Some row =>
      total_sessions <- int_metric row 0 ;;
      total_users <- int_metric row 1 ;;
      sessions_per_user <- lift (sessions_per_user total_sessions total_users) ;;
      ret (total_sessions, total_users, sessions_per_user)
  | None =>
      emit (StError missing_baseline_message) ;; stop
  end.

(** Lines 440-448: the loop over the channel rows, on the pair
    [(unassigned_sessions, total_sessions_from_channels)]. *)
Definition scan_channels (channel_rows : list MetricRow) : M (Z * Z) :=
  for_each channel_rows
    (fun '(unassigned_sessions, total_sessions_from_channels) row =>
       channel <- dimension_value row 0 ;;
       sessions_count <- int_metric row 0 ;;
       ret (if String.eqb channel "Unassigned"
            then sessions_count else unassigned_sessions,
            total_sessions_from_channels + sessions_count))
    (0, 0).

(** Lines 459-463. *)
Definition scan_mediums (medium_rows : list MetricRow) : M (list Medium) :=
  for_each medium_rows
    (fun unassigned_mediums row =>
       medium <- dimension_value row 0 ;;
       sessions_count <- int_metric row 0 ;;
       ret (unassigned_mediums ++ [mkMedium medium sessions_count]))
    [].

(** Section 2 (lines 433-463). *)
Definition unassigned_traffic (total_sessions : Z)
  : M (Z * pynum * list Medium) :=
  emit (StatusText "🔍 Analyzing Unassigned Traffic...") ;;
  emit (Progress 40) ;;
  channel_data <- fetch_metric_report ["sessions"] ["defaultChannelGrouping"] None ;;
  channel_rows <- lift (read_rows channel_data) ;;
  scanned <- scan_channels channel_rows ;;
  let unassigned_sessions := fst scanned in
  percent_unassigned <- lift (percent_unassigned unassigned_sessions total_sessions) ;;
  unassigned_medium_data <-
    fetch_metric_report ["sessions"] ["sessionMedium"]
      (Some (StringFilter "defaultChannelGrouping" "Unassigned")) ;;
  medium_rows <- lift (read_rows unassigned_medium_data) ;;
  unassigned_mediums <- scan_mediums medium_rows ;;
  ret (unassigned_sessions, percent_unassigned, unassigned_mediums).

(** Lines 472-477. *)
Definition read_transactions (transactions_revenue_data : Payload)
  : M (Z * pynum) :=
  first <- lift (read_first_row transactions_revenue_data) ;;
  match first with
  | Some row =>
      total_transactions <- int_metric row 0 ;;
      total_revenue <- float_metric row 1 ;;
      ret (total_transactions, PFloat total_revenue)
  | None => ret (0, PInt 0)
  end.

(** Lines 486-490. *)
Definition scan_duplicates (id_rows : list MetricRow) : M (list Duplicate) :=
  for_each id_rows
    (fun duplicate_transaction_ids row =>
       transaction_id <- dimension_value row 0 ;;
       transaction_count <- int_metric row 0 ;;
       ret (duplicate_transaction_ids
              ++ [mkDuplicate transaction_id transaction_count]))
    [].

(** Section 3 (lines 466-490). *)
Definition transactions_and_revenue : M (Z * pynum * list Duplicate) :=
  emit (StatusText "💰 Analyzing Transactions and Revenue...") ;;
  emit (Progress 60) ;;
  transactions_revenue_data <-
    fetch_metric_report ["transactions"; "totalRevenue"] [] None ;;
  totals <- read_transactions transactions_revenue_data ;;
  transaction_id_data <-
    fetch_metric_report ["transactions"] ["transactionId"]
      (Some (NumericFilter "transactions" "GREATER_THAN" "1")) ;;
  id_rows <- lift (read_rows transaction_id_data) ;;
  duplicate_transaction_ids <- scan_duplicates id_rows ;;
  ret (fst totals, snd totals, duplicate_transaction_ids).

(** One turn of the loop of lines 500-509. *)
Definition funnel_count (event : string) : M Z :=
  event_data <-
    fetch_metric_report ["eventCount"] []
      (Some (StringFilter "eventName" event)) ;;
  first <- lift (read_first_row event_data) ;;
  match first with
  | Some row => int_metric row 0
  | None => ret 0
  end.

(** Section 4 (lines 493-509): the loop over the four funnel events. *)
Definition funnel_analysis : M FunnelData :=
  emit (StatusText "🔄 Analyzing Conversion Funnel...") ;;
  emit (Progress 80) ;;
  view_item <- funnel_count "view_item" ;;
  add_to_cart <- funnel_count "add_to_cart" ;;
  begin_checkout <- funnel_count "begin_checkout" ;;
  purchase <- funnel_count "purchase" ;;
  ret (mkFunnel view_item add_to_cart begin_checkout purchase).

(** Lines 531-601: the summary on the page. *)
Definition show_results (a : AuditData) (funnel_data : FunnelData)
    (unassigned_mediums : list Medium)
    (duplicate_transaction_ids : list Duplicate) : M unit :=
  emit (Markdown "## 📊 GA4 Audit V2 Results (Last 90 Days)") ;;
  emit (Markdown "### 1️⃣ Sessions and Users Analysis") ;;
  emit (Metric "Total Sessions" [FIntComma (total_sessions a)]) ;;
  emit (Metric "Total Users" [FIntComma (total_users a)]) ;;
  emit (Metric "Sessions per User" [FNum (ad_sessions_per_user a)]) ;;
  emit (Markdown "### 2️⃣ Unassigned Traffic Analysis") ;;
  emit (Metric "Unassigned Sessions" [FIntComma (unassigned_sessions a)]) ;;
  emit (Metric "Percent of Total" [FNum (ad_percent_unassigned a); Lit "%"]) ;;
  match unassigned_mediums with
  | [] => emit (Info "No unassigned traffic found or no medium data available")
  | _ =>
      emit (Markdown "**Session Medium Breakdown (Unassigned Traffic):**") ;;
      for_each unassigned_mediums
        (fun _ medium_data =>
           emit (Write [Lit "- **"; FStr (medium medium_data); Lit "**: ";
                        FIntComma (sessions medium_data); Lit " sessions"]))
        tt
  end ;;
  emit (Markdown "### 3️⃣ Transactions and Revenue Analysis") ;;
  emit (Metric "Total Transactions" [FIntComma (total_transactions a)]) ;;
  emit (Metric "Total Revenue" [Lit "$"; FMoney (total_revenue a)]) ;;
  match duplicate_transaction_ids with
  | [] => emit (Info "No duplicate transaction IDs found")
  | _ =>
      emit (Markdown "**Transaction IDs with >1 Transaction:**") ;;
      for_each (firstn 10 duplicate_transaction_ids)
        (fun _ dup_data =>
           emit (Write [Lit "- **"; FStr (transaction_id dup_data);
                        Lit "**: "; FInt (count dup_data);
                        Lit " transactions"]))
        tt ;;
      if 10 <? Z.of_nat (List.length duplicate_transaction_ids)
      then emit (Write [Lit "... and ";
                        FInt (Z.of_nat (List.length duplicate_transaction_ids) - 10);
                        Lit " more"])
      else ret tt
  end ;;
  emit (Markdown "### 4️⃣ Conversion Funnel Analysis") ;;
  emit (Metric "View Item" [FIntComma (view_item funnel_data)]) ;;
  emit (Metric "Add to Cart" [FIntComma (add_to_cart funnel_data)]) ;;
  emit (Metric "Begin Checkout" [FIntComma (begin_checkout funnel_data)]) ;;
  emit (Metric "Purchase" [FIntComma (purchase funnel_data)]) ;;
  emit (Markdown "**Funnel Conversion Rates:**") ;;
  rates <- lift (funnel_rates funnel_data) ;;
  match rates with
  | Some r =>
      emit (Metric "View → Cart" [FNum (view_to_cart r); Lit "%"]) ;;
      emit (Metric "Cart → Checkout" [FNum (cart_to_checkout r); Lit "%"]) ;;
      emit (Metric "Checkout → Purchase" [FNum (checkout_to_purchase r); Lit "%"]) ;;
      emit (Metric "View → Purchase" [FNum (view_to_purchase r); Lit "%"])
  | None => ret tt
  end.

(** [sheet_url and sheet_url.strip()] (line 607). *)
Definition push_offered : bool :=
  not_empty sheet_url && not_empty (strip sheet_url).

(** Lines 604-675: the exports and the insights.  The spreadsheet button
    of line 608 is drawn when a URL was entered.  A click starts one run of
    the script and only the clicked button answers [True] in it; this run
    was started by the click of the audit button (line 380), so here the
    spreadsheet button answers [False] and lines 609-620 are not run.
    What they do is [push_pressed]. *)
Definition show_exports_and_insights (a : AuditData)
    (funnel_data : FunnelData) (unassigned_mediums : list Medium)
    (duplicate_transaction_ids : list Duplicate) : M unit :=
  emit (Markdown "### 📥 Export Options") ;;
  (if push_offered
   then emit (Button "📊 Push to Google Sheets")
   else ret tt) ;;
  emit (Markdown "**Or download as CSV:**") ;;
  emit (Download "📊 Download Full Audit Report (CSV)" csv_columns
          (csv_audit_data a funnel_data unassigned_mediums
                          duplicate_transaction_ids)) ;;
  emit (Markdown "### 💡 Key Insights") ;;
  show_insights (insights (ad_sessions_per_user a) (ad_percent_unassigned a)
                          duplicate_transaction_ids funnel_data).

(** The body of [if run_audit:]. *)
Definition run_audit : M AuditData :=
  emit (StatusText "🔍 Starting GA4 Audit V2...") ;;
  emit (Progress 10) ;;
  s1 <- sessions_and_users ;;
  let '(total_sessions, total_users, sessions_per_user) := s1 in
  s2 <- unassigned_traffic total_sessions ;;
  let '(unassigned_sessions, percent_unassigned, unassigned_mediums) := s2 in
  s3 <- transactions_and_revenue ;;
  let '(total_transactions, total_revenue, duplicate_transaction_ids) := s3 in
  funnel_data <- funnel_analysis ;;
  emit (StatusText "✅ Audit Complete! Generating Report...") ;;
  emit (Progress 100) ;;
  emit ProgressEmpty ;;
  emit StatusEmpty ;;
  let audit_data :=
    mkAudit total_sessions total_users sessions_per_user unassigned_sessions
            percent_unassigned total_transactions total_revenue in
  show_results audit_data funnel_data unassigned_mediums
               duplicate_transaction_ids ;;
  show_exports_and_insights audit_data funnel_data unassigned_mediums
                            duplicate_transaction_ids ;;
  ret audit_data.

End Run.

(** An event that shows a figure of the summary or offers the export. *)
Definition shows_summary (e : event) : bool :=
  match e with
  | Metric _ _ | Write _ | Markdown _ | Info _ | Success _
  | Download _ _ _ | Button _ => true
  | _ => false
  end.

Definition is_post (e : event) : bool :=
  match e with
  | Post _ => true
  | _ => false
  end.

(** ** Sample inputs *)

Module Sample.

Definition digit (c : Ascii.ascii) : option Z :=
  let n := Z.of_nat (Ascii.nat_of_ascii c) in
  if (48 <=? n) && (n <=? 57) then Some (n - 48) else None.

(** Digits read from the left, with the number of digits read. *)
Fixpoint digits (s : string) (acc : Z) (len : nat) : option (Z * nat) :=
  match s with
  | EmptyString => Some (acc, len)
  | String c s' =>
      match digit c with
      | Some d => digits s' (10 * acc + d) (S len)
      | None => None
      end
  end.

(** [int] on a plain decimal numeral. *)
Definition dec_int (s : string) : option Z :=
  match s with
  | EmptyString => None
  | _ => option_map fst (digits s 0 O)
  end.

Fixpoint split_dot (s : string) : string * option string :=
  match s with
  | EmptyString => (EmptyString, None)
  | String c s' =>
      if Ascii.eqb c "."%char then (EmptyString, Some s')
      else let '(a, b) := split_dot s' in (String c a, b)
  end.

(** [float] on a plain decimal numeral with an optional fraction. *)
Definition dec_float (s : string) : option float :=
  match split_dot s with
  | (a, None) => option_map of_int (dec_int a)
  | (a, Some b) =>
      match dec_int a, digits b 0 O with
      | Some n, Some (f, len) =>
          Some (RN (n * 10 ^ Z.of_nat len + f) (10 ^ Z.of_nat len))
      | _, _ => None
      end
  end.

Definition ok (rs : list MetricRow) : option Payload :=
  Some (Object (mkReport None (Some rs))).

(** A property with traffic, one duplicated transaction and a funnel. *)
Definition shop (body : Body) : option Payload :=
  match metrics body, dimensions body, dimensionFilter body with
  | ["sessions"; "totalUsers"], None, None => ok [mkRow [] ["1000"; "500"]]
  | ["sessions"], Some ["defaultChannelGrouping"], None =>
      ok [mkRow ["Unassigned"] ["300"]; mkRow ["Organic"] ["700"]]
  | ["sessions"], Some ["sessionMedium"], Some _ =>
      ok [mkRow ["(not set)"] ["300"]]
  | ["transactions"; "totalRevenue"], None, None =>
      ok [mkRow [] ["25"; "1234.5"]]
  | ["transactions"], Some ["transactionId"], Some _ =>
      ok [mkRow ["TXN1"] ["3"]; mkRow ["TXN2"] ["2"]]
  | ["eventCount"], None, Some (StringFilter _ "view_item") =>
      ok [mkRow [] ["1000"]]
  | ["eventCount"], None, Some (StringFilter _ "add_to_cart") =>
      ok [mkRow [] ["400"]]
  | ["eventCount"], None, Some (StringFilter _ "begin_checkout") =>
      ok [mkRow [] ["100"]]
  | ["eventCount"], None, Some (StringFilter _ "purchase") =>
      ok [mkRow [] ["20"]]
  | _, _, _ => None
  end.

(** The same property when a query answers without rows. *)
Definition without (ms : list string) (api : Body -> option Payload)
    (body : Body) : option Payload :=
  if list_eq_dec string_dec (metrics body) ms
  then Some (Object (mkReport None None))
  else api body.

Definition is_space (c : Ascii.ascii) : bool :=
  let n := Z.of_nat (Ascii.nat_of_ascii c) in
  ((9 <=? n) && (n <=? 13)) || (n =? 32).

Fixpoint lstrip (s : string) : string :=
  match s with
  | EmptyString => EmptyString
  | String c s' => if is_space c then lstrip s' else s
  end.

Fixpoint reversed (s acc : string) : string :=
  match s with
  | EmptyString => acc
  | String c s' => reversed s' (String c acc)
  end.

(** [strip] on ASCII text. *)
Definition strip (s : string) : string :=
  reversed (lstrip (reversed (lstrip s) EmptyString)) EmptyString.

Definition sheet_url : string :=
  "https://docs.google.com/spreadsheets/d/abc-1/edit".

End Sample.

(** The request of the sessions and users query (line 422). *)
Definition baseline_request : Body := request ["sessions"; "totalUsers"] [] None.

(** The eleven base rows of the CSV table (lines 626-638). *)
Definition base_rows (a : AuditData) (funnel_data : FunnelData)
  : list (string * cell) :=
  [ ("Total Sessions (L90)", CNum (PInt (total_sessions a)));
    ("Total Users (L90)", CNum (PInt (total_users a)));
    ("Sessions per User", CNum (ad_sessions_per_user a));
    ("Unassigned Sessions (L90)", CNum (PInt (unassigned_sessions a)));
    ("Percent Unassigned Sessions",
       CStr [FNum (ad_percent_unassigned a); Lit "%"]);
    ("Total Transactions (L90)", CNum (PInt (total_transactions a)));
    ("Total Revenue (L90)", CNum (total_revenue a));
    ("View Item Events", CNum (PInt (view_item funnel_data)));
    ("Add to Cart Events", CNum (PInt (add_to_cart funnel_data)));
    ("Begin Checkout Events", CNum (PInt (begin_checkout funnel_data)));
    ("Purchase Events", CNum (PInt (purchase funnel_data))) ].

Definition medium_row (m : Medium) : string * cell :=
  (("Unassigned - " ++ medium m)%string, CNum (PInt (sessions m))).

Definition duplicate_row (d : Duplicate) : string * cell :=
  (("Duplicate Transaction - " ++ transaction_id d)%string,
   CNum (PInt (count d))).

(** The requests of the channel and medium queries (lines 437, 453). *)
Definition channel_request : Body :=
  request ["sessions"] ["defaultChannelGrouping"] None.
Definition medium_request : Body :=
  request ["sessions"] ["sessionMedium"]
          (Some (StringFilter "defaultChannelGrouping" "Unassigned")).

(** A row whose first dimension is [d] and whose first metric reads as the
    int [n]. *)
Definition reads (py_int : string -> option Z) (row : MetricRow)
    (d : string) (n : Z) : Prop :=
  nth_error (dimensionValues row) 0 = Some d /\
  exists s, nth_error (metricValues row) 0 = Some s /\ py_int s = Some n.

Definition is_unassigned (cn : string * Z) : bool :=
  String.eqb (fst cn) "Unassigned".

(** The value zero, as an int or as a float. *)
Definition is_zero (v : pynum) : Prop := v = PInt 0 \/ v = PFloat zero.

(** The request of the transactions and revenue query (line 470). *)
Definition transactions_request : Body :=
  request ["transactions"; "totalRevenue"] [] None.

Definition same_metrics (a b : Body) : bool :=
  if list_eq_dec string_dec (metrics a) (metrics b) then true else false.

(** The API that answers the queries for the metrics of [b] with the
    object [result] and every other query as [post] does. *)
Definition answering (b : Body) (result : Report)
    (post : Body -> option Payload) (body : Body) : option Payload :=
  if same_metrics body b then Some (Object result) else post body.

(** [nearest k c a], for [0 < a]: [k] is an integer nearest to [c / a],
    whichever way a tie goes. *)
Definition nearest (k c a : Z) : Prop := 2 * Z.abs (k * a - c) <= a.

(** The mantissa of the float [100.0], which is [hundred_mantissa * 2^-46]. *)
Definition hundred_mantissa : Z := 7036874417766400.

(** [is_rate v b a]: [v] is the conversion rate from a stage counted [a]
    to a stage counted [b]: the float nearest to a two-digit decimal that
    is nearest to [100 * b / a], or the int 0 when [a] is 0. *)
Definition is_rate (v : pynum) (b a : Z) : Prop :=
  (0 < a /\
   exists k, v = PFloat (of_hundredths k) /\ nearest k (10000 * b) a) \/
  (a = 0 /\ v = PInt 0).

Definition nonneg_float (x : float) : Prop :=
  match x with
  | Finite m _ => 0 <= m
  | Infinity neg => neg = false
  | NaN => False
  end.

(** A number that is not below zero (and not a NaN). *)
Definition nonneg (v : pynum) : Prop :=
  match v with
  | PInt n => 0 <= n
  | PFloat x => nonneg_float x
  end.

(** [v < x] and [v > x] for a number of the audit and a real [x]: what
    Python's comparison of an int or a float with a number means; both are
    false of a NaN. *)
Definition below (v : pynum) (x : R) : Prop :=
  match exact v with
  | Finite m e => (F2R m e < x)%R
  | Infinity neg => neg = true
  | NaN => False
  end.

Definition above (v : pynum) (x : R) : Prop :=
  match exact v with
  | Finite m e => (x < F2R m e)%R
  | Infinity neg => neg = false
  | NaN => False
  end.

(** Operand pairs on which [F64] is compared with [SpecFloat]: small
    counts, the operands of the counterexamples, ties, subnormal and
    overflowing quotients. *)
Definition sample_operands : list (positive * positive) :=
  [ (1000, 500); (1, 3); (107, 40); (300, 1000); (400, 1000); (2, 300);
    (13510798882111488, 36028797018963969);
    (537357177058, 799579163839);
    (1, 2 ^ 1074); (1, 2 ^ 1075); (3, 2 ^ 1075); (3, 2 ^ 1076);
    (2 ^ 1024 - 2 ^ 970 - 1, 1); (2 ^ 1024 - 2 ^ 970, 1); (2 ^ 1024, 1);
    (2 ^ 53 + 1, 1); (2 ^ 53 + 3, 1); (9007199254740993, 7) ]%positive.

(** ** The spreadsheet locator (lines 132-139) *)

(** A Python [str] is read here as its UTF-8 bytes; the pattern is ASCII,
    so its matches are the same on bytes and on code points. *)

(** The literal part of the pattern [/spreadsheets/d/([a-zA-Z0-9-_]+)]. *)
Definition sheet_marker : string := "/spreadsheets/d/".

(** The class [[a-zA-Z0-9-_]]: letters, digits, the hyphen and the
    underscore. *)
Definition id_char (c : ascii) : bool :=
  let n := Z.of_nat (nat_of_ascii c) in
  ((97 <=? n) && (n <=? 122)) || ((65 <=? n) && (n <=? 90))
  || ((48 <=? n) && (n <=? 57)) || (n =? 45) || (n =? 95).

(** The greedy [+]: the longest run of class characters and the rest. *)
Fixpoint take_id (s : string) : string * string :=
  match s with
  | String c s' =>
      if id_char c
      then let '(a, b) := take_id s' in (String c a, b)
      else (EmptyString, s)
  | EmptyString => (EmptyString, EmptyString)
  end.

(** [strip_prefix p s] is the rest of [s] after [p], when [s] starts with
    [p]. *)
Fixpoint strip_prefix (p s : string) : option string :=
  match p, s with
  | EmptyString, _ => Some s
  | String a p', String b s' =>
      if Ascii.eqb a b then strip_prefix p' s' else None
  | String _ _, EmptyString => None
  end.

(** The pattern matched at the start of [s]: group 1. *)
Definition match_here (s : string) : option string :=
  match strip_prefix sheet_marker s with
  | Some rest =>
      match take_id rest with
      | (EmptyString, _) => None
      | (id, _) => Some id
      end
  | None => None
  end.

(** [re.search(pattern, s)]: the match at the leftmost position that has
    one. *)
Fixpoint search (s : string) : option string :=
  match match_here s with
  | Some id => Some id
  | None =>
      match s with
      | EmptyString => None
      | String _ s' => search s'
      end
  end.

Definition extract_sheet_id_from_url (url : string) : option string :=
  search url.

(** All characters of [s] are in the class. *)
Fixpoint all_id_chars (s : string) : bool :=
  match s with
  | EmptyString => true
  | String c s' => id_char c && all_id_chars s'
  end.

(** [s] does not go on with a class character. *)
Definition ends_id (s : string) : bool :=
  match s with
  | EmptyString => true
  | String c _ => negb (id_char c)
  end.


(** [s] has a slash with an [s] right after it, as the marker starts. *)
Fixpoint has_slash_s (s : string) : bool :=
  match s with
  | String a s' =>
      match s' with
      | String b _ => (Ascii.eqb a "/" && Ascii.eqb b "s") || has_slash_s s'
      | EmptyString => false
      end
  | EmptyString => false
  end.


(** ** Runs and their traces *)

(** The requests of the duplicate and funnel queries (lines 480, 501). *)
Definition transaction_ids_request : Body :=
  request ["transactions"] ["transactionId"]
          (Some (NumericFilter "transactions" "GREATER_THAN" "1")).
Definition funnel_request (event : string) : Body :=
  request ["eventCount"] [] (Some (StringFilter "eventName" event)).

(** The requests of a run that reaches its end, in their order. *)
Definition audit_requests : list Body :=
  [ baseline_request; channel_request; medium_request;
    transactions_request; transaction_ids_request;
    funnel_request "view_item"; funnel_request "add_to_cart";
    funnel_request "begin_checkout"; funnel_request "purchase" ].

Definition is_error (e : event) : bool :=
  match e with
  | StError _ => true
  | _ => false
  end.

(** A computation that shows nothing of the summary, and whose trace ends
    with an error message when it stops. *)
Definition fetching {A} (m : M A) : Prop :=
  existsb shows_summary (fst m) = false /\
  (snd m = inl Stop -> exists t msg, fst m = t ++ [StError msg]).

(** A computation that, when it stops, has shown nothing of the summary
    and has an error message as its last event. *)
Definition stops_clean {A} (m : M A) : Prop :=
  snd m = inl Stop ->
  existsb shows_summary (fst m) = false /\
  exists t msg, fst m = t ++ [StError msg].

Definition never_stops {A} (m : M A) : Prop := snd m <> inl Stop.


(** The requests in a trace. *)
Definition requests_of (t : list event) : list Body :=
  flat_map (fun e => match e with Post b => [b] | _ => [] end) t.

(** A computation whose requests are always the first ones of [l], and all
    of [l] when it returns. *)
Definition requests_within {A} (m : M A) (l : list Body) : Prop :=
  (exists rest, l = requests_of (fst m) ++ rest) /\
  (forall a, snd m = inr a -> requests_of (fst m) = l).


(** ** The page of a completed run *)

Definition medium_line (m : Medium) : event :=
  Write [Lit "- **"; FStr (medium m); Lit "**: ";
         FIntComma (sessions m); Lit " sessions"].

Definition duplicate_line (d : Duplicate) : event :=
  Write [Lit "- **"; FStr (transaction_id d); Lit "**: ";
         FInt (count d); Lit " transactions"].

Definition more_line (n : Z) : event :=
  Write [Lit "... and "; FInt n; Lit " more"].

Definition medium_events (ms : list Medium) : list event :=
  match ms with
  | [] => [Info "No unassigned traffic found or no medium data available"]
  | _ => Markdown "**Session Medium Breakdown (Unassigned Traffic):**"
         :: map medium_line ms
  end.

Definition duplicate_events (ds : list Duplicate) : list event :=
  match ds with
  | [] => [Info "No duplicate transaction IDs found"]
  | _ => Markdown "**Transaction IDs with >1 Transaction:**"
         :: map duplicate_line (firstn 10 ds)
         ++ (if 10 <? Z.of_nat (List.length ds)
             then [more_line (Z.of_nat (List.length ds) - 10)] else [])
  end.

Definition rates_events (f : FunnelData) : list event :=
  match funnel_rates f with
  | inr (Some r) =>
      [ Metric "View → Cart" [FNum (view_to_cart r); Lit "%"];
        Metric "Cart → Checkout" [FNum (cart_to_checkout r); Lit "%"];
        Metric "Checkout → Purchase" [FNum (checkout_to_purchase r); Lit "%"];
        Metric "View → Purchase" [FNum (view_to_purchase r); Lit "%"] ]
  | _ => []
  end.

(** What [show_results] puts on the page. *)
Definition results_events (a : AuditData) (f : FunnelData)
    (ms : list Medium) (ds : list Duplicate) : list event :=
  [ Markdown "## 📊 GA4 Audit V2 Results (Last 90 Days)";
    Markdown "### 1️⃣ Sessions and Users Analysis";
    Metric "Total Sessions" [FIntComma (total_sessions a)];
    Metric "Total Users" [FIntComma (total_users a)];
    Metric "Sessions per User" [FNum (ad_sessions_per_user a)];
    Markdown "### 2️⃣ Unassigned Traffic Analysis";
    Metric "Unassigned Sessions" [FIntComma (unassigned_sessions a)];
    Metric "Percent of Total" [FNum (ad_percent_unassigned a); Lit "%"] ]
  ++ medium_events ms
  ++ [ Markdown "### 3️⃣ Transactions and Revenue Analysis";
       Metric "Total Transactions" [FIntComma (total_transactions a)];
       Metric "Total Revenue" [Lit "$"; FMoney (total_revenue a)] ]
  ++ duplicate_events ds
  ++ [ Markdown "### 4️⃣ Conversion Funnel Analysis";
       Metric "View Item" [FIntComma (view_item f)];
       Metric "Add to Cart" [FIntComma (add_to_cart f)];
       Metric "Begin Checkout" [FIntComma (begin_checkout f)];
       Metric "Purchase" [FIntComma (purchase f)];
       Markdown "**Funnel Conversion Rates:**" ]
  ++ rates_events f.

Definition insight_events (found : list string) : list event :=
  match found with
  | [] => [Success healthy_message]
  | _ => map (fun insight => Write [Lit insight]) found
  end.

(** The spreadsheet button, when a URL was entered. *)
Definition push_button_events (strip : string -> string)
    (sheet_url : string) : list event :=
  if push_offered strip sheet_url
  then [Button "📊 Push to Google Sheets"]
  else [].

(** What [show_exports_and_insights] puts on the page. *)
Definition export_events (strip : string -> string) (sheet_url : string)
    (a : AuditData) (f : FunnelData)
    (ms : list Medium) (ds : list Duplicate) : list event :=
  [ Markdown "### 📥 Export Options" ]
  ++ push_button_events strip sheet_url
  ++ [ Markdown "**Or download as CSV:**";
       Download "📊 Download Full Audit Report (CSV)" csv_columns
                (csv_audit_data a f ms ds);
       Markdown "### 💡 Key Insights" ]
  ++ insight_events (insights (ad_sessions_per_user a)
                              (ad_percent_unassigned a) ds f).

(** Status, progress and requests of the four sections that fetch. *)
Definition fetch_events : list event :=
  [ StatusText "🔍 Starting GA4 Audit V2..."; Progress 10;
    StatusText "📊 Analyzing Sessions and Users (Last 90 Days)...";
    Progress 20; Post baseline_request;
    StatusText "🔍 Analyzing Unassigned Traffic..."; Progress 40;
    Post channel_request; Post medium_request;
    StatusText "💰 Analyzing Transactions and Revenue..."; Progress 60;
    Post transactions_request; Post transaction_ids_request;
    StatusText "🔄 Analyzing Conversion Funnel..."; Progress 80;
    Post (funnel_request "view_item"); Post (funnel_request "add_to_cart");
    Post (funnel_request "begin_checkout"); Post (funnel_request "purchase");
    StatusText "✅ Audit Complete! Generating Report..."; Progress 100;
    ProgressEmpty; StatusEmpty ].

Definition is_duplicate_line (e : event) : bool :=
  match e with
  | Write [Lit _; FStr _; Lit _; FInt _; Lit _] => true
  | _ => false
  end.

Definition is_more_line (e : event) : bool :=
  match e with
  | Write [Lit _; FInt _; Lit _] => true
  | _ => false
  end.

Definition is_download (e : event) : bool :=
  match e with
  | Download _ _ _ => true
  | _ => false
  end.

Definition is_button (e : event) : bool :=
  match e with
  | Button _ => true
  | _ => false
  end.


Definition is_success (e : event) : bool :=
  match e with
  | Success _ => true
  | _ => false
  end.


(** ** Google Sheets credentials (lines 81-98) *)

(** What the code reads of a credentials object. *)
Record Credentials : Type := mkCredentials {
  valid : bool;
  expired : bool;
  refresh_token : option string
}.

(** Truth value of a [str] or [None]. *)
Definition truthy (s : option string) : bool :=
  match s with
  | Some (String _ _) => true
  | _ => false
  end.

(** [get_google_sheets_auth()].  The session entry ['sheets_creds'] is
    [None] when the key is absent and [Some None] when it holds [None];
    [refresh c] is the object after [c.refresh(Request())], or [None] when
    that call raises.  The result is the new session entry and the value
    returned. *)
Definition get_google_sheets_auth
    (refresh : Credentials -> option Credentials)
    (sheets_creds : option (option Credentials))
  : option (option Credentials) * option Credentials :=
  let sheets_creds :=
    match sheets_creds with
    | None => None
    | Some c => c
    end in
  match sheets_creds with
  | Some c =>
      if valid c then (Some (Some c), Some c)
      else if expired c && truthy (refresh_token c) then
        match refresh c with
        | Some c' => (Some (Some c'), Some c')
        | None => (Some None, None)
        end
      else (Some (Some c), None)
  | None => (Some None, None)
  end.

(** ** The property picker (lines 362-384) *)

Record PropertySummary : Type := mkProperty {
  property_displayName : option string;
  property : option string
}.

Record AccountSummary : Type := mkAccount {
  displayName : option string;
  propertySummaries : option (list PropertySummary)
}.

(** [f"{x}"] for a [str] or [None]. *)
Definition text_of (x : option string) : string :=
  match x with
  | Some s => s
  | None => "None"
  end.

Record PropertyOption : Type := mkOption {
  label : string;
  id : option string
}.

(** Lines 364-371. *)
Definition options (summaries : list AccountSummary) : list PropertyOption :=
  fold_left
    (fun options summary =>
       let account :=
         match displayName summary with
         | Some s => s
         | None => "Unnamed Account"
         end in
       fold_left
         (fun options prop =>
            options ++
            [mkOption (account ++ " — " ++ text_of (property_displayName prop)
                       ++ " (" ++ text_of (property prop) ++ ")")%string
                      (property prop)])
         (match propertySummaries summary with
          | Some ps => ps
          | None => []
          end)
         options)
    summaries [].

Definition property_labels (options : list PropertyOption) : list string :=
  map label options.

(** A [dict] with [str] keys, in insertion order. *)
Fixpoint dict_set {V} (d : list (string * V)) (k : string) (v : V)
  : list (string * V) :=
  match d with
  | [] => [(k, v)]
  | (k', v') :: d' =>
      if String.eqb k' k then (k', v) :: d' else (k', v') :: dict_set d' k v
  end.

Fixpoint dict_get {V} (d : list (string * V)) (k : string) : option V :=
  match d with
  | [] => None
  | (k', v') :: d' => if String.eqb k' k then Some v' else dict_get d' k
  end.

(** [{opt["label"]: opt["id"] for opt in options}] *)
Definition property_ids (options : list PropertyOption)
  : list (string * option string) :=
  fold_left (fun d opt => dict_set d (label opt) (id opt)) options [].

(** [run_report_url] of line 384 for the selected label; [None] is the
    [KeyError] of [property_ids[selected_label]]. *)
Definition run_report_url (options : list PropertyOption)
    (selected_label : string) : option string :=
  match dict_get (property_ids options) selected_label with
  | Some property_id =>
      Some ("https://analyticsdata.googleapis.com/v1beta/"
            ++ text_of property_id ++ ":runReport")%string
  | None => None
  end.

(** [s] has the character [c]. *)
Fixpoint has_char (c : ascii) (s : string) : bool :=
  match s with
  | EmptyString => false
  | String x s' => Ascii.eqb x c || has_char c s'
  end.


(** ** Pushing the results to a spreadsheet (lines 141-291, 607-620) *)

Inductive column : Type := ColA | ColB.

(** A cell in A1 notation: [f'A{row}'] is [mkCell ColA row]. *)
Record cellref : Type := mkCell {
  cell_col : column;
  cell_row : Z
}.

(** The worksheet object that the calls go to. *)
Inductive worksheet : Type :=
| Added (title : string)        (* spreadsheet.add_worksheet(title=...) *)
| Named (title : string).       (* spreadsheet.worksheet(...) *)

(** A call of gspread, with its arguments. *)
Inductive gcall : Type :=
| Authorize (creds : Credentials)
| OpenByKey (key : string)
| AddWorksheet (title : string) (nrows ncols : Z)
| GetWorksheet (title : string)
| Clear (ws : worksheet)
| Update (ws : worksheet) (range : cellref) (value : cell)
| Format (ws : worksheet) (first last : cellref) (bold : bool) (fontSize : Z).

(** The exception classes that the handlers tell apart; every one is an
    [Exception]. *)
Inductive gspread_exception : Type :=
| SpreadsheetNotFound
| WorksheetNotFound
| APIError
| OtherException.

(** A raised exception [e] with [str(e)]. *)
Record raised : Type := mkRaised {
  kind : gspread_exception;
  text : string
}.

(** How the body of [push_to_google_sheet] ends early. *)
Inductive abort : Type :=
| Return (m : string)           (* st.error(m); return False, None *)
| Raised (e : raised)           (* a gspread call raised [e] *)
| Failed (e : exn).             (* the arithmetic raised [e] *)

(** What the page shows for a push; the text of a Python error is kept,
    not printed. *)
Inductive notice : Type :=
| ErrorText (s : string)                  (* st.error(s) *)
| ErrorOf (s : string) (e : exn)          (* st.error(f"{s}{str(e)}") *)
| SuccessText (s : string).               (* st.success(s) *)

(** A computation over the calls made so far. *)
Definition G (A : Type) : Type := list gcall -> list gcall * (abort + A).

Definition gret {A} (a : A) : G A := fun h => (h, inr a).

Definition gbind {A B} (m : G A) (k : A -> G B) : G B :=
  fun h =>
    match m h with
    | (h', inl e) => (h', inl e)
    | (h', inr a) => k a h'
    end.

Definition gabort {A} (e : abort) : G A := fun h => (h, inl e).

Definition glift {A} (r : exn + A) : G A :=
  match r with
  | inl e => gabort (Failed e)
  | inr a => gret a
  end.

(** [try: m except ...], where [handler e] is the clause that catches [e],
    if there is one. *)
Definition gcatch {A} (m : G A) (handler : raised -> option (G A)) : G A :=
  fun h =>
    match m h with
    | (h', inl (Raised e)) =>
        match handler e with
        | Some k => k h'
        | None => (h', inl (Raised e))
        end
    | r => r
    end.

Declare Scope sheets_scope.
Delimit Scope sheets_scope with sheets.
Notation "x <- m ;; k" := (gbind m (fun x => k))
  (at level 61, m at next level, right associativity) : sheets_scope.
Notation "m ;; k" := (gbind m (fun _ => k))
  (at level 61, right associativity) : sheets_scope.

Fixpoint gfor_each {A S} (xs : list A) (body : S -> A -> G S) (s : S) : G S :=
  match xs with
  | [] => gret s
  | x :: xs' => gbind (body s x) (gfor_each xs' body)
  end.

Definition invalid_url_message : string :=
  "❌ Invalid Google Sheets URL. Please provide a valid Google Sheets URL.".
Definition authentication_required_message : string :=
  "❌ Google Sheets authentication required. Please authenticate first.".
Definition spreadsheet_not_found_message : string :=
  "❌ Spreadsheet not found. Please check the URL and ensure you have edit access.".
Definition api_error_prefix : string := "❌ Google Sheets API error: ".
Definition push_error_prefix : string := "❌ Error pushing to Google Sheets: ".
(** The [AttributeError] of [gspread.APIError] where the module has no
    such name, with its text. *)
Definition no_APIError : raised :=
  mkRaised OtherException "module 'gspread' has no attribute 'APIError'".
Definition push_failed_message : string :=
  "❌ Failed to push data to Google Sheets. Please check the URL and permissions.".

(** What a push leaves: the session entry ['sheets_creds'], the gspread
    calls in order, what [st.error] showed, and the pair returned. *)
Record Outcome : Type := mkOutcome {
  session : option (option Credentials);
  calls : list gcall;
  shown : list notice;
  success : bool;
  sheet_name : option string
}.

Section Sheets.

(** [world h c] is the exception that the call [c] raises after the calls
    [h], if it raises. *)
Variable world : list gcall -> gcall -> option raised.

(** Whether the module [gspread] has the name [APIError] that line 164
    looks up.  The exception class lives in [gspread.exceptions]; where
    the module does not export it, evaluating the [except] clause raises
    an [AttributeError]. *)
Variable has_APIError : bool.

(** [c.refresh(Request())], as for [get_google_sheets_auth]. *)
Variable refresh : Credentials -> option Credentials.

(** [datetime.now()] printed at line 169 and at line 185 (the value of
    line 181 is not used). *)
Variable timestamp : string.
Variable generated : string.

Local Open Scope sheets_scope.

Definition call (c : gcall) : G unit :=
  fun h =>
    (h ++ [c],
     match world h c with
     | Some e => inl (Raised e)
     | None => inr tt
     end).

(** Lines 159-166.  The clauses are tried in order: an exception that is
    not a [SpreadsheetNotFound] reaches the clause of line 164, whose
    class is looked up only then. *)
Definition open_by_key (sheet_id : string) : G unit :=
  gcatch (call (OpenByKey sheet_id))
    (fun e =>
       match kind e with
       | SpreadsheetNotFound =>
           Some (gabort (Return spreadsheet_not_found_message))
       | k =>
           if has_APIError then
             match k with
             | APIError =>
                 Some (gabort (Return (api_error_prefix ++ text e)%string))
             | _ => None
             end
           else Some (gabort (Raised no_APIError))
       end).

(** Lines 172-178. *)
Definition add_worksheet (sheet_name : string) : G worksheet :=
  gcatch (call (AddWorksheet sheet_name 100 10) ;; gret (Added sheet_name))
    (fun e =>
       match kind e with
       | WorksheetNotFound =>
           Some (call (GetWorksheet "Sheet1") ;;
                 let worksheet := Named "Sheet1" in
                 call (Clear worksheet) ;;
                 call (Update worksheet (mkCell ColA 1)
                         (CStr [Lit "GA4 Audit V2 - "; FStr timestamp])) ;;
                 gret worksheet)
       | _ => None
       end).

(** Lines 183-285. *)
Definition write_report (worksheet : worksheet) (sheet_name : string)
    (audit_data : AuditData) (funnel_data : FunnelData)
    (unassigned_mediums : list Medium)
    (duplicate_transaction_ids : list Duplicate) : G unit :=
  let update c r value := call (Update worksheet (mkCell c r) value) in
  let str s := CStr [Lit s] in
  let int n := CNum (PInt n) in
  update ColA 1 (CStr [Lit "GA4 Audit V2 Results - "; FStr sheet_name]) ;;
  update ColA 2 (CStr [Lit "Generated: "; FStr generated]) ;;
  update ColA 3 (str "") ;;
  update ColA 4 (str "1. SESSIONS AND USERS ANALYSIS (Last 90 Days)") ;;
  update ColA 5 (str "Metric") ;;
  update ColB 5 (str "Value") ;;
  let row := 6 in
  update ColA row (str "Total Sessions") ;;
  update ColB row (int (total_sessions audit_data)) ;;
  let row := row + 1 in
  update ColA row (str "Total Users") ;;
  update ColB row (int (total_users audit_data)) ;;
  let row := row + 1 in
  update ColA row (str "Sessions per User") ;;
  update ColB row (CNum (ad_sessions_per_user audit_data)) ;;
  let row := row + 2 in
  update ColA row (str "2. UNASSIGNED TRAFFIC ANALYSIS") ;;
  let row := row + 1 in
  update ColA row (str "Unassigned Sessions") ;;
  update ColB row (int (unassigned_sessions audit_data)) ;;
  let row := row + 1 in
  update ColA row (str "Percent of Total Sessions") ;;
  update ColB row (CStr [FNum (ad_percent_unassigned audit_data); Lit "%"]) ;;
  let row := row + 1 in
  row <- match unassigned_mediums with
         | [] => gret row
         | _ =>
             update ColA row (str "Session Medium Breakdown (Unassigned):") ;;
             let row := row + 1 in
             gfor_each unassigned_mediums
               (fun row medium_data =>
                  update ColA row (CStr [Lit "- "; FStr (medium medium_data)]) ;;
                  update ColB row (int (sessions medium_data)) ;;
                  gret (row + 1))
               row
         end ;;
  let row := row + 1 in
  update ColA row (str "3. TRANSACTIONS AND REVENUE ANALYSIS") ;;
  let row := row + 1 in
  update ColA row (str "Total Transactions") ;;
  update ColB row (int (total_transactions audit_data)) ;;
  let row := row + 1 in
  update ColA row (str "Total Revenue") ;;
  update ColB row (CStr [Lit "$"; FMoney (total_revenue audit_data)]) ;;
  let row := row + 1 in
  row <- match duplicate_transaction_ids with
         | [] => gret row
         | _ =>
             update ColA row (str "Duplicate Transaction IDs:") ;;
             let row := row + 1 in
             gfor_each duplicate_transaction_ids
               (fun row dup_data =>
                  update ColA row
                    (CStr [Lit "- "; FStr (transaction_id dup_data)]) ;;
                  update ColB row (int (count dup_data)) ;;
                  gret (row + 1))
               row
         end ;;
  let row := row + 1 in
  update ColA row (str "4. CONVERSION FUNNEL ANALYSIS") ;;
  let row := row + 1 in
  update ColA row (str "View Item Events") ;;
  update ColB row (int (view_item funnel_data)) ;;
  let row := row + 1 in
  update ColA row (str "Add to Cart Events") ;;
  update ColB row (int (add_to_cart funnel_data)) ;;
  let row := row + 1 in
  update ColA row (str "Begin Checkout Events") ;;
  update ColB row (int (begin_checkout funnel_data)) ;;
  let row := row + 1 in
  update ColA row (str "Purchase Events") ;;
  update ColB row (int (purchase funnel_data)) ;;
  let row := row + 1 in
  rates <- glift (funnel_rates funnel_data) ;;
  match rates with
  | Some r =>
      let row := row + 1 in
      update ColA row (str "FUNNEL CONVERSION RATES:") ;;
      let row := row + 1 in
      update ColA row (str "View → Cart") ;;
      update ColB row (CStr [FNum (view_to_cart r); Lit "%"]) ;;
      let row := row + 1 in
      update ColA row (str "Cart → Checkout") ;;
      update ColB row (CStr [FNum (cart_to_checkout r); Lit "%"]) ;;
      let row := row + 1 in
      update ColA row (str "Checkout → Purchase") ;;
      update ColB row (CStr [FNum (checkout_to_purchase r); Lit "%"]) ;;
      let row := row + 1 in
      update ColA row (str "View → Purchase") ;;
      update ColB row (CStr [FNum (view_to_purchase r); Lit "%"])
  | None => gret tt
  end ;;
  let format c1 r1 c2 r2 size :=
    call (Format worksheet (mkCell c1 r1) (mkCell c2 r2) true size) in
  format ColA 1 ColB 1 14 ;;
  format ColA 4 ColA 4 12 ;;
  format ColA 8 ColA 8 12 ;;
  format ColA 12 ColA 12 12 ;;
  format ColA 16 ColA 16 12.

(** Lines 156-287, the part of the [try] after the two early returns. *)
Definition push_body (creds : Credentials) (sheet_id : string)
    (audit_data : AuditData) (funnel_data : FunnelData)
    (unassigned_mediums : list Medium)
    (duplicate_transaction_ids : list Duplicate) : G string :=
  call (Authorize creds) ;;
  open_by_key sheet_id ;;
  let sheet_name := ("GA4 Audit V2 - " ++ timestamp)%string in
  worksheet <- add_worksheet sheet_name ;;
  write_report worksheet sheet_name audit_data funnel_data
               unassigned_mediums duplicate_transaction_ids ;;
  gret sheet_name.

(** [push_to_google_sheet], from the session entry ['sheets_creds']. *)
Definition push_to_google_sheet (sheet_url : string)
    (audit_data : AuditData) (funnel_data : FunnelData)
    (unassigned_mediums : list Medium)
    (duplicate_transaction_ids : list Duplicate)
    (sheets_creds : option (option Credentials)) : Outcome :=
  match extract_sheet_id_from_url sheet_url with
  | Some (String _ _ as sheet_id) =>
      let '(sheets_creds, creds) :=
        get_google_sheets_auth refresh sheets_creds in
      match creds with
      | Some creds =>
          match push_body creds sheet_id audit_data funnel_data
                          unassigned_mediums duplicate_transaction_ids [] with
          | (calls, inr sheet_name) =>
              mkOutcome sheets_creds calls [] true (Some sheet_name)
          | (calls, inl (Return m)) =>
              mkOutcome sheets_creds calls [ErrorText m] false None
          | (calls, inl (Raised e)) =>
              mkOutcome sheets_creds calls
                        [ErrorText (push_error_prefix ++ text e)%string]
                        false None
          | (calls, inl (Failed e)) =>
              mkOutcome sheets_creds calls [ErrorOf push_error_prefix e]
                        false None
          end
      | None =>
          mkOutcome sheets_creds []
                    [ErrorText authentication_required_message] false None
      end
  | _ =>
      mkOutcome sheets_creds [] [ErrorText invalid_url_message] false None
  end.

(** Lines 610-620: the push and the message after it. *)
Definition push_pressed (sheet_url : string)
    (audit_data : AuditData) (funnel_data : FunnelData)
    (unassigned_mediums : list Medium)
    (duplicate_transaction_ids : list Duplicate)
    (sheets_creds : option (option Credentials)) : Outcome * list notice :=
  let o := push_to_google_sheet sheet_url audit_data funnel_data
             unassigned_mediums duplicate_transaction_ids sheets_creds in
  (o,
   shown o ++
   [if success o
    then SuccessText
           ("✅ Data successfully pushed to Google Sheets! New sheet: '"
            ++ text_of (sheet_name o) ++ "'")%string
    else ErrorText push_failed_message]).

End Sheets.

(** The cells that the calls update, in order. *)
Definition updated (cs : list gcall) : list cellref :=
  flat_map (fun c => match c with
                     | Update _ range _ => [range]
                     | _ => []
                     end) cs.

(** The worksheets that the calls write to. *)
Definition written (cs : list gcall) : list worksheet :=
  flat_map (fun c => match c with
                     | Clear ws | Update ws _ _ | Format ws _ _ _ _ => [ws]
                     | _ => []
                     end) cs.

(** A world in which no call raises. *)
Definition calm (h : list gcall) (c : gcall) : option raised := None.


(** Making the calls of [t] in order. *)
Definition perform (world : list gcall -> gcall -> option raised)
    (t : list gcall) : G unit :=
  gfor_each t (fun _ c => call world c) tt.

(** Rows of two cells, from [row] on. *)
Fixpoint row_calls (ws : worksheet) (row : Z) (items : list (cell * cell))
  : list gcall :=
  match items with
  | [] => []
  | (a, b) :: items' =>
      Update ws (mkCell ColA row) a :: Update ws (mkCell ColB row) b
      :: row_calls ws (row + 1) items'
  end.

Definition medium_cells (m : Medium) : cell * cell :=
  (CStr [Lit "- "; FStr (medium m)], CNum (PInt (sessions m))).

Definition duplicate_cells (d : Duplicate) : cell * cell :=
  (CStr [Lit "- "; FStr (transaction_id d)], CNum (PInt (count d))).

(** A block that is there only for a list with items: a title and a row
    for each item. *)
Definition block_calls (ws : worksheet) (row : Z) (title : string)
    (items : list (cell * cell)) : list gcall :=
  match items with
  | [] => []
  | _ => Update ws (mkCell ColA row) (CStr [Lit title])
         :: row_calls ws (row + 1) items
  end.

(** The rows that such a block takes. *)
Definition block_rows {X} (items : list X) : Z :=
  match items with
  | [] => 0
  | _ => 1 + Z.of_nat (List.length items)
  end.

(** The rows of the headings of sections 3 and 4. *)
Definition transactions_row (unassigned_mediums : list Medium) : Z :=
  14 + block_rows unassigned_mediums.

Definition funnel_row (unassigned_mediums : list Medium)
    (duplicate_transaction_ids : list Duplicate) : Z :=
  transactions_row unassigned_mediums + 4
  + block_rows duplicate_transaction_ids.

(** The updates of lines 184-255, when none raises. *)
Definition count_calls (ws : worksheet) (sheet_name generated : string)
    (a : AuditData) (f : FunnelData) (ms : list Medium)
    (ds : list Duplicate) : list gcall :=
  let update c r v := Update ws (mkCell c r) v in
  let str s := CStr [Lit s] in
  let int n := CNum (PInt n) in
  let r3 := transactions_row ms in
  let r4 := funnel_row ms ds in
  [update ColA 1 (CStr [Lit "GA4 Audit V2 Results - "; FStr sheet_name]);
   update ColA 2 (CStr [Lit "Generated: "; FStr generated]);
   update ColA 3 (str "");
   update ColA 4 (str "1. SESSIONS AND USERS ANALYSIS (Last 90 Days)");
   update ColA 5 (str "Metric");
   update ColB 5 (str "Value");
   update ColA 6 (str "Total Sessions");
   update ColB 6 (int (total_sessions a));
   update ColA 7 (str "Total Users");
   update ColB 7 (int (total_users a));
   update ColA 8 (str "Sessions per User");
   update ColB 8 (CNum (ad_sessions_per_user a));
   update ColA 10 (str "2. UNASSIGNED TRAFFIC ANALYSIS");
   update ColA 11 (str "Unassigned Sessions");
   update ColB 11 (int (unassigned_sessions a));
   update ColA 12 (str "Percent of Total Sessions");
   update ColB 12 (CStr [FNum (ad_percent_unassigned a); Lit "%"])]
  ++ block_calls ws 13 "Session Medium Breakdown (Unassigned):"
       (map medium_cells ms)
  ++ [update ColA r3 (str "3. TRANSACTIONS AND REVENUE ANALYSIS");
      update ColA (r3 + 1) (str "Total Transactions");
      update ColB (r3 + 1) (int (total_transactions a));
      update ColA (r3 + 2) (str "Total Revenue");
      update ColB (r3 + 2) (CStr [Lit "$"; FMoney (total_revenue a)])]
  ++ block_calls ws (r3 + 3) "Duplicate Transaction IDs:"
       (map duplicate_cells ds)
  ++ [update ColA r4 (str "4. CONVERSION FUNNEL ANALYSIS");
      update ColA (r4 + 1) (str "View Item Events");
      update ColB (r4 + 1) (int (view_item f));
      update ColA (r4 + 2) (str "Add to Cart Events");
      update ColB (r4 + 2) (int (add_to_cart f));
      update ColA (r4 + 3) (str "Begin Checkout Events");
      update ColB (r4 + 3) (int (begin_checkout f));
      update ColA (r4 + 4) (str "Purchase Events");
      update ColB (r4 + 4) (int (purchase f))].

(** The updates of lines 265-278. *)
Definition rate_calls (ws : worksheet) (r4 : Z) (rates : option Rates)
  : list gcall :=
  let update c r v := Update ws (mkCell c r) v in
  let str s := CStr [Lit s] in
  match rates with
  | Some r =>
      [update ColA (r4 + 6) (str "FUNNEL CONVERSION RATES:");
       update ColA (r4 + 7) (str "View → Cart");
       update ColB (r4 + 7) (CStr [FNum (view_to_cart r); Lit "%"]);
       update ColA (r4 + 8) (str "Cart → Checkout");
       update ColB (r4 + 8) (CStr [FNum (cart_to_checkout r); Lit "%"]);
       update ColA (r4 + 9) (str "Checkout → Purchase");
       update ColB (r4 + 9) (CStr [FNum (checkout_to_purchase r); Lit "%"]);
       update ColA (r4 + 10) (str "View → Purchase");
       update ColB (r4 + 10) (CStr [FNum (view_to_purchase r); Lit "%"])]
  | None => []
  end.

(** The formats of lines 281-285. *)
Definition format_calls (ws : worksheet) : list gcall :=
  [Format ws (mkCell ColA 1) (mkCell ColB 1) true 14;
   Format ws (mkCell ColA 4) (mkCell ColA 4) true 12;
   Format ws (mkCell ColA 8) (mkCell ColA 8) true 12;
   Format ws (mkCell ColA 12) (mkCell ColA 12) true 12;
   Format ws (mkCell ColA 16) (mkCell ColA 16) true 12].

(** The calls of lines 183-285 when none raises. *)
Definition report_calls (ws : worksheet) (sheet_name generated : string)
    (a : AuditData) (f : FunnelData) (ms : list Medium)
    (ds : list Duplicate) (rates : option Rates) : list gcall :=
  count_calls ws sheet_name generated a f ms ds
  ++ rate_calls ws (funnel_row ms ds) rates
  ++ format_calls ws.

(** The call [c] after the calls [h] raises nothing, or it is an
    [add_worksheet] that raises [WorksheetNotFound], which the code
    catches. *)
Definition answered (world : list gcall -> gcall -> option raised)
    (h : list gcall) (c : gcall) : Prop :=
  world h c = None \/
  exists title e, c = AddWorksheet title 100 10 /\ world h c = Some e /\
                  kind e = WorksheetNotFound.

(** The place of a cell in reading order. *)
Definition cell_key (c : cellref) : Z :=
  2 * cell_row c + match cell_col c with ColA => 0 | ColB => 1 end.

(** Every call of [t], made in order after the calls [h], is answered. *)
Fixpoint calmly (world : list gcall -> gcall -> option raised)
    (h t : list gcall) : Prop :=
  match t with
  | [] => True
  | c :: t' => answered world h c /\ calmly world (h ++ [c]) t'
  end.

(** The rates, when the arithmetic gives them. *)
Definition rates_of (f : FunnelData) : option Rates :=
  match funnel_rates f with
  | inr rates => rates
  | inl _ => None
  end.

(** The calls of lines 176-178. *)
Definition fallback_calls (timestamp : string) : list gcall :=
  [GetWorksheet "Sheet1";
   Clear (Named "Sheet1");
   Update (Named "Sheet1") (mkCell ColA 1)
     (CStr [Lit "GA4 Audit V2 - "; FStr timestamp])].

(** The calls of a push in which no call raises, but for [add_worksheet]
    when [fallback] is set. *)
Definition push_plan (creds : Credentials) (sheet_id : string)
    (timestamp generated : string) (fallback : bool)
    (a : AuditData) (f : FunnelData) (ms : list Medium)
    (ds : list Duplicate) : list gcall :=
  let sheet_name := ("GA4 Audit V2 - " ++ timestamp)%string in
  [Authorize creds; OpenByKey sheet_id; AddWorksheet sheet_name 100 10]
  ++ (if fallback then fallback_calls timestamp else [])
  ++ report_calls (if fallback then Named "Sheet1" else Added sheet_name)
       sheet_name generated a f ms ds (rates_of f).

(** The ranges that the calls format, in order. *)
Definition formatted (cs : list gcall) : list (cellref * cellref) :=
  flat_map (fun c => match c with
                     | Format _ first last _ _ => [(first, last)]
                     | _ => []
                     end) cs.


(** Sample inputs of a push. *)
Module PushSample.

Definition url : string :=
  "https://docs.google.com/spreadsheets/d/abc-1/edit".

Definition creds : Credentials := mkCredentials true false None.

Definition audit : AuditData :=
  mkAudit 1000 400 (PFloat (RN 5 2)) 10 (PFloat (RN 1 1)) 3
          (PFloat (RN 99 1)).

Definition funnel : FunnelData := mkFunnel 100 50 20 5.

Definition mediums : list Medium := [mkMedium "(not set)" 3].

Definition duplicates : list Duplicate :=
  [mkDuplicate "T-1" 2; mkDuplicate "T-2" 3].

(** A world in which [add_worksheet] raises [WorksheetNotFound]. *)
Definition no_new_sheet (h : list gcall) (c : gcall) : option raised :=
  match c with
  | AddWorksheet _ _ _ => Some (mkRaised WorksheetNotFound "Sheet1")
  | _ => None
  end.

(** A world in which the update of [B5] runs into the API's quota. *)
Definition quota (h : list gcall) (c : gcall) : option raised :=
  match c with
  | Update _ (mkCell ColB 5) _ => Some (mkRaised APIError "429")
  | _ => None
  end.

Definition push (world : list gcall -> gcall -> option raised) : Outcome :=
  push_to_google_sheet world false (fun _ => None) "20260101_120000"
    "2026-01-01 12:00:00" url audit funnel mediums duplicates
    (Some (Some creds)).

End PushSample.

(** The numbers of [l] rise strictly, from [lo] on and below [hi]. *)
Fixpoint chain (lo : Z) (l : list Z) (hi : Z) : Prop :=
  match l with
  | [] => lo <= hi
  | x :: l' => lo <= x /\ chain (x + 1) l' hi
  end.

(** The places of the cells that the calls update. *)
Definition keys (cs : list gcall) : list Z := map cell_key (updated cs).

(** * Properties *)

(** ** Agreement of [F64] with the Standard Library's binary64 *)

Example RN_agrees_with_SFdiv :
  map (fun ab => RN (Z.pos (fst ab)) (Z.pos (snd ab))) sample_operands
  = map (fun ab => SF.div (fst ab) (snd ab)) sample_operands.
Proof. vm_compute. reflexivity. Qed.

Example mul_agrees_with_SFmul :
  map (fun ab => F64.mul (RN (Z.pos (fst ab)) (Z.pos (snd ab))) (of_int 100))
      sample_operands
  = map (fun ab => SF.mul100 (fst ab) (snd ab)) sample_operands.
Proof. vm_compute. reflexivity. Qed.

(** ** The run monad *)

Lemma bind_ret_l {A B} (a : A) (k : A -> M B) : bind (ret a) k = k a.
Proof. unfold bind, ret. destruct (k a) as [t r]. reflexivity. Qed.

Lemma bind_emit {B} (e : event) (k : unit -> M B) :
  bind (emit e) k = (e :: fst (k tt), snd (k tt)).
Proof. unfold bind, emit. destruct (k tt) as [t r]. reflexivity. Qed.

Lemma bind_value {A B} (t : list event) (a : A) (k : A -> M B) :
  bind (t, inr a) k = (t ++ fst (k a), snd (k a)).
Proof. unfold bind. destruct (k a) as [t' r]. reflexivity. Qed.

Lemma fold_append_map {A B} (f : A -> B) (xs : list A) (acc : list B) :
  fold_left (fun acc x => acc ++ [f x]) xs acc = acc ++ map f xs.
Proof.
  revert acc. induction xs as [| x xs IH]; intros acc; simpl.
  - rewrite app_nil_r. reflexivity.
  - rewrite IH, <- app_assoc. reflexivity.
Qed.

(** ** The fetcher *)

(** What the fetch does with a decoded payload, case by case. *)
Lemma fetch_decoded post metrics dimensions filters result :
  post (request metrics dimensions filters) = Some result ->
  fetch_metric_report post metrics dimensions filters
  = ([Post (request metrics dimensions filters)]
     ++ match has_error result with
        | inr true =>
            match error_message result with
            | inr m => [StError (api_error_message m)]
            | inl _ => []
            end
        | _ => []
        end,
     match has_error result with
     | inl e => inl (Raise e)
     | inr true =>
         match error_message result with
         | inr _ => inl Stop
         | inl e => inl (Raise e)
         end
     | inr false => inr result
     end).
Proof.
  intros Hpost. unfold fetch_metric_report. rewrite Hpost.
  destruct (has_error result) as [e | [|]]; [reflexivity | | reflexivity].
  destruct (error_message result) as [e | m]; reflexivity.
Qed.

Lemma fetch_undecoded post metrics dimensions filters :
  post (request metrics dimensions filters) = None ->
  fetch_metric_report post metrics dimensions filters
  = ([Post (request metrics dimensions filters);
      StError invalid_json_message], inl Stop).
Proof. intros Hpost. unfold fetch_metric_report. rewrite Hpost. reflexivity. Qed.

Lemma read_first_row_object (r : Report) :
  read_first_row (Object r) = inr (first_row r).
Proof.
  unfold read_first_row, has_key, first_row.
  destruct (rows r) as [[| row rs] |]; reflexivity.
Qed.

Lemma read_rows_object (r : Report) : read_rows (Object r) = inr (get_rows r).
Proof. reflexivity. Qed.

Lemma fetch_returns post metrics dimensions filters result :
  post (request metrics dimensions filters) = Some (Object result) ->
  error result = None ->
  fetch_metric_report post metrics dimensions filters
  = ([Post (request metrics dimensions filters)], inr (Object result)).
Proof.
  intros Hpost Herr. rewrite (fetch_decoded _ _ _ _ _ Hpost).
  unfold has_error, has_key. rewrite Herr. reflexivity.
Qed.

(** C6, with the error envelope read as an error entry that is an object.
    Whatever the response is: the fetch stops with the invalid-JSON error
    exactly when the payload does not decode; it stops with the API error
    exactly when the payload is an object whose error entry is an object,
    and then shows the message of that entry as it is, or Unknown error
    when the entry has none; it returns the payload exactly when the
    payload can be searched and has no error in it, for an object: when it
    has no error entry; and an object without an error entry and without
    rows is returned and its row sequence is empty. *)
Theorem C6_fetch_outcomes (post : Body -> option Payload)
    (metrics dimensions : list string) (filters : option FilterExpression) :
  let body := request metrics dimensions filters in
  let r := fetch_metric_report post metrics dimensions filters in
  (r = ([Post body; StError invalid_json_message], inl Stop)
   <-> post body = None) /\
  (forall payload,
     post body = Some payload ->
     ((exists m, r = ([Post body; StError (api_error_message m)], inl Stop))
      <-> (exists result envelope,
             payload = Object result /\
             error result = Some (ErrorObject envelope))) /\
     (forall result m,
        payload = Object result ->
        error result = Some (ErrorObject (Some (MessageString m))) ->
        r = ([Post body; StError (api_error_message m)], inl Stop)) /\
     (forall result,
        payload = Object result ->
        error result = Some (ErrorObject None) ->
        r = ([Post body; StError (api_error_message "Unknown error")],
             inl Stop)) /\
     (r = ([Post body], inr payload) <-> has_error payload = inr false) /\
     (forall result,
        payload = Object result ->
        (r = ([Post body], inr payload) <-> error result = None) /\
        (error result = None ->
         rows result = None \/ rows result = Some [] ->
         r = ([Post body], inr payload) /\
         read_rows payload = inr [] /\
         read_first_row payload = inr None))).
Proof.
  intros body r. split.
  - subst r. destruct (post body) as [result |] eqn:Hpost.
    + rewrite (fetch_decoded _ _ _ _ _ Hpost). fold body.
      split; [| discriminate]. intros H. exfalso.
      destruct (has_error result) as [e | [|]]; try discriminate.
      destruct (error_message result) as [e | m]; discriminate.
    + rewrite (fetch_undecoded _ _ _ _ Hpost). split; reflexivity.
  - intros payload Hpost. subst r.
    rewrite (fetch_decoded _ _ _ _ _ Hpost). fold body.
    assert (Hobject : forall result,
               payload = Object result ->
               has_error payload = inr (is_some (error result)) /\
               error_message payload
               = match error result with
                 | Some (ErrorObject (Some m)) => inr (py_str m)
                 | Some (ErrorObject None) => inr "Unknown error"
                 | Some NotAnObject => inl AttributeError
                 | None => inl KeyError
                 end).
    { intros result ->. split; reflexivity. }
    split; [| split; [| split; [| split]]].
    + split.
      * intros [m H]. destruct payload as [result | items | text |].
        -- destruct (Hobject result eq_refl) as [He Hm].
           rewrite He, Hm in H.
           destruct (error result) as [[envelope |] |] eqn:Herr;
             cbn [is_some] in H; try discriminate H.
           exists result, envelope. split; [reflexivity | exact Herr].
        -- exfalso. cbn [has_error has_key error_message] in H.
           destruct (existsb _ items); discriminate H.
        -- exfalso. cbn [has_error has_key error_message] in H.
           destruct (contains _ text); discriminate H.
        -- discriminate H.
      * intros (result & envelope & Hp & Herr).
        destruct (Hobject result Hp) as [He Hm].
        rewrite He, Hm, Herr. cbn [is_some].
        destruct envelope; eexists; reflexivity.
    + intros result m Hp Herr. destruct (Hobject result Hp) as [He Hm].
      rewrite He, Hm, Herr. reflexivity.
    + intros result Hp Herr. destruct (Hobject result Hp) as [He Hm].
      rewrite He, Hm, Herr. reflexivity.
    + destruct (has_error payload) as [e | [|]].
      * split; discriminate.
      * destruct (error_message payload); split; discriminate.
      * split; reflexivity.
    + intros result Hp. destruct (Hobject result Hp) as [He Hm].
      rewrite He. subst payload.
      destruct (error result) as [v |] eqn:Herr; cbn [is_some].
      * split; [| discriminate].
        destruct (error_message (Object result)); split; discriminate.
      * split; [split; reflexivity |]. intros _ Hrows.
        split; [reflexivity |].
        unfold read_rows, read_first_row, has_key, get_rows, first_row.
        destruct Hrows as [-> | ->]; split; reflexivity.
Qed.

Lemma C6_fetch_outcomes_witness :
  fetch_metric_report
    (fun _ => Some (Object
                      (mkReport
                         (Some (ErrorObject
                                  (Some (MessageString "Quota exceeded"))))
                         None)))
    ["sessions"] [] None
  = ([Post (request ["sessions"] [] None);
      StError (api_error_message "Quota exceeded")], inl Stop).
Proof.
  destruct (C6_fetch_outcomes
              (fun _ => Some (Object
                                (mkReport
                                   (Some (ErrorObject
                                            (Some (MessageString
                                                     "Quota exceeded"))))
                                   None)))
              ["sessions"] [] None) as [_ H].
  destruct (H (Object
                 (mkReport
                    (Some (ErrorObject
                             (Some (MessageString "Quota exceeded"))))
                    None)) eq_refl) as (_ & Hmsg & _).
  apply (Hmsg (mkReport
                 (Some (ErrorObject (Some (MessageString "Quota exceeded"))))
                 None)); reflexivity.
Defined.

(** C6 does not hold for every response.  The payload [{"error": null}]
    decodes and has an error entry, and the payload [5] decodes and has
    none; on both the fetch ends with an exception that nothing catches
    ([AttributeError], [TypeError]): it shows neither of the two errors
    and returns nothing.  The payload [[]] decodes, has no error and no
    rows, and is returned, but it has no row sequence: reading its rows
    raises [AttributeError]. *)
Lemma C6_counterexample :
  let body := request ["sessions"] [] None in
  let outcome payload :=
    fetch_metric_report (fun _ => Some payload) ["sessions"] [] None in
  let claimed (r : M Payload) :=
    r = ([Post body; StError invalid_json_message], inl Stop) \/
    (exists m, r = ([Post body; StError (api_error_message m)], inl Stop)) \/
    (exists result, r = ([Post body], inr result)) in
  outcome (Object (mkReport (Some NotAnObject) None))
  = ([Post body], inl (Raise AttributeError)) /\
  outcome Atom = ([Post body], inl (Raise TypeError)) /\
  ~ claimed (outcome (Object (mkReport (Some NotAnObject) None))) /\
  ~ claimed (outcome Atom) /\
  outcome (Array []) = ([Post body], inr (Array [])) /\
  read_rows (Array []) <> inr [].
Proof.
  cbv zeta. split; [reflexivity |]. split; [reflexivity |].
  split; [intros [H | [[m H] | [result H]]]; discriminate H |].
  split; [intros [H | [[m H] | [result H]]]; discriminate H |].
  split; [reflexivity | discriminate].
Qed.

(** ** The missing baseline *)

(** C5.  When the sessions and users query answers without rows, the run
    shows the baseline error and stops there: it has made that one request,
    no later one, and nothing of the summary is on the page. *)
Theorem C5_missing_baseline_aborts (strip : string -> string)
    (sheet_url : string) (py_int : string -> option Z)
    (py_float : string -> option float) (post : Body -> option Payload)
    (result : Report) :
  post baseline_request = Some (Object result) ->
  error result = None ->
  rows result = None \/ rows result = Some [] ->
  let r := run_audit strip sheet_url py_int py_float post in
  r = ([StatusText "🔍 Starting GA4 Audit V2..."; Progress 10;
        StatusText "📊 Analyzing Sessions and Users (Last 90 Days)...";
        Progress 20; Post baseline_request;
        StError missing_baseline_message], inl Stop) /\
  existsb shows_summary (fst r) = false /\
  List.filter is_post (fst r) = [Post baseline_request].
Proof.
  intros Hpost Herr Hrows r.
  assert (Hr : r = ([StatusText "🔍 Starting GA4 Audit V2..."; Progress 10;
        StatusText "📊 Analyzing Sessions and Users (Last 90 Days)...";
        Progress 20; Post baseline_request;
        StError missing_baseline_message], inl Stop)).
  { subst r. unfold run_audit, sessions_and_users.
    rewrite (fetch_returns post ["sessions"; "totalUsers"] [] None
                           _ Hpost Herr).
    assert (Hfirst : read_first_row (Object result) = inr None).
    { rewrite read_first_row_object. unfold first_row.
      destruct Hrows as [-> | ->]; reflexivity. }
    cbn -[read_first_row]. rewrite Hfirst. reflexivity. }
  rewrite Hr. repeat split.
Qed.

Lemma C5_missing_baseline_aborts_witness :
  let r := run_audit Sample.strip Sample.sheet_url
      Sample.dec_int Sample.dec_float
             (Sample.without ["sessions"; "totalUsers"] Sample.shop) in
  r = ([StatusText "🔍 Starting GA4 Audit V2..."; Progress 10;
        StatusText "📊 Analyzing Sessions and Users (Last 90 Days)...";
        Progress 20; Post baseline_request;
        StError missing_baseline_message], inl Stop) /\
  existsb shows_summary (fst r) = false /\
  List.filter is_post (fst r) = [Post baseline_request].
Proof.
  apply (C5_missing_baseline_aborts Sample.strip Sample.sheet_url
           Sample.dec_int Sample.dec_float
           (Sample.without ["sessions"; "totalUsers"] Sample.shop)
           (mkReport None None)).
  - reflexivity.
  - reflexivity.
  - left. reflexivity.
Defined.

(** ** CSV rows *)

(** C8.  Under the columns Metric and Value, the table is the eleven base
    rows, whose last four are the funnel event counts, then one row for
    each medium, then one row for each duplicated transaction; the
    duplicates TXN1 (3) and TXN2 (2) give exactly two more rows after
    those, each with the transaction id in its label and its count as
    value. *)
Theorem C8_csv_rows (a : AuditData) (funnel_data : FunnelData)
    (unassigned_mediums : list Medium)
    (duplicate_transaction_ids : list Duplicate) :
  let csv := csv_audit_data a funnel_data unassigned_mediums
                            duplicate_transaction_ids in
  csv_columns = ["Metric"; "Value"] /\
  csv = base_rows a funnel_data
          ++ map medium_row unassigned_mediums
          ++ map duplicate_row duplicate_transaction_ids /\
  skipn 7 (base_rows a funnel_data) =
    [ ("View Item Events", CNum (PInt (view_item funnel_data)));
      ("Add to Cart Events", CNum (PInt (add_to_cart funnel_data)));
      ("Begin Checkout Events", CNum (PInt (begin_checkout funnel_data)));
      ("Purchase Events", CNum (PInt (purchase funnel_data))) ] /\
  List.length csv =
    (11 + List.length unassigned_mediums
        + List.length duplicate_transaction_ids)%nat /\
  csv_audit_data a funnel_data unassigned_mediums
                 [mkDuplicate "TXN1" 3; mkDuplicate "TXN2" 2] =
    csv_audit_data a funnel_data unassigned_mediums []
      ++ [ ("Duplicate Transaction - TXN1", CNum (PInt 3));
           ("Duplicate Transaction - TXN2", CNum (PInt 2)) ].
Proof.
  intros csv.
  assert (Hcsv : forall ds,
             csv_audit_data a funnel_data unassigned_mediums ds =
             base_rows a funnel_data ++ map medium_row unassigned_mediums
                       ++ map duplicate_row ds).
  { intros ds. unfold csv_audit_data.
    rewrite (fold_append_map medium_row), (fold_append_map duplicate_row).
    rewrite <- app_assoc. reflexivity. }
  repeat split.
  - apply Hcsv.
  - subst csv. rewrite Hcsv, !length_app, !length_map. reflexivity.
  - rewrite !Hcsv. cbn [map]. rewrite app_nil_r, <- app_assoc. reflexivity.
Qed.

(** ** Unassigned traffic *)

Lemma dimension_value_reads py_int row d n :
  reads py_int row d n -> dimension_value row 0 = ret d.
Proof. intros [H _]. unfold dimension_value. rewrite H. reflexivity. Qed.

Lemma int_metric_reads py_int row d n :
  reads py_int row d n -> int_metric py_int row 0 = ret n.
Proof.
  intros [_ (s & H1 & H2)]. unfold int_metric. rewrite H1, H2. reflexivity.
Qed.

Lemma last_cons_default {A} (x : A) (l : list A) (d : A) :
  last (x :: l) d = last l x.
Proof.
  revert x d. induction l as [| y l IH]; intros x d; [reflexivity |].
  change (last (x :: y :: l) d) with (last (y :: l) d).
  rewrite (IH y d), (IH y x). reflexivity.
Qed.

Lemma scan_channels_from py_int channel_rows parsed un tot :
  Forall2 (fun row cn => reads py_int row (fst cn) (snd cn)) channel_rows parsed ->
  for_each channel_rows
      (fun '(unassigned_sessions, total_sessions_from_channels) row =>
         channel <- dimension_value row 0 ;;
         sessions_count <- int_metric py_int row 0 ;;
         ret (if String.eqb channel "Unassigned"
              then sessions_count else unassigned_sessions,
              total_sessions_from_channels + sessions_count))
      (un, tot)
  = ret (last (map snd (List.filter is_unassigned parsed)) un,
         fold_left Z.add (map snd parsed) tot).
Proof.
  intros H. revert un tot.
  induction H as [| row [c n] rows parsed Hrow _ IH]; intros un tot.
  - reflexivity.
  - cbn [for_each]. cbn [fst snd] in Hrow.
    rewrite (dimension_value_reads _ _ _ _ Hrow), bind_ret_l.
    rewrite (int_metric_reads _ _ _ _ Hrow), !bind_ret_l.
    rewrite IH. cbn [List.filter map fold_left]. unfold is_unassigned at 2.
    cbn [fst snd]. destruct (String.eqb c "Unassigned"); [| reflexivity].
    cbn [map snd]. rewrite last_cons_default. reflexivity.
Qed.

Lemma scan_mediums_reads py_int medium_rows parsed :
  Forall2 (fun row mn => reads py_int row (fst mn) (snd mn)) medium_rows parsed ->
  scan_mediums py_int medium_rows
  = ret (map (fun mn => mkMedium (fst mn) (snd mn)) parsed).
Proof.
  intros H. unfold scan_mediums.
  change (@nil Medium) with ([] ++ map (fun mn => mkMedium (fst mn) (snd mn)) [])
    at 1.
  assert (G : forall acc,
             for_each medium_rows
               (fun unassigned_mediums row =>
                  medium <- dimension_value row 0 ;;
                  sessions_count <- int_metric py_int row 0 ;;
                  ret (unassigned_mediums ++ [mkMedium medium sessions_count]))
               acc
             = ret (acc ++ map (fun mn => mkMedium (fst mn) (snd mn)) parsed)).
  { induction H as [| row [m n] rows parsed Hrow _ IH]; intros acc.
    - cbn. rewrite app_nil_r. reflexivity.
    - cbn [for_each]. cbn [fst snd] in Hrow.
      rewrite (dimension_value_reads _ _ _ _ Hrow), bind_ret_l.
      rewrite (int_metric_reads _ _ _ _ Hrow), !bind_ret_l.
      rewrite IH. cbn [map fst snd]. rewrite <- app_assoc. reflexivity. }
  apply (G []).
Qed.

Lemma percent_unassigned_of_zero total_sessions :
  exists v, percent_unassigned 0 total_sessions = inr v /\ is_zero v.
Proof.
  unfold percent_unassigned, percent, int_true_div.
  destruct (0 <? total_sessions) eqn:Hpos.
  - apply Z.ltb_lt in Hpos.
    replace (total_sessions =? 0) with false by (symmetry; apply Z.eqb_neq; lia).
    replace (if total_sessions <? 0 then - 0 else 0) with 0
      by (destruct (total_sessions <? 0); reflexivity).
    change (RN 0 (Z.abs total_sessions)) with zero.
    eexists. split; [reflexivity |]. right. reflexivity.
  - eexists. split; [reflexivity |]. left. reflexivity.
Qed.

(** The section on rows that read: the percentage is taken over the
    [total_sessions] it is given. *)
Lemma unassigned_traffic_reads (py_int : string -> option Z)
    (post : Body -> option Payload) (total_sessions : Z)
    (channel_data medium_data : Report)
    (channels mediums : list (string * Z)) :
  post channel_request = Some (Object channel_data) ->
  error channel_data = None ->
  post medium_request = Some (Object medium_data) ->
  error medium_data = None ->
  Forall2 (fun row cn => reads py_int row (fst cn) (snd cn))
          (get_rows channel_data) channels ->
  Forall2 (fun row mn => reads py_int row (fst mn) (snd mn))
          (get_rows medium_data) mediums ->
  let unassigned := last (map snd (List.filter is_unassigned channels)) 0 in
  unassigned_traffic py_int post total_sessions
  = match percent_unassigned unassigned total_sessions with
    | inl e =>
        ([StatusText "🔍 Analyzing Unassigned Traffic..."; Progress 40;
          Post channel_request], inl (Raise e))
    | inr p =>
        ([StatusText "🔍 Analyzing Unassigned Traffic..."; Progress 40;
          Post channel_request; Post medium_request],
         inr (unassigned, p,
              map (fun mn => mkMedium (fst mn) (snd mn)) mediums))
    end.
Proof.
  intros Hc Hce Hm Hme Hchannels Hmediums unassigned.
  unfold unassigned_traffic.
  rewrite !bind_emit.
  rewrite (fetch_returns post ["sessions"] ["defaultChannelGrouping"] None
                         _ Hc Hce).
  unfold scan_channels.
  rewrite bind_value, read_rows_object. cbn [lift]. rewrite bind_ret_l.
  rewrite (scan_channels_from _ _ _ _ _ Hchannels), bind_ret_l.
  cbn [fst snd]. fold unassigned.
  destruct (percent_unassigned unassigned total_sessions) as [e | p];
    [reflexivity |].
  cbn [lift]. rewrite bind_ret_l.
  rewrite (fetch_returns post ["sessions"] ["sessionMedium"]
                         (Some (StringFilter "defaultChannelGrouping"
                                             "Unassigned"))
                         _ Hm Hme).
  rewrite bind_value, read_rows_object. cbn [lift]. rewrite bind_ret_l.
  rewrite (scan_mediums_reads _ _ _ Hmediums), bind_ret_l.
  reflexivity.
Qed.

(** C4.  The unassigned sessions are the count of the (last) channel row
    whose dimension is the string Unassigned, and 0 without such a row;
    the other rows only enter the channel sum, which is compared with
    nothing: the section goes on to the medium query whatever the sum is.
    With no channel rows and no medium rows the section returns 0
    unassigned sessions, a percentage of zero and no medium. *)
Theorem C4_unassigned_detection (py_int : string -> option Z)
    (post : Body -> option Payload) (total_sessions : Z)
    (channel_data medium_data : Report)
    (channels mediums : list (string * Z)) :
  post channel_request = Some (Object channel_data) ->
  error channel_data = None ->
  post medium_request = Some (Object medium_data) ->
  error medium_data = None ->
  Forall2 (fun row cn => reads py_int row (fst cn) (snd cn))
          (get_rows channel_data) channels ->
  Forall2 (fun row mn => reads py_int row (fst mn) (snd mn))
          (get_rows medium_data) mediums ->
  let unassigned := last (map snd (List.filter is_unassigned channels)) 0 in
  let r := unassigned_traffic py_int post total_sessions in
  scan_channels py_int (get_rows channel_data)
    = ret (unassigned, fold_left Z.add (map snd channels) 0) /\
  r = match percent_unassigned unassigned total_sessions with
      | inl e =>
          ([StatusText "🔍 Analyzing Unassigned Traffic..."; Progress 40;
            Post channel_request], inl (Raise e))
      | inr p =>
          ([StatusText "🔍 Analyzing Unassigned Traffic..."; Progress 40;
            Post channel_request; Post medium_request],
           inr (unassigned, p,
                map (fun mn => mkMedium (fst mn) (snd mn)) mediums))
      end /\
  (channels = [] -> mediums = [] ->
   exists p, snd r = inr (0, p, []) /\ is_zero p).
Proof.
  intros Hc Hce Hm Hme Hchannels Hmediums unassigned r.
  assert (Hscan : scan_channels py_int (get_rows channel_data)
                  = ret (unassigned, fold_left Z.add (map snd channels) 0)).
  { unfold scan_channels. apply scan_channels_from. exact Hchannels. }
  assert (Hr : r = match percent_unassigned unassigned total_sessions with
      | inl e =>
          ([StatusText "🔍 Analyzing Unassigned Traffic..."; Progress 40;
            Post channel_request], inl (Raise e))
      | inr p =>
          ([StatusText "🔍 Analyzing Unassigned Traffic..."; Progress 40;
            Post channel_request; Post medium_request],
           inr (unassigned, p,
                map (fun mn => mkMedium (fst mn) (snd mn)) mediums))
      end).
  { subst r unassigned.
    apply (unassigned_traffic_reads py_int post total_sessions
             channel_data medium_data channels mediums); assumption. }
  split; [exact Hscan |]. split; [exact Hr |].
  intros -> ->. rewrite Hr. subst unassigned. cbn [List.filter map last].
  destruct (percent_unassigned_of_zero total_sessions) as (v & Hv & Hz).
  rewrite Hv. exists v. split; [reflexivity | exact Hz].
Qed.

Lemma C4_unassigned_detection_witness :
  let r := unassigned_traffic Sample.dec_int Sample.shop 1000 in
  scan_channels Sample.dec_int
      [mkRow ["Unassigned"] ["300"]; mkRow ["Organic"] ["700"]]
    = ret (300, 1000) /\
  r = ([StatusText "🔍 Analyzing Unassigned Traffic..."; Progress 40;
        Post channel_request; Post medium_request],
       inr (300, PFloat (of_hundredths 3000), [mkMedium "(not set)" 300])).
Proof.
  pose proof (C4_unassigned_detection Sample.dec_int Sample.shop 1000
                (mkReport None
                   (Some [mkRow ["Unassigned"] ["300"];
                          mkRow ["Organic"] ["700"]]))
                (mkReport None (Some [mkRow ["(not set)"] ["300"]]))
                [("Unassigned", 300); ("Organic", 700)]
                [("(not set)", 300)]
                eq_refl eq_refl eq_refl eq_refl) as H.
  cbn [get_rows rows] in H.
  assert (Hread : forall d s n, Sample.dec_int s = Some n ->
                    reads Sample.dec_int (mkRow [d] [s]) d n).
  { intros d s n Hs. split; [reflexivity |]. exists s. split; [reflexivity | exact Hs]. }
  destruct H as (H1 & H2 & _).
  - repeat constructor; apply Hread; reflexivity.
  - repeat constructor; apply Hread; reflexivity.
  - split; [exact H1 | exact H2].
Defined.

(** ** Transactions without rows *)

Lemma snd_bind_emit {B} (e : event) (k : unit -> M B) :
  snd (bind (emit e) k) = snd (k tt).
Proof. rewrite bind_emit. reflexivity. Qed.

Lemma snd_bind_ret {A B} (a : A) (k : A -> M B) :
  snd (bind (ret a) k) = snd (k a).
Proof. rewrite bind_ret_l. reflexivity. Qed.

Lemma snd_bind_value {A B} (t : list event) (a : A) (k : A -> M B) :
  snd (bind (t, inr a) k) = snd (k a).
Proof. rewrite bind_value. reflexivity. Qed.

Lemma fetch_answering post b result metrics dimensions filters :
  same_metrics (request metrics dimensions filters) b = false ->
  fetch_metric_report (answering b result post) metrics dimensions filters
  = fetch_metric_report post metrics dimensions filters.
Proof.
  intros H. unfold fetch_metric_report, answering. rewrite H. reflexivity.
Qed.

Lemma read_transactions_empty py_int py_float result :
  rows result = None \/ rows result = Some [] ->
  read_transactions py_int py_float (Object result) = ret (0, PInt 0).
Proof.
  intros H. unfold read_transactions.
  rewrite read_first_row_object. unfold first_row.
  destruct H as [-> | ->]; reflexivity.
Qed.

Lemma for_each_emit_returns {A} (xs : list A) (g : A -> event) :
  snd (for_each xs (fun _ x => emit (g x)) tt) = inr tt.
Proof.
  induction xs as [| x xs IH]; [reflexivity |].
  cbn [for_each]. rewrite snd_bind_emit. exact IH.
Qed.

Lemma show_results_returns a funnel_data ms ds :
  snd (show_results a funnel_data ms ds)
  = match funnel_rates funnel_data with
    | inl e => inl (Raise e)
    | inr _ => inr tt
    end.
Proof.
  unfold show_results. rewrite !snd_bind_emit.
  assert (Hm : snd match ms with
                   | [] => emit (Info "No unassigned traffic found or no medium data available")
                   | _ :: _ =>
                       emit (Markdown "**Session Medium Breakdown (Unassigned Traffic):**") ;;
                       for_each ms
                         (fun _ medium_data =>
                            emit (Write [Lit "- **"; FStr (medium medium_data); Lit "**: ";
                                         FIntComma (sessions medium_data); Lit " sessions"]))
                         tt
                   end = inr tt).
  { destruct ms; [reflexivity |]. rewrite snd_bind_emit.
    apply (for_each_emit_returns (m :: ms)). }
  destruct (match ms with [] => _ | _ => _ end) as [tm [h | []]];
    [discriminate |].
  rewrite snd_bind_value, !snd_bind_emit.
  assert (Hd : snd match ds with
                   | [] => emit (Info "No duplicate transaction IDs found")
                   | _ :: _ =>
                       emit (Markdown "**Transaction IDs with >1 Transaction:**") ;;
                       for_each (firstn 10 ds)
                         (fun _ dup_data =>
                            emit (Write [Lit "- **"; FStr (transaction_id dup_data);
                                         Lit "**: "; FInt (count dup_data);
                                         Lit " transactions"]))
                         tt ;;
                       if 10 <? Z.of_nat (List.length ds)
                       then emit (Write [Lit "... and ";
                                         FInt (Z.of_nat (List.length ds) - 10);
                                         Lit " more"])
                       else ret tt
                   end = inr tt).
  { destruct ds as [| d ds']; [reflexivity |]. rewrite snd_bind_emit.
    pose proof (for_each_emit_returns (firstn 10 (d :: ds'))
                  (fun dup_data =>
                     Write [Lit "- **"; FStr (transaction_id dup_data);
                            Lit "**: "; FInt (count dup_data);
                            Lit " transactions"])) as Hf.
    destruct (for_each (firstn 10 (d :: ds')) _ tt) as [tf [h | []]];
      [discriminate |].
    rewrite snd_bind_value.
    destruct (10 <? Z.of_nat (List.length (d :: ds'))); reflexivity. }
  destruct (match ds with [] => _ | _ => _ end) as [td [h | []]];
    [discriminate |].
  rewrite snd_bind_value, !snd_bind_emit.
  destruct (funnel_rates funnel_data) as [e | [r |]]; cbn [lift];
    [reflexivity | | reflexivity].
  unfold ret. rewrite snd_bind_value, !snd_bind_emit. reflexivity.
Qed.

Lemma show_insights_returns l : snd (show_insights l) = inr tt.
Proof.
  destruct l as [| s l]; [reflexivity |].
  apply (for_each_emit_returns (s :: l) (fun insight => Write [Lit insight])).
Qed.

Lemma show_exports_and_insights_returns strip sheet_url a funnel_data ms ds :
  snd (show_exports_and_insights strip sheet_url a funnel_data ms ds) = inr tt.
Proof.
  unfold show_exports_and_insights. rewrite snd_bind_emit.
  destruct (push_offered strip sheet_url);
    [| rewrite snd_bind_ret]; rewrite !snd_bind_emit;
    apply show_insights_returns.
Qed.

Lemma transactions_and_revenue_empty py_int py_float post empty n rev dups :
  error empty = None ->
  rows empty = None \/ rows empty = Some [] ->
  snd (transactions_and_revenue py_int py_float post) = inr (n, rev, dups) ->
  snd (transactions_and_revenue py_int py_float
         (answering transactions_request empty post))
  = inr (0, PInt 0, dups).
Proof.
  intros Herr Hrows. unfold transactions_and_revenue.
  rewrite !snd_bind_emit.
  rewrite (fetch_returns (answering transactions_request empty post)
             ["transactions"; "totalRevenue"] [] None empty eq_refl Herr).
  rewrite snd_bind_value, (read_transactions_empty _ _ _ Hrows), snd_bind_ret.
  rewrite fetch_answering by reflexivity.
  destruct (fetch_metric_report post ["transactions"; "totalRevenue"] [] None)
    as [t1 [h | data]]; [discriminate |].
  rewrite !snd_bind_value.
  destruct (read_transactions py_int py_float data) as [t2 [h | totals]];
    [discriminate |].
  rewrite !snd_bind_value.
  destruct (fetch_metric_report post ["transactions"] ["transactionId"] _)
    as [t3 [h | ids]]; [discriminate |].
  rewrite !snd_bind_value.
  destruct (read_rows ids) as [e | id_rows]; [discriminate |].
  cbn [lift]. rewrite !snd_bind_ret.
  destruct (scan_duplicates py_int id_rows) as [t4 [h | ds]];
    [discriminate |].
  rewrite !snd_bind_value. cbn [snd ret fst].
  intros H. injection H as _ _ ->. reflexivity.
Qed.

(** C10.  A transactions and revenue answer without rows is read as 0
    transactions and a revenue of 0 and is no failure: whenever the run
    completes against an API, it also completes against the API that
    answers this one query without rows, with the same summary but for
    these two zeros. *)
Theorem C10_no_transaction_rows (strip : string -> string)
    (sheet_url : string) (py_int : string -> option Z)
    (py_float : string -> option float) (post : Body -> option Payload)
    (empty : Report) (a : AuditData) :
  error empty = None ->
  rows empty = None \/ rows empty = Some [] ->
  snd (run_audit strip sheet_url py_int py_float post) = inr a ->
  read_transactions py_int py_float (Object empty) = ret (0, PInt 0) /\
  snd (run_audit strip sheet_url py_int py_float
         (answering transactions_request empty post))
  = inr (mkAudit (total_sessions a) (total_users a) (ad_sessions_per_user a)
                 (unassigned_sessions a) (ad_percent_unassigned a)
                 0 (PInt 0)).
Proof.
  intros Herr Hrows Hrun.
  split; [apply read_transactions_empty; exact Hrows |].
  set (post' := answering transactions_request empty post).
  assert (H1 : sessions_and_users py_int post' = sessions_and_users py_int post).
  { unfold sessions_and_users, post'. rewrite fetch_answering by reflexivity.
    reflexivity. }
  assert (H2 : forall n, unassigned_traffic py_int post' n
                         = unassigned_traffic py_int post n).
  { intros n. unfold unassigned_traffic, post'.
    rewrite !fetch_answering by reflexivity. reflexivity. }
  assert (H4 : funnel_analysis py_int post' = funnel_analysis py_int post).
  { unfold funnel_analysis, funnel_count, post'.
    rewrite !fetch_answering by reflexivity. reflexivity. }
  revert Hrun. unfold run_audit. rewrite H1, H4. rewrite !snd_bind_emit.
  destruct (sessions_and_users py_int post) as [t1 [h | [[ts tu] spu]]];
    [discriminate |].
  rewrite !snd_bind_value. rewrite H2.
  destruct (unassigned_traffic py_int post ts) as [t2 [h | [[un pct] ms]]];
    [discriminate |].
  rewrite !snd_bind_value.
  pose proof (transactions_and_revenue_empty py_int py_float post empty) as H3.
  fold post' in H3.
  destruct (transactions_and_revenue py_int py_float post)
    as [t3 [h | [[n rev] ds]]]; [discriminate |].
  specialize (H3 n rev ds Herr Hrows eq_refl).
  destruct (transactions_and_revenue py_int py_float post')
    as [t3' [h | s3']]; [discriminate |].
  cbn [snd] in H3. injection H3 as ->.
  rewrite !snd_bind_value.
  destruct (funnel_analysis py_int post) as [t4 [h | funnel_data]];
    [discriminate |].
  rewrite !snd_bind_value, !snd_bind_emit.
  pose proof (show_results_returns
                (mkAudit ts tu spu un pct n rev) funnel_data ms ds) as Hs.
  pose proof (show_results_returns
                (mkAudit ts tu spu un pct 0 (PInt 0)) funnel_data ms ds) as Hs'.
  destruct (show_results (mkAudit ts tu spu un pct n rev) funnel_data ms ds)
    as [t5 [h | []]]; [discriminate |].
  destruct (show_results (mkAudit ts tu spu un pct 0 (PInt 0)) funnel_data ms ds)
    as [t5' [h | []]].
  { cbn [snd] in Hs, Hs'. rewrite <- Hs in Hs'. discriminate. }
  rewrite !snd_bind_value.
  pose proof (show_exports_and_insights_returns strip sheet_url
                (mkAudit ts tu spu un pct n rev) funnel_data ms ds) as He.
  pose proof (show_exports_and_insights_returns strip sheet_url
                (mkAudit ts tu spu un pct 0 (PInt 0)) funnel_data ms ds) as He'.
  destruct (show_exports_and_insights strip sheet_url
              (mkAudit ts tu spu un pct n rev) _ _ _)
    as [t6 [h | []]]; [discriminate |].
  destruct (show_exports_and_insights strip sheet_url
              (mkAudit ts tu spu un pct 0 (PInt 0)) _ _ _)
    as [t6' [h | []]]; [discriminate |].
  rewrite !snd_bind_value. cbn [snd ret].
  intros H. injection H as <-. reflexivity.
Qed.

Lemma C10_no_transaction_rows_witness :
  read_transactions Sample.dec_int Sample.dec_float
                    (Object (mkReport None (Some [])))
  = ret (0, PInt 0) /\
  snd (run_audit Sample.strip Sample.sheet_url
      Sample.dec_int Sample.dec_float
         (answering transactions_request (mkReport None (Some [])) Sample.shop))
  = inr (mkAudit 1000 500 (PFloat (of_hundredths 200))
                 300 (PFloat (of_hundredths 3000)) 0 (PInt 0)).
Proof.
  apply (C10_no_transaction_rows Sample.strip Sample.sheet_url
           Sample.dec_int Sample.dec_float Sample.shop
           (mkReport None (Some []))
           (mkAudit 1000 500 (PFloat (of_hundredths 200))
                    300 (PFloat (of_hundredths 3000)) 25
                    (PFloat (RN 12345 10)))).
  - reflexivity.
  - right. reflexivity.
  - vm_compute. reflexivity.
Defined.

(** ** Rounding to nearest *)

Section Rounding.

Local Open Scope R_scope.

Lemma rne_near (p q : Z) :
  (0 < q)%Z -> (2 * Z.abs (rne p q * q - p) <= q)%Z.
Proof.
  intros Hq. unfold rne.
  pose proof (Z.div_mod p q ltac:(lia)) as Hdiv.
  pose proof (Z.mod_pos_bound p q Hq) as Hmod.
  destruct (2 * (p mod q) <? q)%Z eqn:H1;
    [apply Z.ltb_lt in H1 | apply Z.ltb_ge in H1].
  - nia.
  - destruct (q <? 2 * (p mod q))%Z eqn:H2;
      [apply Z.ltb_lt in H2 | apply Z.ltb_ge in H2].
    + nia.
    + destruct (Z.even (p / q)); nia.
Qed.

Lemma rne_near_R (p q : Z) :
  (0 < q)%Z -> Rabs (IZR (rne p q) - IZR p / IZR q) <= / 2.
Proof.
  intros Hq. pose proof (rne_near p q Hq) as H.
  assert (HqR : 0 < IZR q) by (apply IZR_lt; exact Hq).
  apply Rabs_le.
  assert (Ha : (2 * p <= 2 * (rne p q * q) + q)%Z) by lia.
  assert (Hb : (2 * (rne p q * q) <= 2 * p + q)%Z) by lia.
  apply IZR_le in Ha, Hb.
  rewrite !plus_IZR, !mult_IZR in Ha, Hb.
  set (k := IZR (rne p q)) in *. set (P := IZR p) in *. set (Q := IZR q) in *.
  assert (HP : P = P / Q * Q) by (field; lra).
  set (x := P / Q) in *. clearbody x. rewrite HP in Ha, Hb. clear HP.
  split; apply Rmult_le_reg_r with Q; try exact HqR; lra.
Qed.

Lemma IZR_pow2 (e : Z) : (0 <= e)%Z -> IZR (2 ^ e) = powerRZ 2 e.
Proof.
  intros He. rewrite <- (Z2Nat.id e He), <- pow_IZR, <- pow_powerRZ.
  reflexivity.
Qed.

Lemma pow2_pos (e : Z) : 0 < powerRZ 2 e.
Proof. apply powerRZ_lt. lra. Qed.

Lemma pow2_add (a b : Z) : powerRZ 2 (a + b) = powerRZ 2 a * powerRZ 2 b.
Proof. apply powerRZ_add. lra. Qed.

Lemma pow2_opp (e : Z) : powerRZ 2 (- e) = / powerRZ 2 e.
Proof. apply powerRZ_neg'. Qed.

Lemma pow2_ge_1 (e : Z) : (0 <= e)%Z -> 1 <= powerRZ 2 e.
Proof.
  intros He. rewrite <- IZR_pow2 by exact He. apply IZR_le.
  pose proof (Z.pow_pos_nonneg 2 e ltac:(lia) He). lia.
Qed.

Lemma pow2_le (a b : Z) : (a <= b)%Z -> powerRZ 2 a <= powerRZ 2 b.
Proof.
  intros H. replace b with (a + (b - a))%Z by lia. rewrite pow2_add.
  pose proof (pow2_ge_1 (b - a) ltac:(lia)). pose proof (pow2_pos a). nra.
Qed.

Lemma pow2_lt_inv (a b : Z) : powerRZ 2 a < powerRZ 2 b -> (a < b)%Z.
Proof.
  intros H. destruct (Z_lt_le_dec a b) as [Hlt | Hle]; [exact Hlt |].
  apply pow2_le in Hle. lra.
Qed.

Lemma pow2_succ (e : Z) : powerRZ 2 (e + 1) = 2 * powerRZ 2 e.
Proof. rewrite pow2_add. simpl. lra. Qed.

(** The fraction that [scale] builds. *)
Lemma scale_value (p q e a b : Z) :
  (0 < q)%Z -> scale p q e = (a, b) ->
  (0 < b)%Z /\ IZR a / IZR b = IZR p / IZR q * powerRZ 2 (- e).
Proof.
  intros Hq. unfold scale.
  assert (HqR : 0 < IZR q) by (apply IZR_lt; exact Hq).
  destruct (0 <=? e)%Z eqn:He; intros H; injection H as <- <-.
  - apply Z.leb_le in He.
    pose proof (Z.pow_pos_nonneg 2 e ltac:(lia) He).
    split; [nia |].
    rewrite mult_IZR, IZR_pow2, pow2_opp by exact He.
    pose proof (pow2_pos e). field. lra.
  - apply Z.leb_gt in He. split; [exact Hq |].
    rewrite mult_IZR, IZR_pow2 by lia. field. lra.
Qed.

Lemma scale_num_pos (p q e a b : Z) :
  (0 < p)%Z -> scale p q e = (a, b) -> (0 < a)%Z.
Proof.
  intros Hp. unfold scale.
  destruct (0 <=? e)%Z eqn:He; intros H; injection H as <- <-; [exact Hp |].
  apply Z.leb_gt in He.
  pose proof (Z.pow_pos_nonneg 2 (- e) ltac:(lia) ltac:(lia)). nia.
Qed.

Lemma ilog2_lower (p q : Z) :
  (0 < p)%Z -> (0 < q)%Z -> powerRZ 2 (ilog2 p q) <= IZR p / IZR q.
Proof.
  intros Hp Hq. unfold ilog2.
  assert (HpR : 0 < IZR p) by (apply IZR_lt; exact Hp).
  assert (HqR : 0 < IZR q) by (apply IZR_lt; exact Hq).
  set (l := (Z.log2 p - Z.log2 q)%Z).
  destruct (scale p q l) as [a b] eqn:Hs.
  destruct (scale_value _ _ _ _ _ Hq Hs) as [Hb Hv].
  assert (HbR : 0 < IZR b) by (apply IZR_lt; exact Hb).
  rewrite pow2_opp in Hv. pose proof (pow2_pos l) as Hl.
  destruct (b <=? a)%Z eqn:Hba.
  - apply Z.leb_le, IZR_le in Hba.
    assert (H1 : 1 <= IZR a / IZR b).
    { apply Rmult_le_reg_r with (IZR b); [exact HbR |].
      unfold Rdiv. rewrite Rmult_assoc, Rinv_l by lra. lra. }
    rewrite Hv in H1.
    apply Rmult_le_reg_r with (/ powerRZ 2 l).
    + apply Rinv_0_lt_compat. exact Hl.
    + rewrite Rinv_r by lra. exact H1.
  - destruct (Z.log2_spec p Hp) as [Hp1 _].
    destruct (Z.log2_spec q Hq) as [_ Hq2].
    pose proof (Z.log2_nonneg p) as Hlp. pose proof (Z.log2_nonneg q) as Hlq.
    apply IZR_le in Hp1. apply IZR_lt in Hq2.
    rewrite IZR_pow2 in Hp1 by exact Hlp.
    rewrite <- Z.add_1_r, IZR_pow2, pow2_succ in Hq2 by lia.
    replace (l - 1)%Z with (Z.log2 p + - (Z.log2 q + 1))%Z by (unfold l; lia).
    rewrite pow2_add, pow2_opp, pow2_succ.
    pose proof (pow2_pos (Z.log2 p)). pose proof (pow2_pos (Z.log2 q)).
    apply Rmult_le_reg_r with (IZR q); [exact HqR |].
    unfold Rdiv at 1. rewrite (Rmult_assoc (IZR p)), Rinv_l by lra.
    rewrite Rmult_1_r.
    apply Rle_trans with (powerRZ 2 (Z.log2 p)); [| exact Hp1].
    apply Rmult_le_reg_r with (2 * powerRZ 2 (Z.log2 q)); [lra |].
    rewrite !Rmult_assoc, (Rmult_comm (IZR q)), <- (Rmult_assoc (/ _)).
    rewrite Rinv_l by lra. nra.
Qed.

Lemma normalize_value (m e m' e' : Z) :
  normalize false m e = Finite m' e' -> F2R m' e' = IZR m * powerRZ 2 e.
Proof.
  unfold normalize, F2R.
  destruct (m =? 0)%Z eqn:H0.
  - apply Z.eqb_eq in H0. subst m. intros H. injection H as <- <-.
    simpl. lra.
  - destruct (m =? 2 ^ prec)%Z eqn:H1.
    + apply Z.eqb_eq in H1. subst m.
      destruct (emax - prec <? e + 1)%Z; [discriminate |].
      intros H. injection H as <- <-. rewrite pow2_succ.
      change (2 ^ prec)%Z with (2 * 2 ^ (prec - 1))%Z.
      rewrite mult_IZR.
      change (Z.pow_pos 2 52) with (2 ^ (prec - 1))%Z. ring.
    + destruct (emax - prec <? e)%Z; [discriminate |].
      intros H. injection H as <- <-. reflexivity.
Qed.

Lemma normalize_finite (m e : Z) :
  (e < emax - prec)%Z -> exists m' e', normalize false m e = Finite m' e'.
Proof.
  intros He. unfold normalize.
  destruct (m =? 0)%Z; [eexists; eexists; reflexivity |].
  destruct (m =? 2 ^ prec)%Z.
  - replace (emax - prec <? e + 1)%Z with false
      by (symmetry; apply Z.ltb_ge; lia).
    eexists; eexists; reflexivity.
  - replace (emax - prec <? e)%Z with false
      by (symmetry; apply Z.ltb_ge; lia).
    eexists; eexists; reflexivity.
Qed.

(** The exponent and the rounded mantissa behind [RN p q]. *)
Lemma RN_pos_spec (p q m e : Z) :
  (0 < p)%Z -> (0 < q)%Z -> RN p q = Finite m e ->
  let e0 := Z.max (ilog2 p q - (prec - 1)) emin in
  exists m0 : Z,
    F2R m e = IZR m0 * powerRZ 2 e0 /\
    Rabs (IZR m0 - IZR p / IZR q * powerRZ 2 (- e0)) <= / 2.
Proof.
  intros Hp Hq. unfold RN.
  replace (p =? 0)%Z with false by (symmetry; apply Z.eqb_neq; lia).
  replace (p <? 0)%Z with false by (symmetry; apply Z.ltb_ge; lia).
  rewrite (Z.abs_eq p) by lia.
  intros H. cbv zeta.
  set (e0 := Z.max (ilog2 p q - (prec - 1)) emin) in *.
  destruct (scale p q e0) as [n d] eqn:Hs.
  destruct (scale_value _ _ _ _ _ Hq Hs) as [Hd Hv].
  exists (rne n d). split.
  - apply normalize_value. exact H.
  - rewrite <- Hv. apply rne_near_R. exact Hd.
Qed.

Lemma RN_finite (p q : Z) :
  (0 < p)%Z -> (0 < q)%Z -> IZR p / IZR q < powerRZ 2 (emax - 1) ->
  exists m e, RN p q = Finite m e.
Proof.
  intros Hp Hq Hlt. unfold RN.
  replace (p =? 0)%Z with false by (symmetry; apply Z.eqb_neq; lia).
  replace (p <? 0)%Z with false by (symmetry; apply Z.ltb_ge; lia).
  rewrite (Z.abs_eq p) by lia.
  pose proof (ilog2_lower p q Hp Hq) as Hl.
  assert (Hil : (ilog2 p q < emax - 1)%Z) by (apply pow2_lt_inv; lra).
  destruct (scale p q _) as [n d].
  apply normalize_finite. unfold emax, prec, emin in *. lia.
Qed.

Lemma RN_rel_error (p q m e : Z) :
  (0 < p)%Z -> (0 < q)%Z -> powerRZ 2 (-1022) <= IZR p / IZR q ->
  RN p q = Finite m e ->
  Rabs (F2R m e - IZR p / IZR q) <= IZR p / IZR q * powerRZ 2 (-53).
Proof.
  intros Hp Hq Hnormal H.
  destruct (RN_pos_spec p q m e Hp Hq H) as (m0 & Hv & Hm0).
  set (e0 := Z.max (ilog2 p q - (prec - 1)) emin) in *.
  set (r := IZR p / IZR q) in *.
  assert (He0 : powerRZ 2 (e0 + 52) <= r).
  { destruct (Z.max_spec (ilog2 p q - (prec - 1)) emin) as [[_ Hmax] | [_ Hmax]];
      fold e0 in Hmax; rewrite Hmax.
    - exact Hnormal.
    - replace (ilog2 p q - (prec - 1) + 52)%Z with (ilog2 p q)
        by (unfold prec; lia).
      apply ilog2_lower; assumption. }
  rewrite Hv. pose proof (pow2_pos e0) as H2.
  rewrite pow2_opp in Hm0.
  replace (IZR m0 * powerRZ 2 e0 - r)
    with ((IZR m0 - r * / powerRZ 2 e0) * powerRZ 2 e0) by (field; lra).
  rewrite Rabs_mult, (Rabs_pos_eq (powerRZ 2 e0)) by lra.
  replace (powerRZ 2 (e0 + 52)) with (powerRZ 2 e0 * powerRZ 2 53 * / 2) in He0
    by (rewrite pow2_add; change 53%Z with (52 + 1)%Z;
        rewrite (pow2_succ 52); field).
  assert (H53 : powerRZ 2 (-53) * powerRZ 2 53 = 1).
  { rewrite <- pow2_add. reflexivity. }
  pose proof (pow2_pos 53). pose proof (pow2_pos (-53)).
  pose proof (Rabs_pos (IZR m0 - r * / powerRZ 2 e0)).
  apply Rle_trans with (/ 2 * powerRZ 2 e0); [nra |].
  assert (Hmul : powerRZ 2 e0 * powerRZ 2 53 * / 2 * powerRZ 2 (-53)
               <= r * powerRZ 2 (-53))
    by (apply Rmult_le_compat_r; lra).
  replace (powerRZ 2 e0 * powerRZ 2 53 * / 2 * powerRZ 2 (-53))
    with (/ 2 * powerRZ 2 e0 * (powerRZ 2 (-53) * powerRZ 2 53)) in Hmul by ring.
  rewrite H53 in Hmul. lra.
Qed.

End Rounding.

(** ** Two-digit rounding *)

(** Powers of two as opaque reals, for linear arithmetic. *)
Ltac hide_pow2 :=
  repeat match goal with
         | |- context [powerRZ 2 ?e] =>
             let x := fresh "P" in set (x := powerRZ 2 e) in *; clearbody x
         | H : context [powerRZ 2 ?e] |- _ =>
             let x := fresh "P" in set (x := powerRZ 2 e) in *; clearbody x
         end.

Section TwoDigits.

Local Open Scope R_scope.

Lemma Rabs_le_between (x a : R) : Rabs x <= a -> - a <= x <= a.
Proof. unfold Rabs. destruct (Rcase_abs x); lra. Qed.

Lemma RN_small (p q m e : Z) :
  (0 < p)%Z -> (0 < q)%Z -> IZR p / IZR q < powerRZ 2 (-1022) ->
  RN p q = Finite m e ->
  0 <= F2R m e <= powerRZ 2 (-1021).
Proof.
  intros Hp Hq Hsmall H.
  destruct (RN_pos_spec p q m e Hp Hq H) as (m0 & Hv & Hm0).
  set (r := IZR p / IZR q) in *.
  pose proof (ilog2_lower p q Hp Hq) as Hl. fold r in Hl.
  assert (Hil : (ilog2 p q < -1022)%Z) by (apply pow2_lt_inv; lra).
  replace (Z.max (ilog2 p q - (prec - 1)) emin) with (-1074)%Z in *
    by (unfold prec, emin; lia).
  assert (Hr : 0 < r).
  { unfold r. apply Rdiv_lt_0_compat; apply IZR_lt; assumption. }
  change (- -1074)%Z with 1074%Z in Hm0.
  assert (H52 : r * powerRZ 2 1074 < powerRZ 2 52).
  { change 52%Z with (-1022 + 1074)%Z. rewrite pow2_add.
    apply Rmult_lt_compat_r; [apply pow2_pos | exact Hsmall]. }
  apply Rabs_le_between in Hm0.
  pose proof (pow2_pos 1074). pose proof (pow2_pos (-1074)).
  assert (Hm0' : (0 <= m0)%Z).
  { assert (Hlt : IZR (-1) < IZR m0) by (hide_pow2; nra).
    apply lt_IZR in Hlt. lia. }
  apply IZR_le in Hm0'.
  rewrite Hv. split; [hide_pow2; nra |].
  apply Rle_trans with (powerRZ 2 53 * powerRZ 2 (-1074)).
  - apply Rmult_le_compat_r; [lra |].
    change 53%Z with (52 + 1)%Z. rewrite pow2_succ.
    pose proof (pow2_ge_1 52 ltac:(lia)). hide_pow2.
    set (x := r * _) in *. clearbody x r. lra.
  - rewrite <- pow2_add. apply Req_le. reflexivity.
Qed.

Lemma hundredths_near (m e : Z) :
  Rabs (IZR (hundredths m e) - 100 * F2R m e) <= / 2.
Proof.
  unfold hundredths, F2R.
  destruct (scale (100 * m) 1 (- e)) as [n d] eqn:Hs.
  destruct (scale_value _ _ _ _ _ Z.lt_0_1 Hs) as [Hd Hv].
  rewrite Z.opp_involutive, mult_IZR in Hv.
  replace (100 * (IZR m * powerRZ 2 e)) with (IZR n / IZR d)
    by (rewrite Hv; field).
  apply rne_near_R. exact Hd.
Qed.

(** An integer within a half of [y] is nearest to any fraction that [y]
    is close enough to. *)
Lemma nearest_of_close (k c a : Z) (y : R) :
  (0 < a)%Z ->
  Rabs (IZR k - y) <= / 2 ->
  Rabs (y - IZR c / IZR a) < / (2 * IZR a) ->
  nearest k c a.
Proof.
  intros Ha Hk Hy. unfold nearest.
  assert (HaR : 0 < IZR a) by (apply IZR_lt; exact Ha).
  apply Rabs_le_between in Hk. apply Rabs_def2 in Hy.
  assert (Hc : IZR c = IZR c / IZR a * IZR a) by (field; lra).
  set (x := IZR c / IZR a) in *. clearbody x.
  assert (Hinv : / (2 * IZR a) * (2 * IZR a) = 1) by (field; lra).
  set (d := / (2 * IZR a)) in *. clearbody d.
  assert (H1 : (2 * (k * a - c) < a + 1)%Z).
  { apply lt_IZR. rewrite plus_IZR, !mult_IZR, minus_IZR, mult_IZR, Hc. nra. }
  assert (H2 : (- a - 1 < 2 * (k * a - c))%Z).
  { apply lt_IZR.
    rewrite minus_IZR, opp_IZR, !mult_IZR, minus_IZR, mult_IZR, Hc. nra. }
  lia.
Qed.

End TwoDigits.

(** ** Sessions per user *)

Section Quotients.

Local Open Scope R_scope.

Lemma pow2_m9 : powerRZ 2 (-9) = / 512.
Proof. simpl. lra. Qed.

Lemma tiny_is_small (x : R) : x <= powerRZ 2 (-1021) -> x <= / 512.
Proof.
  intros H. rewrite <- pow2_m9.
  apply Rle_trans with (1 := H). apply pow2_le. lia.
Qed.

(** A value whose hundredfold is below a half rounds to the digits 0. *)
Lemma hundredths_of_tiny (m e : Z) :
  0 <= F2R m e <= powerRZ 2 (-1021) -> hundredths m e = 0%Z.
Proof.
  intros [H0 H1]. apply tiny_is_small in H1.
  pose proof (hundredths_near m e) as Hk. apply Rabs_le_between in Hk.
  set (k := hundredths m e) in *.
  assert (Hlo : IZR (-1) < IZR k) by (simpl; lra).
  assert (Hhi : IZR k < IZR 1) by (simpl; lra).
  apply lt_IZR in Hlo, Hhi. lia.
Qed.

Lemma quotient_bound (s u : Z) (n : Z) :
  (0 < s < 2 ^ n)%Z -> (0 <= n)%Z -> (0 < u)%Z ->
  0 < IZR s / IZR u < powerRZ 2 n.
Proof.
  intros [Hs Hlt] Hn Hu.
  assert (HsR : 0 < IZR s) by (apply IZR_lt; exact Hs).
  assert (HuR : 1 <= IZR u) by (apply IZR_le; lia).
  apply IZR_lt in Hlt. rewrite IZR_pow2 in Hlt by exact Hn.
  split.
  - apply Rdiv_lt_0_compat; lra.
  - apply Rmult_lt_reg_r with (IZR u); [lra |].
    unfold Rdiv. rewrite Rmult_assoc, Rinv_l, Rmult_1_r by lra.
    pose proof (pow2_pos n). nra.
Qed.

(** [round(s / u, 2)] below 2^45. *)
Lemma round2_quotient (s u : Z) :
  (0 < s < 2 ^ 45)%Z -> (0 < u)%Z ->
  exists m e, RN s u = Finite m e /\ nearest (hundredths m e) (100 * s) u.
Proof.
  intros Hs Hu.
  destruct (quotient_bound s u 45 Hs ltac:(lia) Hu) as [Hr0 Hr45].
  assert (HsR : 0 < IZR s) by (apply IZR_lt; lia).
  assert (HuR : 0 < IZR u) by (apply IZR_lt; exact Hu).
  set (r := IZR s / IZR u) in *.
  destruct (RN_finite s u ltac:(lia) Hu) as (m & e & HRN).
  { apply Rlt_le_trans with (1 := Hr45). apply pow2_le. unfold emax. lia. }
  exists m, e. split; [exact HRN |].
  destruct (Rle_or_lt (powerRZ 2 (-1022)) r) as [Hnormal | Hsmall].
  - pose proof (RN_rel_error s u m e ltac:(lia) Hu Hnormal HRN) as Herr.
    fold r in Herr.
    apply nearest_of_close with (y := 100 * F2R m e);
      [exact Hu | apply hundredths_near |].
    rewrite mult_IZR. 
    replace (100 * F2R m e - 100 * IZR s / IZR u)
      with (100 * (F2R m e - r)) by (unfold r; field; lra).
    rewrite Rabs_mult, (Rabs_pos_eq 100) by lra.
    assert (H53 : 256 * powerRZ 2 45 * powerRZ 2 (-53) = 1).
    { replace 256 with (powerRZ 2 8) by (simpl; lra).
      rewrite <- !pow2_add. reflexivity. }
    pose proof (pow2_pos (-53)) as HE.
    assert (Hr : r * IZR u = IZR s) by (unfold r; field; lra).
    replace (/ (2 * IZR u)) with (/ 2 * / IZR u) by (field; lra).
    assert (Hu' : 0 < / IZR u) by (apply Rinv_0_lt_compat; exact HuR).
    apply Rle_lt_trans with (100 * (r * powerRZ 2 (-53))); [lra |].
    replace r with (IZR s * / IZR u) by reflexivity.
    assert (Hs' : 100 * (IZR s * powerRZ 2 (-53)) < / 2).
    { assert (IZR s < powerRZ 2 45).
      { rewrite <- IZR_pow2 by lia. apply IZR_lt. lia. }
      hide_pow2. nra. }
    hide_pow2. nra.
  - pose proof (RN_small s u m e ltac:(lia) Hu Hsmall HRN) as Hv.
    rewrite (hundredths_of_tiny m e Hv). unfold nearest.
    assert (H256 : r < / 512).
    { apply Rlt_le_trans with (1 := Hsmall).
      rewrite <- pow2_m9. apply pow2_le. lia. }
    assert (Hlt : IZR (512 * s) < IZR u).
    { rewrite mult_IZR. unfold r in H256.
      apply Rmult_lt_reg_r with (/ IZR u);
        [apply Rinv_0_lt_compat; exact HuR |].
      rewrite Rinv_r by lra. unfold Rdiv in H256. lra. }
    apply lt_IZR in Hlt. lia.
Qed.

End Quotients.

(** ** Percentages *)

Section Percentages.

Local Open Scope R_scope.

Lemma hundredths_of_small (m e : Z) :
  0 <= F2R m e <= / 512 -> hundredths m e = 0%Z.
Proof.
  intros [H0 H1].
  pose proof (hundredths_near m e) as Hk. apply Rabs_le_between in Hk.
  set (k := hundredths m e) in *.
  assert (Hlo : IZR (-1) < IZR k) by (simpl; lra).
  assert (Hhi : IZR k < IZR 1) by (simpl; lra).
  apply lt_IZR in Hlo, Hhi. lia.
Qed.

(** One rounding: a relative error of 2^-53 in the normal range, a tiny
    result below it. *)
Lemma RN_step (p q m e : Z) :
  (0 < p)%Z -> (0 < q)%Z -> RN p q = Finite m e ->
  0 <= F2R m e /\
  ((powerRZ 2 (-1022) <= IZR p / IZR q /\
    Rabs (F2R m e - IZR p / IZR q) <= IZR p / IZR q * powerRZ 2 (-53)) \/
   (IZR p / IZR q < powerRZ 2 (-1022) /\ F2R m e <= powerRZ 2 (-1021))).
Proof.
  intros Hp Hq H.
  assert (Hr : 0 < IZR p / IZR q)
    by (apply Rdiv_lt_0_compat; apply IZR_lt; assumption).
  destruct (Rle_or_lt (powerRZ 2 (-1022)) (IZR p / IZR q)) as [Hn | Hs].
  - pose proof (RN_rel_error p q m e Hp Hq Hn H) as Herr.
    assert (H53 : powerRZ 2 (-53) <= 1).
    { change 1 with (powerRZ 2 0). apply pow2_le. lia. }
    pose proof (pow2_pos (-53)).
    split; [| left; split; assumption].
    apply Rabs_le_between in Herr. hide_pow2. nra.
  - destruct (RN_small p q m e Hp Hq Hs H) as [H0 H1].
    split; [exact H0 | right; split; assumption].
Qed.

Lemma F2R_sign (m e : Z) : 0 <= F2R m e -> (0 <= m)%Z.
Proof.
  unfold F2R. intros H. pose proof (pow2_pos e) as He.
  apply le_IZR. destruct (Rle_or_lt 0 (IZR m)) as [Hm | Hm]; [exact Hm |].
  exfalso. nra.
Qed.

Lemma of_int_100 : of_int 100 = Finite hundred_mantissa (-46).
Proof. vm_compute. reflexivity. Qed.

Lemma F2R_100 : F2R hundred_mantissa (-46) = 100.
Proof.
  unfold F2R, hundred_mantissa.
  change 7036874417766400%Z with (100 * 2 ^ 46)%Z.
  rewrite mult_IZR, IZR_pow2, Rmult_assoc, <- pow2_add by lia.
  simpl. lra.
Qed.

(** [x * 100] rounds the exact product. *)
Lemma mul_100 (m1 e1 : Z) :
  (0 < m1)%Z ->
  exists n d, (0 < n)%Z /\ (0 < d)%Z /\
    IZR n / IZR d = 100 * F2R m1 e1 /\
    F64.mul (Finite m1 e1) (of_int 100) = RN n d.
Proof.
  intros Hm. rewrite of_int_100. unfold F64.mul.
  destruct (scale (m1 * hundred_mantissa) 1 (- (e1 + -46))) as [n d] eqn:Hs.
  destruct (scale_value _ _ _ _ _ Z.lt_0_1 Hs) as [Hd Hv].
  exists n, d. repeat split.
  - assert (Hpos : (0 < m1 * hundred_mantissa)%Z)
      by (unfold hundred_mantissa; lia).
    apply (scale_num_pos _ _ _ _ _ Hpos Hs).
  - exact Hd.
  - rewrite Hv, Z.opp_involutive, mult_IZR, pow2_add.
    pose proof F2R_100 as H100. unfold F2R in *.
    rewrite Rdiv_1_r.
    replace (IZR m1 * IZR hundred_mantissa * (powerRZ 2 e1 * powerRZ 2 (-46)))
      with (IZR hundred_mantissa * powerRZ 2 (-46) * (IZR m1 * powerRZ 2 e1))
      by ring.
    rewrite H100. reflexivity.
Qed.

Lemma mul_100_zero (e1 : Z) :
  F64.mul (Finite 0 e1) (of_int 100) = zero.
Proof.
  rewrite of_int_100. unfold F64.mul, scale. cbn [Z.mul].
  destruct (0 <=? - (e1 + -46))%Z; reflexivity.
Qed.

End Percentages.

Section PercentRounding.

Local Open Scope R_scope.

Lemma pow2_m20 : powerRZ 2 (-20) = / 1048576.
Proof. simpl. lra. Qed.

Lemma nearest_zero_of_small (c a : Z) :
  (0 < c)%Z -> (0 < a)%Z ->
  IZR c / IZR a < powerRZ 2 (-1022) ->
  nearest 0 (10000 * c) a.
Proof.
  intros Hc Ha Hsmall. unfold nearest.
  assert (HaR : 0 < IZR a) by (apply IZR_lt; exact Ha).
  assert (H20 : IZR c / IZR a < / 1048576).
  { apply Rlt_le_trans with (1 := Hsmall).
    rewrite <- pow2_m20. apply pow2_le. lia. }
  assert (Hlt : IZR (1048576 * c) < IZR a).
  { rewrite mult_IZR.
    apply Rmult_lt_reg_r with (/ IZR a);
      [apply Rinv_0_lt_compat; exact HaR |].
    rewrite Rinv_r by lra. unfold Rdiv in H20. lra. }
  apply lt_IZR in Hlt. lia.
Qed.

(** [round((b / a) * 100, 2)] below 2^37. *)
Lemma round2_percent (b a : Z) :
  (0 < b < 2 ^ 37)%Z -> (0 < a)%Z ->
  exists m1 e1, RN b a = Finite m1 e1 /\
  exists m e, F64.mul (Finite m1 e1) (of_int 100) = Finite m e /\
              nearest (hundredths m e) (10000 * b) a.
Proof.
  intros Hb Ha.
  destruct (quotient_bound b a 37 Hb ltac:(lia) Ha) as [Hr0 Hr37].
  assert (HbR : 0 < IZR b) by (apply IZR_lt; lia).
  assert (HaR : 0 < IZR a) by (apply IZR_lt; exact Ha).
  assert (HbT : IZR b < powerRZ 2 37).
  { rewrite <- IZR_pow2 by lia. apply IZR_lt. lia. }
  assert (HTE : 65536 * powerRZ 2 37 * powerRZ 2 (-53) = 1).
  { replace 65536 with (powerRZ 2 16) by (simpl; lra).
    rewrite <- !pow2_add. reflexivity. }
  assert (HE1 : powerRZ 2 (-53) <= / 1024).
  { replace (/ 1024) with (powerRZ 2 (-10)) by (simpl; lra).
    apply pow2_le. lia. }
  assert (HL : powerRZ 2 (-1021) = 2 * powerRZ 2 (-1022)).
  { change (-1021)%Z with (-1022 + 1)%Z. apply pow2_succ. }
  assert (HL20 : powerRZ 2 (-1022) <= / 1048576).
  { rewrite <- pow2_m20. apply pow2_le. lia. }
  assert (Hbig : 4096 <= powerRZ 2 (emax - 1)).
  { replace 4096 with (powerRZ 2 12) by (simpl; lra).
    apply pow2_le. unfold emax. lia. }
  assert (H37 : powerRZ 2 37 * 1024 <= powerRZ 2 (emax - 1)).
  { replace 1024 with (powerRZ 2 10) by (simpl; lra).
    rewrite <- pow2_add. apply pow2_le. unfold emax. lia. }
  pose proof (pow2_pos (-53)) as HE0.
  pose proof (pow2_pos (-1022)) as HL0.
  pose proof (pow2_pos 37) as HT0.
  set (r := IZR b / IZR a) in *.
  destruct (RN_finite b a ltac:(lia) Ha) as (m1 & e1 & HRN1).
  { fold r. hide_pow2. lra. }
  exists m1, e1. split; [exact HRN1 |].
  destruct (RN_step b a m1 e1 ltac:(lia) Ha HRN1) as [Hv1 Hcase1].
  fold r in Hcase1.
  pose proof (F2R_sign m1 e1 Hv1) as Hm1.
  destruct (Z.eq_dec m1 0) as [-> | Hm1nz].
  { (* the quotient rounded to zero *)
    rewrite mul_100_zero. exists 0%Z, 0%Z. split; [reflexivity |].
    change (hundredths 0 0) with 0%Z.
    destruct Hcase1 as [[Hn Herr] | [Hs _]].
    - exfalso. unfold F2R in Herr. rewrite Rmult_0_l in Herr.
      apply Rabs_le_between in Herr. hide_pow2. nra.
    - apply nearest_zero_of_small; [lia | exact Ha | exact Hs]. }
  destruct (mul_100 m1 e1 ltac:(lia)) as (n & d & Hn & Hd & Hnd & Hmul).
  set (v1 := F2R m1 e1) in *. set (y1 := IZR n / IZR d) in *.
  assert (Hy1 : y1 < powerRZ 2 (emax - 1)).
  { destruct Hcase1 as [[_ Herr] | [_ Hle]].
    - apply Rabs_le_between in Herr. rewrite Hnd. hide_pow2. nra.
    - rewrite Hnd. hide_pow2. nra. }
  destruct (RN_finite n d Hn Hd Hy1) as (m & e & HRN2).
  rewrite Hmul. exists m, e. split; [exact HRN2 |].
  destruct (RN_step n d m e Hn Hd HRN2) as [Hv Hcase2].
  fold y1 in Hcase2. set (v := F2R m e) in *.
  destruct Hcase1 as [[Hn1 Herr1] | [Hs1 Hle1]].
  - (* normal quotient *)
    apply Rabs_le_between in Herr1.
    destruct Hcase2 as [[_ Herr2] | [Hs2 _]].
    + apply Rabs_le_between in Herr2.
      apply nearest_of_close with (y := 100 * v);
        [exact Ha | apply hundredths_near |].
      rewrite mult_IZR.
      replace (10000 * IZR b / IZR a) with (10000 * r)
        by (unfold r; field; lra).
      replace (/ (2 * IZR a)) with (/ 2 * / IZR a) by (field; lra).
      assert (Hra : r = IZR b * / IZR a) by reflexivity.
      assert (Hia : 0 < / IZR a) by (apply Rinv_0_lt_compat; exact HaR).
      assert (HbE : 30000 * (IZR b * powerRZ 2 (-53)) < / 2)
        by (hide_pow2; nra).
      assert (HrE : 30000 * (r * powerRZ 2 (-53)) < / 2 * / IZR a).
      { rewrite Hra.
        replace (30000 * (IZR b * / IZR a * powerRZ 2 (-53)))
          with (30000 * (IZR b * powerRZ 2 (-53)) * / IZR a) by ring.
        apply Rmult_lt_compat_r; assumption. }
      assert (HA : 0 <= r * powerRZ 2 (-53)) by (hide_pow2; nra).
      assert (HAE : r * powerRZ 2 (-53) * powerRZ 2 (-53)
                    <= r * powerRZ 2 (-53)) by (hide_pow2; nra).
      assert (HB : y1 * powerRZ 2 (-53) <= 200 * (r * powerRZ 2 (-53))).
      { rewrite Hnd. hide_pow2. nra. }
      apply Rabs_def1; hide_pow2; lra.
    + exfalso. rewrite Hnd in Hs2. hide_pow2. nra.
  - (* tiny quotient *)
    assert (Hv512 : 0 <= v <= / 512).
    { split; [exact Hv |].
      destruct Hcase2 as [[_ Herr2] | [_ Hle2]].
      - apply Rabs_le_between in Herr2. rewrite Hnd in Herr2.
        hide_pow2. nra.
      - hide_pow2. lra. }
    rewrite (hundredths_of_small m e Hv512).
    apply nearest_zero_of_small; [lia | exact Ha | exact Hs1].
Qed.

End PercentRounding.

(** ** Insight rules *)

Section Comparison.

Local Open Scope R_scope.

Lemma ltb_finite_real (m1 e1 m2 e2 : Z) :
  F64.ltb (Finite m1 e1) (Finite m2 e2) = true <-> F2R m1 e1 < F2R m2 e2.
Proof.
  unfold F64.ltb, cmp_finite, F2R.
  set (e := Z.min e1 e2).
  assert (H1 : (0 <= e1 - e)%Z) by (subst e; lia).
  assert (H2 : (0 <= e2 - e)%Z) by (subst e; lia).
  assert (E1 : IZR m1 * powerRZ 2 e1
               = IZR (m1 * 2 ^ (e1 - e)) * powerRZ 2 e).
  { rewrite mult_IZR, IZR_pow2 by exact H1.
    rewrite Rmult_assoc, <- pow2_add. f_equal. f_equal. lia. }
  assert (E2 : IZR m2 * powerRZ 2 e2
               = IZR (m2 * 2 ^ (e2 - e)) * powerRZ 2 e).
  { rewrite mult_IZR, IZR_pow2 by exact H2.
    rewrite Rmult_assoc, <- pow2_add. f_equal. f_equal. lia. }
  rewrite E1, E2. pose proof (pow2_pos e) as He.
  destruct (Z.compare_spec (m1 * 2 ^ (e1 - e)) (m2 * 2 ^ (e2 - e)))
    as [Heq | Hlt | Hgt].
  - rewrite Heq. split; [discriminate | intros H; exfalso; lra].
  - apply IZR_lt in Hlt. split; [intros _; nra | reflexivity].
  - apply IZR_lt in Hgt. split; [discriminate | intros H; exfalso; nra].
Qed.

Lemma F2R_one_and_a_half :
  exists m e, one_and_a_half = Finite m e /\ F2R m e = 3 / 2.
Proof.
  exists 6755399441055744%Z, (-52)%Z.
  split; [vm_compute; reflexivity |]. unfold F2R. simpl. lra.
Qed.

Lemma pow2_m53_small : powerRZ 2 (-53) <= / 1048576.
Proof. rewrite <- pow2_m20. apply pow2_le. lia. Qed.

(** A two-digit decimal away from zero rounds to a float within a
    millionth of it. *)
Lemma of_hundredths_close (k m e : Z) :
  (100 <= k)%Z -> of_hundredths k = Finite m e ->
  Rabs (F2R m e - IZR k / 100) <= IZR k / 100 * / 1048576.
Proof.
  intros Hk H. unfold of_hundredths in H.
  destruct (RN_step k 100 m e ltac:(lia) ltac:(lia) H)
    as [_ [[_ Herr] | [Hsmall _]]].
  - apply Rle_trans with (1 := Herr).
    pose proof pow2_m53_small. apply IZR_le in Hk.
    assert (0 <= IZR k / 100) by lra. nra.
  - exfalso. apply IZR_le in Hk.
    assert (powerRZ 2 (-1022) <= 1).
    { change 1 with (powerRZ 2 0). apply pow2_le. lia. }
    lra.
Qed.

Lemma num_ltb_below (v : pynum) :
  num_ltb v (PFloat one_and_a_half) = true <-> below v (3 / 2).
Proof.
  unfold num_ltb, below. cbn [exact].
  destruct F2R_one_and_a_half as (m' & e' & -> & Hv).
  destruct (exact v) as [m e | neg |].
  - rewrite ltb_finite_real, Hv. reflexivity.
  - cbn. reflexivity.
  - cbn. split; [discriminate | intros []].
Qed.

Lemma num_gtb_above (v : pynum) :
  num_gtb v (PInt 20) = true <-> above v 20.
Proof.
  unfold num_gtb, num_ltb, above. cbn [exact].
  assert (Hv : F2R 20 0 = 20) by (unfold F2R; simpl; lra).
  destruct (exact v) as [m e | neg |].
  - rewrite ltb_finite_real, Hv. reflexivity.
  - cbn. destruct neg; split; intros H; try reflexivity; discriminate.
  - cbn. split; [discriminate | intros []].
Qed.

End Comparison.

(** C7.  The insights are the warnings whose conditions hold, each one
    there exactly when its own condition holds: sessions per user below
    1.5, percent unassigned above 20, a duplicate in the list, no purchase
    event; they come in the order of the four rules, and the page shows
    them all, or the one healthy message exactly when no condition
    holds.  The two thresholds are meant in the reals. *)
Theorem C7_insight_rules (sessions_per_user percent_unassigned : pynum)
    (duplicate_transaction_ids : list Duplicate) (funnel_data : FunnelData) :
  let found := insights sessions_per_user percent_unassigned
                        duplicate_transaction_ids funnel_data in
  exists low high dup nop : bool,
    (low = true <-> below sessions_per_user (3 / 2)) /\
    (high = true <-> above percent_unassigned 20) /\
    (dup = true <-> duplicate_transaction_ids <> []) /\
    (nop = true <-> purchase funnel_data = 0) /\
    found = (if low then [low_sessions_warning] else [])
              ++ (if high then [high_unassigned_warning] else [])
              ++ (if dup then [duplicate_warning] else [])
              ++ (if nop then [no_purchase_warning] else []) /\
    (In low_sessions_warning found <-> below sessions_per_user (3 / 2)) /\
    (In high_unassigned_warning found <-> above percent_unassigned 20) /\
    (In duplicate_warning found <-> duplicate_transaction_ids <> []) /\
    (In no_purchase_warning found <-> purchase funnel_data = 0) /\
    show_insights found =
      (if low || high || dup || nop
       then map (fun insight => Write [Lit insight]) found
       else [Success healthy_message],
       inr tt) /\
    (In (Success healthy_message) (fst (show_insights found))
     <-> ~ below sessions_per_user (3 / 2) /\
         ~ above percent_unassigned 20 /\
         duplicate_transaction_ids = [] /\ purchase funnel_data <> 0).
Proof.
  intros found.
  set (low := num_ltb sessions_per_user (PFloat one_and_a_half)).
  set (high := num_gtb percent_unassigned (PInt 20)).
  set (dup := match duplicate_transaction_ids with
              | [] => false
              | _ => true
              end).
  set (nop := purchase funnel_data =? 0).
  exists low, high, dup, nop.
  assert (Hlow : low = true <-> below sessions_per_user (3 / 2))
    by apply num_ltb_below.
  assert (Hhigh : high = true <-> above percent_unassigned 20)
    by apply num_gtb_above.
  assert (Hdup : dup = true <-> duplicate_transaction_ids <> []).
  { subst dup. destruct duplicate_transaction_ids;
      split; intros H; try reflexivity; try discriminate; congruence. }
  assert (Hnop : nop = true <-> purchase funnel_data = 0)
    by apply Z.eqb_eq.
  assert (Hfound : found = (if low then [low_sessions_warning] else [])
            ++ (if high then [high_unassigned_warning] else [])
            ++ (if dup then [duplicate_warning] else [])
            ++ (if nop then [no_purchase_warning] else [])).
  { subst found. unfold insights. fold low high nop.
    replace (0 <? Z.of_nat (List.length duplicate_transaction_ids)) with dup
      by (subst dup; destruct duplicate_transaction_ids; reflexivity).
    destruct low, high, dup, nop; reflexivity. }
  split; [exact Hlow |]. split; [exact Hhigh |].
  split; [exact Hdup |]. split; [exact Hnop |].
  split; [exact Hfound |].
  assert (Hd0 : duplicate_transaction_ids = [] <-> dup = false).
  { subst dup. destruct duplicate_transaction_ids;
      split; intros H; try reflexivity; try discriminate. }
  rewrite <- Hlow, <- Hhigh, <- Hdup, <- Hnop, Hd0, Hfound.
  clear Hfound found Hlow Hhigh Hdup Hnop Hd0.
  clearbody low high dup nop.
  destruct low, high, dup, nop; cbn;
    repeat split; intros;
    repeat match goal with
           | H : _ \/ _ |- _ => destruct H
           | H : False |- _ => destruct H
           | H : _ /\ _ |- _ => destruct H
           end;
    try reflexivity; try discriminate; try congruence; auto.
Qed.


(** ** Sessions per user: the claim *)

Lemma int_true_div_pos (a b : Z) :
  0 < b -> int_true_div a b =
           match RN a b with Infinity _ => inl OverflowError | x => inr x end.
Proof.
  intros Hb. unfold int_true_div.
  replace (b =? 0) with false by (symmetry; apply Z.eqb_neq; lia).
  replace (b <? 0) with false by (symmetry; apply Z.ltb_ge; lia).
  rewrite Z.abs_eq by lia. reflexivity.
Qed.

Lemma nearest_zero (a : Z) : 0 <= a -> nearest 0 0 a.
Proof. unfold nearest. lia. Qed.

(** C2, within 2^45.  For sessions below 2^45 the ratio is 0 when there is no
    user, and otherwise the float nearest to a two-digit decimal that is
    nearest to sessions / users; 1000 sessions of 500 users give 2.0. *)
Theorem C2_sessions_per_user (total_sessions total_users : Z) :
  0 <= total_sessions < 2 ^ 45 -> 0 <= total_users ->
  (total_users = 0 ->
   sessions_per_user total_sessions total_users = inr (PInt 0)) /\
  (0 < total_users ->
   exists k,
     sessions_per_user total_sessions total_users
       = inr (PFloat (of_hundredths k)) /\
     nearest k (100 * total_sessions) total_users) /\
  sessions_per_user 1000 500 = inr (PFloat (of_int 2)).
Proof.
  intros Hs Hu. split; [| split].
  - intros ->. reflexivity.
  - intros Hpos. unfold sessions_per_user.
    replace (0 <? total_users) with true by (symmetry; apply Z.ltb_lt; lia).
    rewrite int_true_div_pos by exact Hpos.
    destruct (Z.eq_dec total_sessions 0) as [-> | Hnz].
    + exists 0. split; [reflexivity | apply nearest_zero; lia].
    + destruct (round2_quotient total_sessions total_users ltac:(lia) Hpos)
        as (m & e & HRN & Hnear).
      rewrite HRN. exists (hundredths m e). split; [reflexivity | exact Hnear].
  - vm_compute. reflexivity.
Qed.

Lemma C2_sessions_per_user_witness :
  exists k, sessions_per_user 7 3 = inr (PFloat (of_hundredths k)) /\
            nearest k (100 * 7) 3.
Proof.
  apply (C2_sessions_per_user 7 3); lia.
Defined.

(** C2 does not hold for all integers: for 13510798882111488 sessions of
    36028797018963969 users the quotient is just below 0.375, its float is
    0.375 and the code returns 0.38, while the nearest two-digit decimal of
    the quotient is 0.37. *)
Lemma C2_counterexample :
  ~ (forall total_sessions total_users : Z,
       0 <= total_sessions -> 0 < total_users ->
       exists k,
         sessions_per_user total_sessions total_users
           = inr (PFloat (of_hundredths k)) /\
         nearest k (100 * total_sessions) total_users).
Proof.
  intros H.
  destruct (H 13510798882111488 36028797018963969 ltac:(lia) ltac:(lia))
    as (k & Hk & Hnear).
  assert (Hcode : sessions_per_user 13510798882111488 36028797018963969
                  = inr (PFloat (of_hundredths 38)))
    by (vm_compute; reflexivity).
  rewrite Hcode in Hk.
  assert (k = 37) by (unfold nearest in Hnear; lia).
  subst k. vm_compute in Hk. injection Hk; intros; lia.
Qed.

(** ** Percent unassigned: the claim *)

Lemma percent_spec (b a : Z) :
  0 <= b < 2 ^ 37 -> 0 < a ->
  exists k, percent b a = inr (PFloat (of_hundredths k)) /\
            nearest k (10000 * b) a.
Proof.
  intros Hb Ha. unfold percent. rewrite int_true_div_pos by exact Ha.
  destruct (Z.eq_dec b 0) as [-> | Hnz].
  - exists 0. split; [reflexivity | apply nearest_zero; lia].
  - destruct (round2_percent b a ltac:(lia) Ha)
      as (m1 & e1 & HRN & m & e & Hmul & Hnear).
    rewrite HRN, Hmul. exists (hundredths m e).
    split; [reflexivity | exact Hnear].
Qed.

(** C3, within 2^37.  For unassigned sessions below 2^37 the percentage is 0
    when the baseline has no session, and otherwise the float nearest to a
    two-digit decimal that is nearest to 100 * unassigned / total; the
    total is the baseline of the first query, whatever the channel rows sum
    to; the rows Unassigned 300 and Organic 700 under a baseline of 1000
    give 300 unassigned sessions and 30.0 percent. *)
Theorem C3_percent_unassigned (py_int : string -> option Z)
    (post : Body -> option Payload)
    (channel_data medium_data : Report)
    (channels mediums : list (string * Z))
    (unassigned_sessions total_sessions : Z) :
  0 <= unassigned_sessions < 2 ^ 37 -> 0 <= total_sessions ->
  post channel_request = Some (Object channel_data) ->
  error channel_data = None ->
  post medium_request = Some (Object medium_data) ->
  error medium_data = None ->
  Forall2 (fun row cn => reads py_int row (fst cn) (snd cn))
          (get_rows channel_data) channels ->
  Forall2 (fun row mn => reads py_int row (fst mn) (snd mn))
          (get_rows medium_data) mediums ->
  unassigned_sessions = last (map snd (List.filter is_unassigned channels)) 0 ->
  (total_sessions = 0 ->
   percent_unassigned unassigned_sessions total_sessions = inr (PInt 0)) /\
  (0 < total_sessions ->
   exists k,
     percent_unassigned unassigned_sessions total_sessions
       = inr (PFloat (of_hundredths k)) /\
     nearest k (10000 * unassigned_sessions) total_sessions) /\
  (exists p,
     percent_unassigned unassigned_sessions total_sessions = inr p /\
     snd (unassigned_traffic py_int post total_sessions)
       = inr (unassigned_sessions, p,
              map (fun mn => mkMedium (fst mn) (snd mn)) mediums)) /\
  snd (unassigned_traffic Sample.dec_int Sample.shop 1000)
    = inr (300, PFloat (of_int 30), [mkMedium "(not set)" 300]).
Proof.
  intros Hun Htot Hc Hce Hm Hme Hchannels Hmediums Hlast.
  assert (H0 : total_sessions = 0 ->
               percent_unassigned unassigned_sessions total_sessions
               = inr (PInt 0)).
  { intros ->. reflexivity. }
  assert (H1 : 0 < total_sessions ->
               exists k,
                 percent_unassigned unassigned_sessions total_sessions
                   = inr (PFloat (of_hundredths k)) /\
                 nearest k (10000 * unassigned_sessions) total_sessions).
  { intros Hpos. unfold percent_unassigned.
    replace (0 <? total_sessions) with true by (symmetry; apply Z.ltb_lt; lia).
    apply percent_spec; assumption. }
  split; [exact H0 |]. split; [exact H1 |]. split.
  - assert (Hp : exists p,
               percent_unassigned unassigned_sessions total_sessions = inr p).
    { destruct (Z.eq_dec total_sessions 0) as [Hz | Hnz].
      - eexists. apply H0. exact Hz.
      - destruct (H1 ltac:(lia)) as (k & Hk & _). eexists. exact Hk. }
    destruct Hp as [p Hp]. exists p. split; [exact Hp |].
    rewrite (unassigned_traffic_reads py_int post total_sessions
               channel_data medium_data channels mediums
               Hc Hce Hm Hme Hchannels Hmediums).
    rewrite <- Hlast, Hp. reflexivity.
  - vm_compute. reflexivity.
Qed.

Lemma C3_percent_unassigned_witness :
  exists k,
    percent_unassigned 300 2000 = inr (PFloat (of_hundredths k)) /\
    nearest k (10000 * 300) 2000.
Proof.
  assert (Hread : forall d s n, Sample.dec_int s = Some n ->
                    reads Sample.dec_int (mkRow [d] [s]) d n).
  { intros d s n Hs. split; [reflexivity |].
    exists s. split; [reflexivity | exact Hs]. }
  apply (C3_percent_unassigned Sample.dec_int Sample.shop
           (mkReport None
              (Some [mkRow ["Unassigned"] ["300"]; mkRow ["Organic"] ["700"]]))
           (mkReport None (Some [mkRow ["(not set)"] ["300"]]))
           [("Unassigned", 300); ("Organic", 700)] [("(not set)", 300)]
           300 2000).
  - lia.
  - lia.
  - reflexivity.
  - reflexivity.
  - reflexivity.
  - reflexivity.
  - repeat constructor; apply Hread; reflexivity.
  - repeat constructor; apply Hread; reflexivity.
  - reflexivity.
  - lia.
Defined.

(** C3 does not hold for all integers: for 537357177058 unassigned sessions of
    799579163839 the code returns 67.2, while the nearest two-digit decimal
    of the exact percentage is 67.21. *)
Lemma C3_counterexample :
  ~ (forall unassigned_sessions total_sessions : Z,
       0 <= unassigned_sessions -> 0 < total_sessions ->
       exists k,
         percent_unassigned unassigned_sessions total_sessions
           = inr (PFloat (of_hundredths k)) /\
         nearest k (10000 * unassigned_sessions) total_sessions).
Proof.
  intros H.
  destruct (H 537357177058 799579163839 ltac:(lia) ltac:(lia))
    as (k & Hk & Hnear).
  assert (Hcode : percent_unassigned 537357177058 799579163839
                  = inr (PFloat (of_hundredths 6720)))
    by (vm_compute; reflexivity).
  rewrite Hcode in Hk.
  assert (k = 6721) by (unfold nearest in Hnear; lia).
  subst k. vm_compute in Hk. injection Hk; intros; lia.
Qed.

(** ** Funnel rates: the claims *)

Lemma percent_is_rate (b a : Z) :
  0 <= b < 2 ^ 37 -> 0 < a ->
  exists v, percent b a = inr v /\ is_rate v b a.
Proof.
  intros Hb Ha. destruct (percent_spec b a Hb Ha) as (k & Hk & Hnear).
  eexists. split; [exact Hk |]. left. split; [exact Ha |].
  exists k. split; [reflexivity | exact Hnear].
Qed.

Lemma guarded_percent_is_rate (b a : Z) :
  0 <= b < 2 ^ 37 -> 0 <= a ->
  exists v, (if 0 <? a then percent b a else inr (PInt 0)) = inr v /\
            is_rate v b a.
Proof.
  intros Hb Ha. destruct (0 <? a) eqn:Hpos.
  - apply Z.ltb_lt in Hpos. apply percent_is_rate; assumption.
  - apply Z.ltb_ge in Hpos. eexists. split; [reflexivity |].
    right. split; [lia | reflexivity].
Qed.

(** C1, under the guard.  For counts that are not negative, with the carts,
    checkouts and purchases below 2^37 and any number of viewed items:
    without a viewed item no rate is computed at all; with one, each
    stage-to-stage rate is the float nearest to a two-digit decimal nearest
    to 100 * count(B) / count(A), or 0 when the preceding count(A) is 0,
    and the overall rate divides the purchases by the viewed items; the
    counts 1000, 400, 100, 20 give the rates 40.0, 25.0, 20.0 and 2.0. *)
Theorem C1_funnel_rates (f : FunnelData) :
  0 <= view_item f -> 0 <= add_to_cart f < 2 ^ 37 ->
  0 <= begin_checkout f < 2 ^ 37 -> 0 <= purchase f < 2 ^ 37 ->
  (view_item f = 0 -> funnel_rates f = inr None) /\
  (0 < view_item f ->
   exists r,
     funnel_rates f = inr (Some r) /\
     is_rate (view_to_cart r) (add_to_cart f) (view_item f) /\
     is_rate (cart_to_checkout r) (begin_checkout f) (add_to_cart f) /\
     is_rate (checkout_to_purchase r) (purchase f) (begin_checkout f) /\
     is_rate (view_to_purchase r) (purchase f) (view_item f)) /\
  funnel_rates (mkFunnel 1000 400 100 20)
    = inr (Some (mkRates (PFloat (of_int 40)) (PFloat (of_int 25))
                         (PFloat (of_int 20)) (PFloat (of_int 2)))).
Proof.
  intros Hv Hc Hb Hp. split; [| split].
  - intros H0. unfold funnel_rates. rewrite H0. reflexivity.
  - intros Hpos. unfold funnel_rates.
    replace (0 <? view_item f) with true by (symmetry; apply Z.ltb_lt; lia).
    destruct (percent_is_rate (add_to_cart f) (view_item f) Hc Hpos)
      as (v2c & E1 & R1).
    destruct (guarded_percent_is_rate (begin_checkout f) (add_to_cart f)
                Hb ltac:(lia)) as (c2c & E2 & R2).
    destruct (guarded_percent_is_rate (purchase f) (begin_checkout f)
                Hp ltac:(lia)) as (c2p & E3 & R3).
    destruct (percent_is_rate (purchase f) (view_item f) Hp Hpos)
      as (v2p & E4 & R4).
    rewrite E1, E2, E3, E4.
    exists (mkRates v2c c2c c2p v2p). cbn [view_to_cart cart_to_checkout
      checkout_to_purchase view_to_purchase].
    repeat split; assumption.
  - vm_compute. reflexivity.
Qed.

Lemma C1_funnel_rates_witness :
  exists r,
    funnel_rates (mkFunnel (2 ^ 60) 0 7 2) = inr (Some r) /\
    is_rate (view_to_cart r) 0 (2 ^ 60) /\
    is_rate (cart_to_checkout r) 7 0 /\
    is_rate (checkout_to_purchase r) 2 7 /\
    is_rate (view_to_purchase r) 2 (2 ^ 60).
Proof.
  apply (C1_funnel_rates (mkFunnel (2 ^ 60) 0 7 2)); cbn; lia.
Defined.

(** C1 does not hold as it is written, for two reasons.  Without a viewed
    item the guard of line 591 skips every rate, also the cart-to-checkout
    rate of 100 checkouts over 400 carts.  And with the guard passed, the
    rates are binary64 computations: for 537357177058 carts of 799579163839
    viewed items the code gives 67.2, while 100 * count(B) / count(A) is
    67.20500000000000625... and rounds to 67.21. *)
Lemma C1_counterexample :
  ~ (forall f : FunnelData,
       0 <= view_item f -> 0 <= add_to_cart f ->
       0 <= begin_checkout f -> 0 <= purchase f ->
       exists r,
         funnel_rates f = inr (Some r) /\
         is_rate (cart_to_checkout r) (begin_checkout f) (add_to_cart f) /\
         is_rate (checkout_to_purchase r) (purchase f) (begin_checkout f)) /\
  ~ (forall f : FunnelData,
       0 < view_item f -> 0 <= add_to_cart f ->
       0 <= begin_checkout f -> 0 <= purchase f ->
       exists r,
         funnel_rates f = inr (Some r) /\
         is_rate (view_to_cart r) (add_to_cart f) (view_item f)).
Proof.
  split; intros H.
  - destruct (H (mkFunnel 0 400 100 20)) as (r & Hr & _); cbn; try lia.
    discriminate Hr.
  - destruct (H (mkFunnel 799579163839 537357177058 0 0))
      as (r & Hr & Hrate); cbn [view_item add_to_cart begin_checkout purchase];
      try lia.
    assert (Hcode : funnel_rates (mkFunnel 799579163839 537357177058 0 0)
                    = inr (Some (mkRates (PFloat (of_hundredths 6720))
                                         (PFloat zero) (PInt 0)
                                         (PFloat zero))))
      by (vm_compute; reflexivity).
    rewrite Hcode in Hr. injection Hr as <-.
    cbn [view_to_cart view_item add_to_cart] in Hrate.
    destruct Hrate as [(_ & k & Hk & Hnear) | (H0 & _)]; [| lia].
    assert (k = 6721) by (unfold nearest in Hnear; lia).
    subst k. vm_compute in Hk. injection Hk; intros; lia.
Qed.

(** ** Rates are not negative *)

Lemma rne_nonneg (p q : Z) : 0 <= p -> 0 < q -> 0 <= rne p q.
Proof.
  intros Hp Hq. unfold rne.
  pose proof (Z.div_pos p q Hp Hq) as Hdiv.
  destruct (2 * (p mod q) <? q); [exact Hdiv |].
  destruct (q <? 2 * (p mod q)); [lia |].
  destruct (Z.even (p / q)); lia.
Qed.

Lemma scale_nonneg (p q e a b : Z) :
  0 <= p -> 0 < q -> scale p q e = (a, b) -> 0 <= a /\ 0 < b.
Proof.
  intros Hp Hq. unfold scale.
  destruct (0 <=? e) eqn:He; intros H; injection H as <- <-.
  - apply Z.leb_le in He.
    pose proof (Z.pow_pos_nonneg 2 e ltac:(lia) He). split; nia.
  - apply Z.leb_gt in He.
    pose proof (Z.pow_pos_nonneg 2 (- e) ltac:(lia) ltac:(lia)). split; nia.
Qed.

Lemma normalize_nonneg (m e : Z) :
  0 <= m -> nonneg_float (normalize false m e).
Proof.
  intros Hm. unfold normalize.
  destruct (m =? 0); [cbn; lia |].
  destruct (m =? 2 ^ prec).
  - destruct (emax - prec <? e + 1); cbn [nonneg_float]; [reflexivity |].
    apply Z.pow_nonneg. lia.
  - destruct (emax - prec <? e); cbn [nonneg_float]; [reflexivity | exact Hm].
Qed.

Lemma RN_nonneg (p q : Z) : 0 <= p -> 0 < q -> nonneg_float (RN p q).
Proof.
  intros Hp Hq. unfold RN.
  destruct (p =? 0); [simpl; lia |].
  replace (p <? 0) with false by (symmetry; apply Z.ltb_ge; lia).
  rewrite Z.abs_eq by exact Hp.
  destruct (scale p q _) as [n d] eqn:Hs.
  destruct (scale_nonneg _ _ _ _ _ Hp Hq Hs) as [Hn Hd].
  apply normalize_nonneg. apply rne_nonneg; assumption.
Qed.

Lemma round2_nonneg (x : float) : nonneg_float x -> nonneg_float (round2 x).
Proof.
  destruct x as [m e | neg |]; simpl; intros H; try exact H.
  unfold of_hundredths, hundredths.
  destruct (scale (100 * m) 1 (- e)) as [n d] eqn:Hs.
  assert (Hpos : 0 <= 100 * m) by lia.
  destruct (scale_nonneg _ _ _ _ _ Hpos Z.lt_0_1 Hs) as [Hn Hd].
  apply RN_nonneg; [apply rne_nonneg; assumption | lia].
Qed.

Lemma mul_100_nonneg (m e : Z) :
  0 <= m -> nonneg_float (F64.mul (Finite m e) (of_int 100)).
Proof.
  intros Hm. rewrite of_int_100. unfold F64.mul.
  destruct (scale (m * hundred_mantissa) 1 (- (e + -46))) as [n d] eqn:Hs.
  assert (Hpos : 0 <= m * hundred_mantissa) by (unfold hundred_mantissa; lia).
  destruct (scale_nonneg _ _ _ _ _ Hpos Z.lt_0_1 Hs) as [Hn Hd].
  apply RN_nonneg; assumption.
Qed.

Lemma percent_nonneg (b a : Z) (v : pynum) :
  0 <= b -> 0 < a -> percent b a = inr v -> nonneg v.
Proof.
  intros Hb Ha. unfold percent. rewrite int_true_div_pos by exact Ha.
  pose proof (RN_nonneg b a Hb ltac:(lia)) as Hq.
  destruct (RN b a) as [m e | neg |]; simpl in Hq;
    [| discriminate | destruct Hq].
  intros H. injection H as <-. cbn [nonneg].
  apply round2_nonneg, mul_100_nonneg. exact Hq.
Qed.

Lemma guarded_percent_nonneg (b a : Z) (v : pynum) :
  0 <= b -> 0 <= a ->
  (if 0 <? a then percent b a else inr (PInt 0)) = inr v -> nonneg v.
Proof.
  intros Hb Ha. destruct (0 <? a) eqn:Hpos.
  - apply Z.ltb_lt in Hpos. apply percent_nonneg; assumption.
  - intros H. injection H as <-. simpl. lia.
Qed.

Lemma nonneg_not_below_zero (v : pynum) :
  nonneg v -> num_ltb v (PInt 0) = false.
Proof.
  destruct v as [n | [m e | neg |]]; cbn; intros H.
  - unfold cmp_finite. rewrite Z.min_id, Z.sub_diag. cbn.
    destruct (Z.compare_spec (n * 1) 0); try reflexivity.
    exfalso. lia.
  - unfold cmp_finite.
    assert (Hpow : 0 < 2 ^ (e - Z.min e 0))
      by (apply Z.pow_pos_nonneg; lia).
    destruct (Z.compare_spec (m * 2 ^ (e - Z.min e 0))
                             (0 * 2 ^ (0 - Z.min e 0)));
      try reflexivity.
    exfalso. nia.
  - exact H.
  - destruct H.
Qed.

Lemma funnel_rates_computed (g : FunnelData) :
  0 < view_item g < 2 ^ 37 -> 0 <= add_to_cart g < 2 ^ 37 ->
  0 <= begin_checkout g < 2 ^ 37 -> 0 <= purchase g < 2 ^ 37 ->
  exists r, funnel_rates g = inr (Some r).
Proof.
  intros Hv Hc Hb Hp. unfold funnel_rates.
  replace (0 <? view_item g) with true by (symmetry; apply Z.ltb_lt; lia).
  destruct (percent_is_rate (add_to_cart g) (view_item g) Hc ltac:(lia))
    as (v2c & E1 & _).
  destruct (guarded_percent_is_rate (begin_checkout g) (add_to_cart g)
              Hb ltac:(lia)) as (c2c & E2 & _).
  destruct (guarded_percent_is_rate (purchase g) (begin_checkout g)
              Hp ltac:(lia)) as (c2p & E3 & _).
  destruct (percent_is_rate (purchase g) (view_item g) Hp ltac:(lia))
    as (v2p & E4 & _).
  rewrite E1, E2, E3, E4. eexists. reflexivity.
Qed.

(** C9.  With stage counts that are not negative, in any order, every
    rate that is computed is not negative: the test [rate < 0] is false
    for it, and below 2^37 the rates of a funnel with a viewed item are
    computed, whatever the order of the counts.  No rate is capped: 250
    carts over 100 viewed items give the rate 250.0, above 100. *)
Theorem C9_rates_nonnegative (f : FunnelData) (r : Rates) :
  0 <= view_item f -> 0 <= add_to_cart f ->
  0 <= begin_checkout f -> 0 <= purchase f ->
  funnel_rates f = inr (Some r) ->
  (nonneg (view_to_cart r) /\ num_ltb (view_to_cart r) (PInt 0) = false) /\
  (nonneg (cart_to_checkout r) /\
   num_ltb (cart_to_checkout r) (PInt 0) = false) /\
  (nonneg (checkout_to_purchase r) /\
   num_ltb (checkout_to_purchase r) (PInt 0) = false) /\
  (nonneg (view_to_purchase r) /\
   num_ltb (view_to_purchase r) (PInt 0) = false) /\
  (forall g : FunnelData,
     0 < view_item g < 2 ^ 37 -> 0 <= add_to_cart g < 2 ^ 37 ->
     0 <= begin_checkout g < 2 ^ 37 -> 0 <= purchase g < 2 ^ 37 ->
     exists r', funnel_rates g = inr (Some r')) /\
  (exists r',
     funnel_rates (mkFunnel 100 250 100 20) = inr (Some r') /\
     view_to_cart r' = PFloat (of_int 250) /\
     num_gtb (view_to_cart r') (PInt 100) = true).
Proof.
  intros Hv Hc Hb Hp. unfold funnel_rates.
  destruct (0 <? view_item f) eqn:Hpos; [| discriminate].
  apply Z.ltb_lt in Hpos.
  destruct (percent (add_to_cart f) (view_item f)) as [? | v2c] eqn:E1;
    [discriminate |].
  destruct (if 0 <? add_to_cart f
            then percent (begin_checkout f) (add_to_cart f)
            else inr (PInt 0)) as [? | c2c] eqn:E2; [discriminate |].
  destruct (if 0 <? begin_checkout f
            then percent (purchase f) (begin_checkout f)
            else inr (PInt 0)) as [? | c2p] eqn:E3; [discriminate |].
  destruct (percent (purchase f) (view_item f)) as [? | v2p] eqn:E4;
    [discriminate |].
  intros H. injection H as <-.
  cbn [view_to_cart cart_to_checkout checkout_to_purchase view_to_purchase].
  pose proof (percent_nonneg _ _ _ Hc Hpos E1) as N1.
  pose proof (guarded_percent_nonneg _ _ _ Hb Hc E2) as N2.
  pose proof (guarded_percent_nonneg _ _ _ Hp Hb E3) as N3.
  pose proof (percent_nonneg _ _ _ Hp Hpos E4) as N4.
  repeat split; try assumption; try (apply nonneg_not_below_zero; assumption).
  { apply funnel_rates_computed. }
  eexists. split; [vm_compute; reflexivity |].
  split; vm_compute; reflexivity.
Qed.

Lemma C9_rates_nonnegative_witness :
  nonneg (PFloat (of_int 250)) /\
  num_ltb (PFloat (of_int 250)) (PInt 0) = false.
Proof.
  apply (C9_rates_nonnegative (mkFunnel 100 250 100 20)
           (mkRates (PFloat (of_int 250)) (PFloat (of_int 40))
                    (PFloat (of_int 20)) (PFloat (of_int 20)))).
  - cbn; lia.
  - cbn; lia.
  - cbn; lia.
  - cbn; lia.
  - vm_compute. reflexivity.
Defined.

(** ** The rules and the sections on the samples *)

Example low_sessions_threshold :
  num_ltb (PFloat (of_hundredths 149)) (PFloat one_and_a_half) = true /\
  num_ltb (PFloat (of_hundredths 150)) (PFloat one_and_a_half) = false /\
  num_ltb (PInt 0) (PFloat one_and_a_half) = true.
Proof. vm_compute. repeat split. Qed.

Example high_unassigned_threshold :
  num_gtb (PFloat (of_hundredths 2001)) (PInt 20) = true /\
  num_gtb (PFloat (of_hundredths 2000)) (PInt 20) = false /\
  num_gtb (PInt 0) (PInt 20) = false.
Proof. vm_compute. repeat split. Qed.

Example shop_insights :
  insights (PFloat (of_int 2)) (PFloat (of_int 30))
           [mkDuplicate "TXN1" 3; mkDuplicate "TXN2" 2]
           (mkFunnel 1000 400 100 20)
  = [high_unassigned_warning; duplicate_warning].
Proof. vm_compute. reflexivity. Qed.

Example no_channel_rows :
  unassigned_traffic Sample.dec_int (Sample.without ["sessions"] Sample.shop)
                     1000
  = ([StatusText "🔍 Analyzing Unassigned Traffic..."; Progress 40;
      Post channel_request; Post medium_request],
     inr (0, PFloat zero, [])).
Proof. vm_compute. reflexivity. Qed.

Example no_view_item_no_rates :
  funnel_rates (mkFunnel 0 400 100 20) = inr None.
Proof. reflexivity. Qed.

(** * Further properties *)

(** ** The spreadsheet locator *)

Lemma take_id_spec (s a b : string) :
  take_id s = (a, b) ->
  s = (a ++ b)%string /\ all_id_chars a = true /\ ends_id b = true.
Proof.
  revert a b. induction s as [| c s IH]; intros a b; cbn [take_id].
  - intros H. injection H as <- <-. repeat split.
  - destruct (id_char c) eqn:Hc.
    + destruct (take_id s) as [a' b'] eqn:Ht.
      intros H. injection H as <- <-.
      destruct (IH a' b' eq_refl) as (Hs & Ha & Hb).
      repeat split.
      * cbn. rewrite <- Hs. reflexivity.
      * cbn. rewrite Hc, Ha. reflexivity.
      * exact Hb.
    + intros H. injection H as <- <-. repeat split.
      cbn. rewrite Hc. reflexivity.
Qed.

Lemma take_id_run (id rest : string) :
  all_id_chars id = true -> ends_id rest = true ->
  take_id (id ++ rest) = (id, rest).
Proof.
  intros Hid Hrest. induction id as [| c id IH]; cbn [append].
  - destruct rest as [| c rest]; [reflexivity |].
    cbn in *. destruct (id_char c); [discriminate | reflexivity].
  - cbn in Hid. apply andb_true_iff in Hid. destruct Hid as [Hc Hid].
    cbn [take_id]. rewrite Hc, (IH Hid). reflexivity.
Qed.

Lemma strip_prefix_spec (p s r : string) :
  strip_prefix p s = Some r <-> s = (p ++ r)%string.
Proof.
  revert s. induction p as [| a p IH]; intros s; cbn.
  - split; [intros H; injection H as ->; reflexivity | intros ->; reflexivity].
  - destruct s as [| b s].
    + split; discriminate.
    + destruct (Ascii.eqb a b) eqn:Hab.
      * apply Ascii.eqb_eq in Hab. subst b. rewrite IH.
        split; [intros ->; reflexivity | intros H; injection H as ->; reflexivity].
      * apply Ascii.eqb_neq in Hab.
        split; [discriminate | intros H; injection H as -> _; congruence].
Qed.

Lemma match_here_spec (s id : string) :
  match_here s = Some id ->
  exists rest,
    s = (sheet_marker ++ id ++ rest)%string /\
    id <> EmptyString /\ all_id_chars id = true /\ ends_id rest = true.
Proof.
  unfold match_here.
  destruct (strip_prefix sheet_marker s) as [r |] eqn:Hp; [| discriminate].
  apply strip_prefix_spec in Hp.
  destruct (take_id r) as [a b] eqn:Ht.
  destruct (take_id_spec _ _ _ Ht) as (Hr & Ha & Hb).
  destruct a as [| c a]; [discriminate |].
  intros H. injection H as <-.
  exists b. rewrite <- Hr. repeat split; try assumption. discriminate.
Qed.

Lemma search_unfold (s : string) :
  search s = match match_here s with
             | Some id => Some id
             | None => match s with
                       | EmptyString => None
                       | String _ s' => search s'
                       end
             end.
Proof. destruct s; reflexivity. Qed.

Lemma search_sound (url id : string) :
  search url = Some id ->
  exists before rest,
    url = (before ++ sheet_marker ++ id ++ rest)%string /\
    id <> EmptyString /\ all_id_chars id = true /\ ends_id rest = true.
Proof.
  induction url as [| c url IH]; rewrite search_unfold.
  - destruct (match_here EmptyString) eqn:Hm; [| discriminate].
    intros H. injection H as ->.
    destruct (match_here_spec _ _ Hm) as (rest & Hs & Hrest).
    exists EmptyString, rest. split; [exact Hs | exact Hrest].
  - destruct (match_here (String c url)) eqn:Hm.
    + intros H. injection H as ->.
      destruct (match_here_spec _ _ Hm) as (rest & Hs & Hrest).
      exists EmptyString, rest. split; [exact Hs | exact Hrest].
    + intros H. destruct (IH H) as (before & rest & Hs & Hrest).
      exists (String c before), rest. split; [| exact Hrest].
      cbn. rewrite Hs. reflexivity.
Qed.

(** X1.  An id that the extraction returns stands in the URL right after
    /spreadsheets/d/, is not empty, has only letters, digits, hyphens and
    underscores, and is the whole run of them: what follows it is the end
    of the URL or another character. *)
Theorem X1_extracted_id_is_in_url (url id : string) :
  extract_sheet_id_from_url url = Some id ->
  exists before rest,
    url = (before ++ sheet_marker ++ id ++ rest)%string /\
    id <> EmptyString /\ all_id_chars id = true /\ ends_id rest = true.
Proof. apply search_sound. Qed.

Lemma X1_extracted_id_is_in_url_witness :
  exists before rest,
    "https://docs.google.com/spreadsheets/d/1AbC-_x9/edit#gid=0"
    = (before ++ sheet_marker ++ "1AbC-_x9" ++ rest)%string /\
    "1AbC-_x9" <> EmptyString /\ all_id_chars "1AbC-_x9" = true /\
    ends_id rest = true.
Proof.
  apply (X1_extracted_id_is_in_url
           "https://docs.google.com/spreadsheets/d/1AbC-_x9/edit#gid=0"
           "1AbC-_x9").
  reflexivity.
Defined.

Lemma match_here_marker (c : ascii) (rest : string) :
  id_char c = true ->
  exists id, match_here (sheet_marker ++ String c rest) = Some id.
Proof.
  intros Hc. unfold match_here.
  assert (Hp : strip_prefix sheet_marker (sheet_marker ++ String c rest)
               = Some (String c rest)) by (apply strip_prefix_spec; reflexivity).
  rewrite Hp. cbn [take_id]. rewrite Hc.
  destruct (take_id rest) as [a b]. eexists. reflexivity.
Qed.

(** X2.  The extraction finds no id exactly when the URL has no
    /spreadsheets/d/ that a letter, digit, hyphen or underscore follows;
    so a URL that ends in /spreadsheets/d/ or goes on with another
    character there has no id. *)
Theorem X2_no_id_without_marker (url : string) :
  extract_sheet_id_from_url url = None <->
  ~ (exists before c rest,
       url = (before ++ sheet_marker ++ String c rest)%string /\
       id_char c = true).
Proof.
  unfold extract_sheet_id_from_url. split.
  - intros Hnone (before & c & rest & -> & Hc).
    induction before as [| x before IH].
    + rewrite search_unfold in Hnone.
      destruct (match_here_marker c rest Hc) as [id Hid].
      change (EmptyString ++ sheet_marker ++ String c rest)%string
        with (sheet_marker ++ String c rest)%string in Hnone.
      rewrite Hid in Hnone. discriminate.
    + apply IH. rewrite search_unfold in Hnone.
      destruct (match_here _); [discriminate | exact Hnone].
  - intros Hno. destruct (search url) as [id |] eqn:Hs; [| reflexivity].
    exfalso. apply Hno.
    destruct (search_sound url id Hs) as (before & rest & Hurl & Hne & Hall & _).
    destruct id as [| c id]; [congruence |].
    cbn in Hall. apply andb_true_iff in Hall. destruct Hall as [Hc _].
    exists before, c, (id ++ rest)%string. split; [exact Hurl | exact Hc].
Qed.

Lemma match_here_id (id rest : string) :
  id <> EmptyString -> all_id_chars id = true -> ends_id rest = true ->
  match_here (sheet_marker ++ id ++ rest) = Some id.
Proof.
  intros Hne Hid Hrest. unfold match_here.
  assert (Hp : strip_prefix sheet_marker (sheet_marker ++ id ++ rest)
               = Some (id ++ rest)%string)
    by (apply strip_prefix_spec; reflexivity).
  rewrite Hp, (take_id_run id rest Hid Hrest).
  destruct id; [congruence | reflexivity].
Qed.

Lemma match_here_needs_slash_s (a b : ascii) (s : string) :
  Ascii.eqb a "/" && Ascii.eqb b "s" = false ->
  match_here (String a (String b s)) = None.
Proof.
  intros H. unfold match_here, sheet_marker. cbn [strip_prefix].
  rewrite (Ascii.eqb_sym "/" a), (Ascii.eqb_sym "s" b).
  destruct (Ascii.eqb a "/"); [| reflexivity].
  destruct (Ascii.eqb b "s"); [discriminate | reflexivity].
Qed.

(** X3.  Round trip: from a URL built as a prefix without [/s], then
    /spreadsheets/d/, then an id of letters, digits, hyphens and
    underscores, then the end or another character, the extraction gives
    back exactly that id. *)
Theorem X3_extract_built_url (before id rest : string) :
  has_slash_s before = false ->
  id <> EmptyString -> all_id_chars id = true -> ends_id rest = true ->
  extract_sheet_id_from_url (before ++ sheet_marker ++ id ++ rest) = Some id.
Proof.
  intros Hbefore Hne Hid Hrest. unfold extract_sheet_id_from_url.
  induction before as [| a before IH].
  - cbn [append]. rewrite search_unfold, (match_here_id id rest Hne Hid Hrest).
    reflexivity.
  - rewrite search_unfold.
    assert (Hnone : match_here
                      (String a before ++ sheet_marker ++ id ++ rest) = None).
    { destruct before as [| b before].
      - apply match_here_needs_slash_s.
        destruct (Ascii.eqb a "/"); reflexivity.
      - apply match_here_needs_slash_s.
        cbn in Hbefore. apply orb_false_iff in Hbefore. apply Hbefore. }
    rewrite Hnone. cbn [append]. apply IH.
    destruct before as [| b before]; [reflexivity |].
    cbn in Hbefore. apply orb_false_iff in Hbefore. apply Hbefore.
Qed.

Lemma X3_extract_built_url_witness :
  extract_sheet_id_from_url
    ("https://docs.google.com" ++ sheet_marker ++ "1AbC-_x9" ++ "/edit#gid=0")
  = Some "1AbC-_x9".
Proof.
  apply (X3_extract_built_url "https://docs.google.com" "1AbC-_x9"
                              "/edit#gid=0").
  - reflexivity.
  - discriminate.
  - reflexivity.
  - reflexivity.
Defined.

(** ** A run that stops *)

Lemma bind_halt {A B} (t : list event) (h : halt) (k : A -> M B) :
  bind (t, inl h) k = (t, inl h).
Proof. reflexivity. Qed.

Lemma fetching_ret {A} (a : A) : fetching (ret a).
Proof. split; [reflexivity | discriminate]. Qed.

Lemma fetching_raise {A} (e : exn) : fetching (@raise A e).
Proof. split; [reflexivity | discriminate]. Qed.

Lemma fetching_lift {A} (r : exn + A) : fetching (lift r).
Proof. destruct r; [apply fetching_raise | apply fetching_ret]. Qed.

Lemma fetching_emit (e : event) : shows_summary e = false -> fetching (emit e).
Proof. intros H. split; [cbn; rewrite H; reflexivity | discriminate]. Qed.

Lemma fetching_error_stop {A} (msg : string) :
  fetching (emit (StError msg) ;; @stop A).
Proof.
  split; [reflexivity |]. intros _. exists [], msg. reflexivity.
Qed.

Lemma fetching_bind {A B} (m : M A) (k : A -> M B) :
  fetching m -> (forall a, fetching (k a)) -> fetching (bind m k).
Proof.
  intros [Hm1 Hm2] Hk. destruct m as [t [h | a]].
  - rewrite bind_halt. split; [exact Hm1 |].
    cbn [fst snd] in *. intros Hs. injection Hs as ->. apply Hm2. reflexivity.
  - rewrite bind_value. destruct (Hk a) as [Hk1 Hk2].
    unfold fetching. cbn [fst snd] in *. split.
    + rewrite existsb_app, Hm1, Hk1. reflexivity.
    + intros Hs. destruct (Hk2 Hs) as (t' & msg & Ht').
      exists (t ++ t'), msg. rewrite Ht', app_assoc. reflexivity.
Qed.

Lemma fetching_for_each {A S} (xs : list A) (body : S -> A -> M S) (s : S) :
  (forall s x, fetching (body s x)) -> fetching (for_each xs body s).
Proof.
  intros Hbody. revert s. induction xs as [| x xs IH]; intros s; cbn [for_each].
  - apply fetching_ret.
  - apply fetching_bind; [apply Hbody | exact IH].
Qed.

Lemma fetching_dimension_value row i : fetching (dimension_value row i).
Proof.
  unfold dimension_value.
  destruct (nth_error _ _); [apply fetching_ret | apply fetching_raise].
Qed.

Lemma fetching_int_metric py_int row i : fetching (int_metric py_int row i).
Proof.
  unfold int_metric. destruct (nth_error _ _); [| apply fetching_raise].
  destruct (py_int _); [apply fetching_ret | apply fetching_raise].
Qed.

Lemma fetching_float_metric py_float row i :
  fetching (float_metric py_float row i).
Proof.
  unfold float_metric. destruct (nth_error _ _); [| apply fetching_raise].
  destruct (py_float _); [apply fetching_ret | apply fetching_raise].
Qed.

(** Steps of a proof that a computation is [fetching]. *)
Ltac fetching_basic :=
  first
    [ apply fetching_ret
    | apply fetching_raise
    | apply fetching_lift
    | apply fetching_error_stop
    | apply fetching_dimension_value
    | apply fetching_int_metric
    | apply fetching_float_metric
    | apply fetching_emit; reflexivity
    | apply fetching_for_each; intros
    | apply fetching_bind; [| intros]
    | match goal with
      | |- fetching (match ?x with _ => _ end) => destruct x
      end ].

Lemma fetching_fetch post metrics dimensions filters :
  fetching (fetch_metric_report post metrics dimensions filters).
Proof. unfold fetch_metric_report. repeat fetching_basic. Qed.

Ltac fetching_step := first [ apply fetching_fetch | fetching_basic ].

Lemma fetching_sessions_and_users py_int post :
  fetching (sessions_and_users py_int post).
Proof.
  unfold sessions_and_users. repeat fetching_step.
Qed.

Lemma fetching_unassigned_traffic py_int post n :
  fetching (unassigned_traffic py_int post n).
Proof.
  unfold unassigned_traffic, scan_channels, scan_mediums.
  repeat fetching_step.
  all: try match goal with s : (Z * Z)%type |- _ => destruct s end.
  all: repeat fetching_step.
Qed.

Lemma fetching_transactions_and_revenue py_int py_float post :
  fetching (transactions_and_revenue py_int py_float post).
Proof.
  unfold transactions_and_revenue, read_transactions, scan_duplicates.
  repeat fetching_step.
Qed.

Lemma fetching_funnel_analysis py_int post :
  fetching (funnel_analysis py_int post).
Proof.
  unfold funnel_analysis, funnel_count. repeat fetching_step.
Qed.

Lemma stops_clean_bind {A B} (m : M A) (k : A -> M B) :
  fetching m -> (forall a, stops_clean (k a)) -> stops_clean (bind m k).
Proof.
  intros [Hm1 Hm2] Hk. destruct m as [t [h | a]].
  - rewrite bind_halt. cbn [fst snd] in *. intros Hs.
    injection Hs as ->. split; [exact Hm1 | apply Hm2; reflexivity].
  - rewrite bind_value. unfold stops_clean. cbn [fst snd] in *. intros Hs.
    destruct (Hk a Hs) as (Hk1 & t' & msg & Ht').
    split.
    + rewrite existsb_app, Hm1, Hk1. reflexivity.
    + exists (t ++ t'), msg. rewrite Ht', app_assoc. reflexivity.
Qed.

Lemma stops_clean_never {A} (m : M A) : never_stops m -> stops_clean m.
Proof. intros H Hs. contradiction. Qed.

(** After the funnel the run only shows: it ends or raises, it does not
    stop. *)
Lemma report_never_stops (strip : string -> string) (sheet_url : string)
    (a : AuditData) (funnel_data : FunnelData)
    (ms : list Medium) (ds : list Duplicate) :
  never_stops
    (emit (StatusText "✅ Audit Complete! Generating Report...") ;;
     emit (Progress 100) ;;
     emit ProgressEmpty ;;
     emit StatusEmpty ;;
     show_results a funnel_data ms ds ;;
     show_exports_and_insights strip sheet_url a funnel_data ms ds ;;
     ret a).
Proof.
  unfold never_stops. rewrite !snd_bind_emit.
  pose proof (show_results_returns a funnel_data ms ds) as Hs.
  destruct (show_results a funnel_data ms ds) as [t [h | []]].
  - rewrite bind_halt. cbn [snd] in *.
    destruct (funnel_rates funnel_data); [| discriminate]. congruence.
  - rewrite snd_bind_value.
    pose proof (show_exports_and_insights_returns strip sheet_url
                  a funnel_data ms ds) as He.
    destruct (show_exports_and_insights strip sheet_url a funnel_data ms ds)
      as [t' [h | []]];
      [discriminate |].
    rewrite snd_bind_value. discriminate.
Qed.

(** X4.  Whenever the run ends by [st.stop()], whichever query failed, the
    last thing on the page is the error message and nothing of the summary
    was shown: no metric, no heading, no insight, no download and no
    export button. *)
Theorem X4_stop_shows_no_summary (strip : string -> string)
    (sheet_url : string) (py_int : string -> option Z)
    (py_float : string -> option float) (post : Body -> option Payload) :
  snd (run_audit strip sheet_url py_int py_float post) = inl Stop ->
  existsb shows_summary (fst (run_audit strip sheet_url py_int py_float post))
  = false /\
  exists t msg,
    fst (run_audit strip sheet_url py_int py_float post) = t ++ [StError msg].
Proof.
  change (stops_clean (run_audit strip sheet_url py_int py_float post)).
  unfold run_audit.
  apply stops_clean_bind; [apply fetching_emit; reflexivity | intros _].
  apply stops_clean_bind; [apply fetching_emit; reflexivity | intros _].
  apply stops_clean_bind; [apply fetching_sessions_and_users |].
  intros [[total_sessions total_users] sessions_per_user].
  apply stops_clean_bind; [apply fetching_unassigned_traffic |].
  intros [[unassigned_sessions percent_unassigned] unassigned_mediums].
  apply stops_clean_bind; [apply fetching_transactions_and_revenue |].
  intros [[total_transactions total_revenue] duplicate_transaction_ids].
  apply stops_clean_bind; [apply fetching_funnel_analysis |].
  intros funnel_data.
  apply stops_clean_never, report_never_stops.
Qed.

Lemma X4_stop_shows_no_summary_witness :
  let run :=
    run_audit Sample.strip Sample.sheet_url
      Sample.dec_int Sample.dec_float
      (answering (funnel_request "purchase")
                 (mkReport
                    (Some (ErrorObject
                             (Some (MessageString "Quota exceeded"))))
                    None)
                 Sample.shop) in
  existsb shows_summary (fst run) = false /\
  exists t msg, fst run = t ++ [StError msg].
Proof.
  apply (X4_stop_shows_no_summary Sample.strip Sample.sheet_url
           Sample.dec_int Sample.dec_float
           (answering (funnel_request "purchase")
                      (mkReport
                    (Some (ErrorObject
                             (Some (MessageString "Quota exceeded"))))
                    None)
                      Sample.shop)).
  vm_compute. reflexivity.
Defined.

(** ** The requests of a run *)

Lemma requests_of_app (t1 t2 : list event) :
  requests_of (t1 ++ t2) = requests_of t1 ++ requests_of t2.
Proof. unfold requests_of. apply flat_map_app. Qed.

Lemma within_ret {A} (a : A) : requests_within (ret a) [].
Proof. split; [exists []; reflexivity | reflexivity]. Qed.

Lemma within_raise {A} (e : exn) : requests_within (@raise A e) [].
Proof. split; [exists []; reflexivity | reflexivity]. Qed.

Lemma within_stop {A} : requests_within (@stop A) [].
Proof. split; [exists []; reflexivity | reflexivity]. Qed.

Lemma within_lift {A} (r : exn + A) : requests_within (lift r) [].
Proof. destruct r; [apply within_raise | apply within_ret]. Qed.

Lemma within_emit (e : event) : is_post e = false -> requests_within (emit e) [].
Proof.
  intros H. destruct e; try discriminate;
    (split; [exists []; reflexivity | reflexivity]).
Qed.

Lemma within_bind {A B} (m : M A) (k : A -> M B) (l1 l2 : list Body) :
  requests_within m l1 -> (forall a, requests_within (k a) l2) ->
  requests_within (bind m k) (l1 ++ l2).
Proof.
  intros [[rest Hrest] Hret] Hk. destruct m as [t [h | a]].
  - rewrite bind_halt. cbn [fst snd] in *. split; [| discriminate].
    exists (rest ++ l2). rewrite Hrest, app_assoc. reflexivity.
  - rewrite bind_value. destruct (Hk a) as [[rest' Hrest'] Hret'].
    unfold requests_within. cbn [fst snd] in *.
    rewrite requests_of_app, (Hret a eq_refl). split.
    + exists rest'. rewrite Hrest', app_assoc. reflexivity.
    + intros b Hb. rewrite (Hret' b Hb). reflexivity.
Qed.

Lemma within_bind_nil {A B} (m : M A) (k : A -> M B) (l : list Body) :
  requests_within m [] -> (forall a, requests_within (k a) l) ->
  requests_within (bind m k) l.
Proof. intros Hm Hk. apply (within_bind m k [] l Hm Hk). Qed.

Lemma within_for_each {A S} (xs : list A) (body : S -> A -> M S) (s : S) :
  (forall s x, requests_within (body s x) []) ->
  requests_within (for_each xs body s) [].
Proof.
  intros Hbody. revert s. induction xs as [| x xs IH]; intros s; cbn [for_each].
  - apply within_ret.
  - apply within_bind_nil; [apply Hbody | exact IH].
Qed.

Lemma within_fetch post metrics dimensions filters :
  requests_within (fetch_metric_report post metrics dimensions filters)
                  [request metrics dimensions filters].
Proof.
  unfold fetch_metric_report.
  assert (H : forall m : M Payload,
             requests_within m [] ->
             requests_within
               (emit (Post (request metrics dimensions filters)) ;; m)
               [request metrics dimensions filters]).
  { intros m [[rest Hrest] Hret]. rewrite bind_emit.
    unfold requests_within. cbn [fst snd requests_of flat_map app].
    fold (requests_of (fst m)). split.
    - exists []. destruct (requests_of (fst m)); [reflexivity | discriminate].
    - intros a Ha. rewrite (Hret a Ha). reflexivity. }
  apply H. destruct (post _) as [result |].
  - apply within_bind_nil; [apply within_lift | intros [|]];
      [| apply within_ret].
    apply within_bind_nil; [apply within_lift | intros message].
    apply within_bind_nil; [apply within_emit; reflexivity | intros _].
    apply within_stop.
  - apply within_bind_nil; [apply within_emit; reflexivity | intros _].
    apply within_stop.
Qed.

Lemma within_dimension_value row i : requests_within (dimension_value row i) [].
Proof.
  unfold dimension_value.
  destruct (nth_error _ _); [apply within_ret | apply within_raise].
Qed.

Lemma within_int_metric py_int row i :
  requests_within (int_metric py_int row i) [].
Proof.
  unfold int_metric. destruct (nth_error _ _); [| apply within_raise].
  destruct (py_int _); [apply within_ret | apply within_raise].
Qed.

Lemma within_float_metric py_float row i :
  requests_within (float_metric py_float row i) [].
Proof.
  unfold float_metric. destruct (nth_error _ _); [| apply within_raise].
  destruct (py_float _); [apply within_ret | apply within_raise].
Qed.

(** Steps of a proof that a computation makes no request. *)
Ltac silent_step :=
  first
    [ apply within_ret
    | apply within_raise
    | apply within_stop
    | apply within_lift
    | apply within_dimension_value
    | apply within_int_metric
    | apply within_float_metric
    | apply within_emit; reflexivity
    | apply within_for_each; intros
    | match goal with
      | |- requests_within (match ?x with _ => _ end) _ => destruct x
      end
    | apply within_bind_nil; [| intros] ].

Lemma within_sessions_and_users py_int post :
  requests_within (sessions_and_users py_int post) [baseline_request].
Proof.
  unfold sessions_and_users.
  apply within_bind_nil; [silent_step | intros _].
  apply within_bind_nil; [silent_step | intros _].
  apply (within_bind _ _ [baseline_request] []); [apply within_fetch |].
  intros data. repeat silent_step.
Qed.

Lemma within_unassigned_traffic py_int post n :
  requests_within (unassigned_traffic py_int post n)
                  [channel_request; medium_request].
Proof.
  unfold unassigned_traffic, scan_channels, scan_mediums.
  apply within_bind_nil; [silent_step | intros _].
  apply within_bind_nil; [silent_step | intros _].
  apply (within_bind _ _ [channel_request] [medium_request]);
    [apply within_fetch | intros channel_data].
  apply within_bind_nil; [silent_step | intros channel_rows].
  apply within_bind_nil.
  { apply within_for_each. intros [un tot] row. repeat silent_step. }
  intros scanned. apply within_bind_nil; [silent_step | intros p].
  apply (within_bind _ _ [medium_request] []); [apply within_fetch |].
  intros medium_data. repeat silent_step.
Qed.

Lemma within_transactions_and_revenue py_int py_float post :
  requests_within (transactions_and_revenue py_int py_float post)
                  [transactions_request; transaction_ids_request].
Proof.
  unfold transactions_and_revenue, read_transactions, scan_duplicates.
  apply within_bind_nil; [silent_step | intros _].
  apply within_bind_nil; [silent_step | intros _].
  apply (within_bind _ _ [transactions_request] [transaction_ids_request]);
    [apply within_fetch | intros data].
  apply within_bind_nil.
  { repeat silent_step. }
  intros totals.
  apply (within_bind _ _ [transaction_ids_request] []); [apply within_fetch |].
  intros ids. repeat silent_step.
Qed.

Lemma within_funnel_count py_int post event :
  requests_within (funnel_count py_int post event) [funnel_request event].
Proof.
  unfold funnel_count.
  apply (within_bind _ _ [funnel_request event] []); [apply within_fetch |].
  intros data. repeat silent_step.
Qed.

Lemma within_funnel_analysis py_int post :
  requests_within (funnel_analysis py_int post)
                  [funnel_request "view_item"; funnel_request "add_to_cart";
                   funnel_request "begin_checkout"; funnel_request "purchase"].
Proof.
  unfold funnel_analysis.
  apply within_bind_nil; [silent_step | intros _].
  apply within_bind_nil; [silent_step | intros _].
  apply (within_bind _ _ [funnel_request "view_item"]
           [funnel_request "add_to_cart"; funnel_request "begin_checkout";
            funnel_request "purchase"]);
    [apply within_funnel_count | intros v].
  apply (within_bind _ _ [funnel_request "add_to_cart"]
           [funnel_request "begin_checkout"; funnel_request "purchase"]);
    [apply within_funnel_count | intros c].
  apply (within_bind _ _ [funnel_request "begin_checkout"]
           [funnel_request "purchase"]);
    [apply within_funnel_count | intros b].
  apply (within_bind _ _ [funnel_request "purchase"] []);
    [apply within_funnel_count | intros p].
  apply within_ret.
Qed.

Lemma within_show_insights l : requests_within (show_insights l) [].
Proof. destruct l; repeat silent_step. Qed.

Lemma within_show_results a funnel_data ms ds :
  requests_within (show_results a funnel_data ms ds) [].
Proof.
  unfold show_results. repeat silent_step.
  all: try (destruct ms; repeat silent_step).
  all: try (destruct ds; repeat silent_step).
  all: try match goal with |- requests_within (if ?c then _ else _) _ =>
             destruct c; repeat silent_step end.
  all: try match goal with r : option Rates |- _ =>
             destruct r; repeat silent_step end.
Qed.

Lemma within_show_exports strip sheet_url a funnel_data ms ds :
  requests_within
    (show_exports_and_insights strip sheet_url a funnel_data ms ds) [].
Proof.
  unfold show_exports_and_insights. repeat silent_step.
  apply within_show_insights.
Qed.

(** X6.  Whatever the API answers, the requests of a run are the first
    ones of nine fixed requests, in their order (baseline, channels,
    mediums, transactions, duplicate ids, four funnel events): the run
    asks nothing else, asks nothing again after a failure, and asks
    nothing while it shows the report; a run that reaches its end has made
    all nine. *)
Theorem X6_requests_in_order (strip : string -> string)
    (sheet_url : string) (py_int : string -> option Z)
    (py_float : string -> option float) (post : Body -> option Payload) :
  (exists rest,
     audit_requests
     = requests_of (fst (run_audit strip sheet_url py_int py_float post))
       ++ rest) /\
  (forall a,
     snd (run_audit strip sheet_url py_int py_float post) = inr a ->
     requests_of (fst (run_audit strip sheet_url py_int py_float post))
     = audit_requests).
Proof.
  change (requests_within (run_audit strip sheet_url py_int py_float post)
                          audit_requests).
  unfold run_audit.
  apply within_bind_nil; [silent_step | intros _].
  apply within_bind_nil; [silent_step | intros _].
  apply (within_bind _ _ [baseline_request]
           [channel_request; medium_request;
            transactions_request; transaction_ids_request;
            funnel_request "view_item"; funnel_request "add_to_cart";
            funnel_request "begin_checkout"; funnel_request "purchase"]);
    [apply within_sessions_and_users |].
  intros [[total_sessions total_users] sessions_per_user].
  apply (within_bind _ _ [channel_request; medium_request]
           [transactions_request; transaction_ids_request;
            funnel_request "view_item"; funnel_request "add_to_cart";
            funnel_request "begin_checkout"; funnel_request "purchase"]);
    [apply within_unassigned_traffic |].
  intros [[unassigned_sessions percent_unassigned] unassigned_mediums].
  apply (within_bind _ _ [transactions_request; transaction_ids_request]
           [funnel_request "view_item"; funnel_request "add_to_cart";
            funnel_request "begin_checkout"; funnel_request "purchase"]);
    [apply within_transactions_and_revenue |].
  intros [[total_transactions total_revenue] duplicate_transaction_ids].
  apply (within_bind _ _
           [funnel_request "view_item"; funnel_request "add_to_cart";
            funnel_request "begin_checkout"; funnel_request "purchase"] []);
    [apply within_funnel_analysis |].
  intros funnel_data.
  apply within_bind_nil; [silent_step | intros _].
  apply within_bind_nil; [silent_step | intros _].
  apply within_bind_nil; [silent_step | intros _].
  apply within_bind_nil; [silent_step | intros _].
  apply within_bind_nil; [apply within_show_results | intros _].
  apply within_bind_nil; [apply within_show_exports | intros _].
  apply within_ret.
Qed.

(** ** The page of a completed run *)

Lemma emit_then {B} (e : event) (k : unit -> M B) (t : list event)
    (r : halt + B) :
  k tt = (t, r) -> bind (emit e) k = (e :: t, r).
Proof. intros H. unfold bind, emit. rewrite H. reflexivity. Qed.

Lemma value_then {A B} (m : M A) (k : A -> M B) (t1 t2 : list event) (a : A)
    (r : halt + B) :
  m = (t1, inr a) -> k a = (t2, r) -> bind m k = (t1 ++ t2, r).
Proof. intros -> H. unfold bind. rewrite H. reflexivity. Qed.

Lemma for_each_emit {A} (xs : list A) (g : A -> event) :
  for_each xs (fun _ x => emit (g x)) tt = (map g xs, inr tt).
Proof.
  induction xs as [| x xs IH]; [reflexivity |].
  cbn [for_each map]. apply emit_then. exact IH.
Qed.

Lemma show_insights_events (found : list string) :
  show_insights found = (insight_events found, inr tt).
Proof.
  destruct found as [| s l]; [reflexivity |].
  apply (for_each_emit (s :: l) (fun insight => Write [Lit insight])).
Qed.

Lemma show_exports_events strip sheet_url a f ms ds :
  show_exports_and_insights strip sheet_url a f ms ds
  = (export_events strip sheet_url a f ms ds, inr tt).
Proof.
  unfold show_exports_and_insights, export_events, push_button_events.
  cbn [app]. apply emit_then.
  destruct (push_offered strip sheet_url); [| rewrite bind_ret_l];
    cbn [app]; repeat apply emit_then; apply show_insights_events.
Qed.

Lemma show_results_events a f ms ds :
  show_results a f ms ds
  = (results_events a f ms ds,
     match funnel_rates f with
     | inl e => inl (Raise e)
     | inr _ => inr tt
     end).
Proof.
  unfold show_results, results_events. cbn [app].
  repeat apply emit_then.
  eapply value_then.
  { destruct ms as [| m ms]; [reflexivity |].
    apply emit_then. apply (for_each_emit (m :: ms) medium_line). }
  cbn [app]. repeat apply emit_then.
  eapply value_then.
  { destruct ds as [| d ds]; [reflexivity |].
    unfold duplicate_events. apply emit_then.
    eapply value_then;
      [apply (for_each_emit (firstn 10 (d :: ds)) duplicate_line) |].
    destruct (10 <? Z.of_nat (List.length (d :: ds))); reflexivity. }
  cbn [app]. repeat apply emit_then.
  unfold rates_events.
  destruct (funnel_rates f) as [e | [r |]]; reflexivity.
Qed.

Lemma bind_inv {A B} (m : M A) (k : A -> M B) (t : list event) (b : B) :
  bind m k = (t, inr b) ->
  exists t1 a t2, m = (t1, inr a) /\ k a = (t2, inr b) /\ t = t1 ++ t2.
Proof.
  destruct m as [t1 [h | a]]; cbn [bind]; [discriminate |].
  destruct (k a) as [t2 r] eqn:Hk. intros H. injection H as <- ->.
  exists t1, a, t2. repeat split. exact Hk.
Qed.

Lemma emit_bind_inv {B} (e : event) (k : unit -> M B) (t : list event) (b : B) :
  bind (emit e) k = (t, inr b) ->
  exists t', k tt = (t', inr b) /\ t = e :: t'.
Proof.
  intros H. apply bind_inv in H. destruct H as (t1 & [] & t2 & He & Hk & ->).
  injection He as <-. exists t2. split; [exact Hk | reflexivity].
Qed.

Lemma fetch_inv post metrics dimensions filters t result :
  fetch_metric_report post metrics dimensions filters = (t, inr result) ->
  t = [Post (request metrics dimensions filters)] /\
  post (request metrics dimensions filters) = Some result /\
  has_error result = inr false.
Proof.
  unfold fetch_metric_report. intros H.
  apply emit_bind_inv in H. destruct H as (t' & H & ->).
  destruct (post _) as [r |]; [| discriminate].
  destruct (has_error r) as [e | [|]] eqn:Herr; cbn [lift] in H.
  - discriminate.
  - rewrite bind_ret_l in H.
    destruct (error_message r); discriminate.
  - rewrite bind_ret_l in H. injection H as <- <-. repeat split. exact Herr.
Qed.

Lemma lift_inv {A} (r : exn + A) (t : list event) (a : A) :
  lift r = (t, inr a) -> t = [] /\ r = inr a.
Proof.
  destruct r; cbn; intros H; [discriminate |].
  injection H as <- <-. split; reflexivity.
Qed.

Lemma dimension_value_silent row i : fst (dimension_value row i) = [].
Proof. unfold dimension_value. destruct (nth_error _ _); reflexivity. Qed.

Lemma int_metric_silent py_int row i : fst (int_metric py_int row i) = [].
Proof.
  unfold int_metric. destruct (nth_error _ _); [| reflexivity].
  destruct (py_int _); reflexivity.
Qed.

Lemma float_metric_silent py_float row i :
  fst (float_metric py_float row i) = [].
Proof.
  unfold float_metric. destruct (nth_error _ _); [| reflexivity].
  destruct (py_float _); reflexivity.
Qed.

Lemma bind_silent {A B} (m : M A) (k : A -> M B) :
  fst m = [] -> (forall a, fst (k a) = []) -> fst (bind m k) = [].
Proof.
  destruct m as [t [h | a]]; cbn [fst]; intros -> Hk; [reflexivity |].
  rewrite bind_value. cbn [fst app]. apply Hk.
Qed.

Lemma for_each_silent {A S} (xs : list A) (body : S -> A -> M S) (s : S) :
  (forall s x, fst (body s x) = []) -> fst (for_each xs body s) = [].
Proof.
  intros Hbody. revert s. induction xs as [| x xs IH]; intros s; cbn [for_each].
  - reflexivity.
  - apply bind_silent; [apply Hbody | exact IH].
Qed.

Lemma scan_channels_silent py_int rows : fst (scan_channels py_int rows) = [].
Proof.
  unfold scan_channels. apply for_each_silent. intros [un tot] row.
  apply bind_silent; [apply dimension_value_silent | intros c].
  apply bind_silent; [apply int_metric_silent | reflexivity].
Qed.

Lemma scan_mediums_silent py_int rows : fst (scan_mediums py_int rows) = [].
Proof.
  unfold scan_mediums. apply for_each_silent. intros acc row.
  apply bind_silent; [apply dimension_value_silent | intros c].
  apply bind_silent; [apply int_metric_silent | reflexivity].
Qed.

Lemma scan_duplicates_silent py_int rows :
  fst (scan_duplicates py_int rows) = [].
Proof.
  unfold scan_duplicates. apply for_each_silent. intros acc row.
  apply bind_silent; [apply dimension_value_silent | intros c].
  apply bind_silent; [apply int_metric_silent | reflexivity].
Qed.

Lemma read_transactions_silent py_int py_float data :
  fst (read_transactions py_int py_float data) = [].
Proof.
  unfold read_transactions.
  apply bind_silent; [destruct (read_first_row data); reflexivity |].
  intros [row |]; [| reflexivity].
  apply bind_silent; [apply int_metric_silent | intros n].
  apply bind_silent; [apply float_metric_silent | reflexivity].
Qed.

Lemma silent_inv {A} (m : M A) (t : list event) (r : halt + A) :
  fst m = [] -> m = (t, r) -> t = [].
Proof. intros H ->. exact H. Qed.

(** The first section, when it returns. *)
Lemma sessions_and_users_returns py_int post t ts tu spu :
  sessions_and_users py_int post = (t, inr (ts, tu, spu)) ->
  t = [StatusText "📊 Analyzing Sessions and Users (Last 90 Days)...";
       Progress 20; Post baseline_request] /\
  sessions_per_user ts tu = inr spu.
Proof.
  unfold sessions_and_users. intros H.
  apply emit_bind_inv in H. destruct H as (t1 & H & ->).
  apply emit_bind_inv in H. destruct H as (t2 & H & ->).
  apply bind_inv in H. destruct H as (t3 & data & t4 & Hf & H & ->).
  apply fetch_inv in Hf. destruct Hf as (-> & _ & _).
  apply bind_inv in H. destruct H as (t0 & first & t0' & H0 & H & ->).
  apply lift_inv in H0. destruct H0 as [-> _].
  destruct first as [row |].
  - apply bind_inv in H. destruct H as (t5 & n & t6 & H5 & H & ->).
    apply (silent_inv _ _ _ (int_metric_silent _ _ _)) in H5. subst t5.
    apply bind_inv in H. destruct H as (t7 & u & t8 & H7 & H & ->).
    apply (silent_inv _ _ _ (int_metric_silent _ _ _)) in H7. subst t7.
    apply bind_inv in H. destruct H as (t9 & s & t10 & H9 & H & ->).
    apply lift_inv in H9. destruct H9 as [-> H9].
    injection H as <- <- <- <-. split; [reflexivity | exact H9].
  - apply emit_bind_inv in H. destruct H as (t5 & H & _). discriminate.
Qed.

(** The second section, when it returns. *)
Lemma unassigned_traffic_returns py_int post n t un pct ms :
  unassigned_traffic py_int post n = (t, inr (un, pct, ms)) ->
  t = [StatusText "🔍 Analyzing Unassigned Traffic..."; Progress 40;
       Post channel_request; Post medium_request] /\
  percent_unassigned un n = inr pct.
Proof.
  unfold unassigned_traffic. intros H.
  apply emit_bind_inv in H. destruct H as (t1 & H & ->).
  apply emit_bind_inv in H. destruct H as (t2 & H & ->).
  apply bind_inv in H. destruct H as (t3 & data & t4 & Hf & H & ->).
  apply fetch_inv in Hf. destruct Hf as (-> & _ & _).
  apply bind_inv in H. destruct H as (t0 & channel_rows & t0' & H0 & H & ->).
  apply lift_inv in H0. destruct H0 as [-> _].
  apply bind_inv in H. destruct H as (t5 & scanned & t6 & H5 & H & ->).
  apply (silent_inv _ _ _ (scan_channels_silent _ _)) in H5. subst t5.
  apply bind_inv in H. destruct H as (t7 & p & t8 & H7 & H & ->).
  apply lift_inv in H7. destruct H7 as [-> H7].
  apply bind_inv in H. destruct H as (t9 & mdata & t10 & Hf & H & ->).
  apply fetch_inv in Hf. destruct Hf as (-> & _ & _).
  apply bind_inv in H. destruct H as (t13 & medium_rows & t14 & H13 & H & ->).
  apply lift_inv in H13. destruct H13 as [-> _].
  apply bind_inv in H. destruct H as (t11 & mediums & t12 & H11 & H & ->).
  apply (silent_inv _ _ _ (scan_mediums_silent _ _)) in H11. subst t11.
  injection H as <- <- <- <-. split; [reflexivity | exact H7].
Qed.

(** The third section, when it returns. *)
Lemma transactions_and_revenue_returns py_int py_float post t n rev ds :
  transactions_and_revenue py_int py_float post = (t, inr (n, rev, ds)) ->
  t = [StatusText "💰 Analyzing Transactions and Revenue..."; Progress 60;
       Post transactions_request; Post transaction_ids_request].
Proof.
  unfold transactions_and_revenue. intros H.
  apply emit_bind_inv in H. destruct H as (t1 & H & ->).
  apply emit_bind_inv in H. destruct H as (t2 & H & ->).
  apply bind_inv in H. destruct H as (t3 & data & t4 & Hf & H & ->).
  apply fetch_inv in Hf. destruct Hf as (-> & _ & _).
  apply bind_inv in H. destruct H as (t5 & totals & t6 & H5 & H & ->).
  apply (silent_inv _ _ _ (read_transactions_silent _ _ _)) in H5. subst t5.
  apply bind_inv in H. destruct H as (t9 & idata & t10 & Hf & H & ->).
  apply fetch_inv in Hf. destruct Hf as (-> & _ & _).
  apply bind_inv in H. destruct H as (t13 & id_rows & t14 & H13 & H & ->).
  apply lift_inv in H13. destruct H13 as [-> _].
  apply bind_inv in H. destruct H as (t11 & dups & t12 & H11 & H & ->).
  apply (silent_inv _ _ _ (scan_duplicates_silent _ _)) in H11. subst t11.
  injection H as <- _ _ _. reflexivity.
Qed.

(** One funnel query, when it returns. *)
Lemma funnel_count_returns py_int post event t n :
  funnel_count py_int post event = (t, inr n) ->
  t = [Post (funnel_request event)] /\
  exists data,
    post (funnel_request event) = Some data /\ has_error data = inr false /\
    (read_first_row data = inr None -> n = 0).
Proof.
  unfold funnel_count. intros H.
  apply bind_inv in H. destruct H as (t3 & data & t4 & Hf & H & ->).
  apply fetch_inv in Hf. destruct Hf as (-> & Hpost & Herr).
  apply bind_inv in H. destruct H as (t0 & first & t0' & H0 & H & ->).
  apply lift_inv in H0. destruct H0 as [-> Hrow].
  destruct first as [row |].
  - apply (silent_inv _ _ _ (int_metric_silent _ _ _)) in H. subst t0'.
    split; [reflexivity |]. exists data.
    split; [exact Hpost |]. split; [exact Herr |]. intros Hn. congruence.
  - injection H as <- <-. split; [reflexivity |].
    exists data. split; [exact Hpost |]. split; [exact Herr |].
    intros _. reflexivity.
Qed.

(** The fourth section, when it returns. *)
Lemma funnel_analysis_returns py_int post t f :
  funnel_analysis py_int post = (t, inr f) ->
  t = [StatusText "🔄 Analyzing Conversion Funnel..."; Progress 80;
       Post (funnel_request "view_item"); Post (funnel_request "add_to_cart");
       Post (funnel_request "begin_checkout");
       Post (funnel_request "purchase")] /\
  exists data,
    post (funnel_request "purchase") = Some data /\
    has_error data = inr false /\
    (read_first_row data = inr None -> purchase f = 0).
Proof.
  unfold funnel_analysis. intros H.
  apply emit_bind_inv in H. destruct H as (t1 & H & ->).
  apply emit_bind_inv in H. destruct H as (t2 & H & ->).
  apply bind_inv in H. destruct H as (ta & v & ta' & Ha & H & ->).
  apply funnel_count_returns in Ha. destruct Ha as [-> _].
  apply bind_inv in H. destruct H as (tb & c & tb' & Hb & H & ->).
  apply funnel_count_returns in Hb. destruct Hb as [-> _].
  apply bind_inv in H. destruct H as (tc & b & tc' & Hc & H & ->).
  apply funnel_count_returns in Hc. destruct Hc as [-> _].
  apply bind_inv in H. destruct H as (td & p & td' & Hd & H & ->).
  apply funnel_count_returns in Hd. destruct Hd as [-> Hd].
  injection H as <- <-. split; [reflexivity | exact Hd].
Qed.

(** A run that reaches its end: what its sections returned, its page and
    what its summary holds. *)
Lemma completed_run strip sheet_url py_int py_float post a :
  snd (run_audit strip sheet_url py_int py_float post) = inr a ->
  exists f ms ds,
    (snd (sessions_and_users py_int post)
     = inr (total_sessions a, total_users a, ad_sessions_per_user a) /\
     snd (unassigned_traffic py_int post (total_sessions a))
     = inr (unassigned_sessions a, ad_percent_unassigned a, ms) /\
     snd (transactions_and_revenue py_int py_float post)
     = inr (total_transactions a, total_revenue a, ds) /\
     snd (funnel_analysis py_int post) = inr f) /\
    fst (run_audit strip sheet_url py_int py_float post)
    = fetch_events ++ results_events a f ms ds
      ++ export_events strip sheet_url a f ms ds /\
    sessions_per_user (total_sessions a) (total_users a)
    = inr (ad_sessions_per_user a) /\
    percent_unassigned (unassigned_sessions a) (total_sessions a)
    = inr (ad_percent_unassigned a) /\
    (exists data,
       post (funnel_request "purchase") = Some data /\
       has_error data = inr false /\
       (read_first_row data = inr None -> purchase f = 0)).
Proof.
  destruct (run_audit strip sheet_url py_int py_float post) as [t r] eqn:H.
  cbn [fst snd]. intros ->. unfold run_audit in H.
  apply emit_bind_inv in H. destruct H as (t1 & H & ->).
  apply emit_bind_inv in H. destruct H as (t2 & H & ->).
  apply bind_inv in H.
  destruct H as (ta & [[ts tu] spu] & ta' & Ha & H & ->).
  pose proof (f_equal snd Ha) as Ra.
  apply sessions_and_users_returns in Ha. destruct Ha as [-> Hspu].
  apply bind_inv in H.
  destruct H as (tb & [[un pct] ms] & tb' & Hb & H & ->).
  pose proof (f_equal snd Hb) as Rb.
  apply unassigned_traffic_returns in Hb. destruct Hb as [-> Hpct].
  apply bind_inv in H.
  destruct H as (tc & [[n rev] ds] & tc' & Hc & H & ->).
  pose proof (f_equal snd Hc) as Rc.
  apply transactions_and_revenue_returns in Hc. subst tc.
  apply bind_inv in H. destruct H as (td & f & td' & Hd & H & ->).
  pose proof (f_equal snd Hd) as Rd.
  apply funnel_analysis_returns in Hd. destruct Hd as [-> Hpurchase].
  apply emit_bind_inv in H. destruct H as (t3 & H & ->).
  apply emit_bind_inv in H. destruct H as (t4 & H & ->).
  apply emit_bind_inv in H. destruct H as (t5 & H & ->).
  apply emit_bind_inv in H. destruct H as (t6 & H & ->).
  apply bind_inv in H. destruct H as (te & [] & te' & He & H & ->).
  rewrite show_results_events in He. injection He as <- _.
  apply bind_inv in H. destruct H as (tf & [] & tf' & Hf & H & ->).
  rewrite show_exports_events in Hf. injection Hf as <-.
  injection H as <- <-.
  exists f, ms, ds. cbn [total_sessions total_users ad_sessions_per_user
                         unassigned_sessions ad_percent_unassigned
                         total_transactions total_revenue].
  cbn [snd] in Ra, Rb, Rc, Rd.
  split; [repeat split; assumption |].
  split; [| split; [exact Hspu | split; [exact Hpct | exact Hpurchase]]].
  rewrite app_nil_r. reflexivity.
Qed.

(** X5.  The summary of every run that reaches its end is consistent:
    its sessions per user is the ratio computed from its own total
    sessions and total users, and its percentage of unassigned sessions is
    computed from its own unassigned sessions over its own total sessions,
    the baseline, not over a sum of channel rows. *)
Theorem X5_summary_is_consistent (strip : string -> string)
    (sheet_url : string) (py_int : string -> option Z)
    (py_float : string -> option float) (post : Body -> option Payload)
    (a : AuditData) :
  snd (run_audit strip sheet_url py_int py_float post) = inr a ->
  sessions_per_user (total_sessions a) (total_users a)
  = inr (ad_sessions_per_user a) /\
  percent_unassigned (unassigned_sessions a) (total_sessions a)
  = inr (ad_percent_unassigned a).
Proof.
  intros H.
  destruct (completed_run _ _ _ _ _ _ H) as (f & ms & ds & _ & _ & H1 & H2 & _).
  split; assumption.
Qed.

Lemma X5_summary_is_consistent_witness :
  sessions_per_user 1000 500 = inr (PFloat (of_hundredths 200)) /\
  percent_unassigned 300 1000 = inr (PFloat (of_hundredths 3000)).
Proof.
  apply (X5_summary_is_consistent Sample.strip Sample.sheet_url
           Sample.dec_int Sample.dec_float Sample.shop
           (mkAudit 1000 500 (PFloat (of_hundredths 200))
                    300 (PFloat (of_hundredths 3000)) 25
                    (PFloat (RN 12345 10)))).
  vm_compute. reflexivity.
Defined.

(** ** What the page lists *)

Lemma filter_map_none {A} (p : event -> bool) (g : A -> event) (xs : list A) :
  (forall x, p (g x) = false) -> List.filter p (map g xs) = [].
Proof.
  intros H. induction xs as [| x xs IH]; [reflexivity |].
  cbn. rewrite H. exact IH.
Qed.

Lemma filter_map_all {A} (p : event -> bool) (g : A -> event) (xs : list A) :
  (forall x, p (g x) = true) -> List.filter p (map g xs) = map g xs.
Proof.
  intros H. induction xs as [| x xs IH]; [reflexivity |].
  cbn. rewrite H, IH. reflexivity.
Qed.

Lemma filter_rates_events (p : event -> bool) (f : FunnelData) :
  (forall l v, p (Metric l v) = false) -> List.filter p (rates_events f) = [].
Proof.
  intros H. unfold rates_events.
  destruct (funnel_rates f) as [e | [r |]]; [reflexivity | | reflexivity].
  cbn. rewrite !H. reflexivity.
Qed.

Lemma filter_medium_events (p : event -> bool) (ms : list Medium) :
  (forall s, p (Info s) = false) -> (forall s, p (Markdown s) = false) ->
  (forall m, p (medium_line m) = false) ->
  List.filter p (medium_events ms) = [].
Proof.
  intros Hi Hm Hl. destruct ms as [| m ms]; cbn [medium_events List.filter].
  - rewrite Hi. reflexivity.
  - rewrite Hm. apply (filter_map_none p medium_line (m :: ms)). exact Hl.
Qed.

(** X8.  The page lists the duplicated transactions in their order but
    never more than the first ten, and it adds the line that counts the
    others exactly when there are more than ten; the CSV rows carry every
    one of them, after the base rows and the medium rows. *)
Theorem X8_duplicates_listed (a : AuditData) (f : FunnelData)
    (ms : list Medium) (ds : list Duplicate) :
  let page := fst (show_results a f ms ds) in
  List.filter is_duplicate_line page = map duplicate_line (firstn 10 ds) /\
  List.filter is_more_line page
  = (if 10 <? Z.of_nat (List.length ds)
     then [more_line (Z.of_nat (List.length ds) - 10)] else []) /\
  (List.length (List.filter is_duplicate_line page) <= 10)%nat /\
  skipn (11 + List.length ms) (csv_audit_data a f ms ds)
  = map duplicate_row ds.
Proof.
  intros page.
  assert (Hdup : List.filter is_duplicate_line page
                 = map duplicate_line (firstn 10 ds)).
  { subst page. rewrite show_results_events. cbn [fst]. unfold results_events.
    rewrite !filter_app.
    rewrite (filter_medium_events is_duplicate_line ms) by reflexivity.
    rewrite (filter_rates_events is_duplicate_line f) by reflexivity.
    cbn [List.filter is_duplicate_line app]. rewrite app_nil_r.
    destruct ds as [| d ds]; [reflexivity |].
    unfold duplicate_events. cbn [List.filter is_duplicate_line].
    rewrite filter_app, (filter_map_all is_duplicate_line duplicate_line)
      by reflexivity.
    destruct (10 <? Z.of_nat (List.length (d :: ds)));
      cbn; rewrite app_nil_r; reflexivity. }
  split; [exact Hdup |]. split; [| split].
  - subst page. rewrite show_results_events. cbn [fst]. unfold results_events.
    rewrite !filter_app.
    rewrite (filter_medium_events is_more_line ms) by reflexivity.
    rewrite (filter_rates_events is_more_line f) by reflexivity.
    cbn [List.filter is_more_line app]. rewrite app_nil_r.
    destruct ds as [| d ds]; [reflexivity |].
    unfold duplicate_events. cbn [List.filter is_more_line].
    rewrite filter_app, (filter_map_none is_more_line duplicate_line)
      by reflexivity.
    destruct (10 <? Z.of_nat (List.length (d :: ds))); reflexivity.
  - rewrite Hdup, length_map. apply firstn_le_length.
  - unfold csv_audit_data.
    rewrite (fold_append_map medium_row), (fold_append_map duplicate_row).
    rewrite <- app_assoc.
    set (base := [_; _; _; _; _; _; _; _; _; _; _]).
    rewrite app_assoc.
    replace (11 + List.length ms)%nat
      with (List.length (base ++ map medium_row ms))
      by (rewrite length_app, length_map; reflexivity).
    rewrite skipn_app, skipn_all, Nat.sub_diag. reflexivity.
Qed.

(** ** The page and the insights of a completed run *)

Lemma filter_duplicate_events (p : event -> bool) (ds : list Duplicate) :
  (forall s, p (Info s) = false) -> (forall s, p (Markdown s) = false) ->
  (forall d, p (duplicate_line d) = false) ->
  (forall n, p (more_line n) = false) ->
  List.filter p (duplicate_events ds) = [].
Proof.
  intros Hi Hm Hl Hn. destruct ds as [| d ds];
    cbn [duplicate_events List.filter].
  - rewrite Hi. reflexivity.
  - rewrite Hm, filter_app, (filter_map_none p duplicate_line) by exact Hl.
    destruct (10 <? Z.of_nat (List.length (d :: ds))); [| reflexivity].
    cbn. rewrite Hn. reflexivity.
Qed.

Lemma no_success_in_results a f ms ds :
  List.filter is_success (results_events a f ms ds) = [].
Proof.
  unfold results_events. rewrite !filter_app.
  rewrite (filter_medium_events is_success ms) by reflexivity.
  rewrite (filter_duplicate_events is_success ds) by reflexivity.
  rewrite (filter_rates_events is_success f) by reflexivity.
  reflexivity.
Qed.

Lemma insights_end_with_no_purchase spu pct ds f :
  purchase f = 0 ->
  exists found, insights spu pct ds f = found ++ [no_purchase_warning].
Proof.
  intros H. unfold insights. rewrite H. cbn [Z.eqb].
  eexists. reflexivity.
Qed.

(** X7.  When a run reaches its end and the purchase query had answered
    without rows, the purchase count is 0 and the last line of the page is
    the warning that there are no purchase events; the message that all
    metrics look healthy is not shown. *)
Theorem X7_no_purchase_rows_warn (strip : string -> string)
    (sheet_url : string) (py_int : string -> option Z)
    (py_float : string -> option float) (post : Body -> option Payload)
    (a : AuditData) (data : Report) :
  snd (run_audit strip sheet_url py_int py_float post) = inr a ->
  post (funnel_request "purchase") = Some (Object data) ->
  rows data = None \/ rows data = Some [] ->
  (exists t,
     fst (run_audit strip sheet_url py_int py_float post)
     = t ++ [Write [Lit no_purchase_warning]]) /\
  List.filter is_success
    (fst (run_audit strip sheet_url py_int py_float post)) = [].
Proof.
  intros Hrun Hpost Hrows.
  destruct (completed_run _ _ _ _ _ _ Hrun)
    as (f & ms & ds & _ & Htrace & _ & _ & data' & Hpost' & _ & Hzero).
  rewrite Hpost in Hpost'. injection Hpost' as <-.
  assert (Hp : purchase f = 0).
  { apply Hzero. rewrite read_first_row_object. unfold first_row.
    destruct Hrows as [-> | ->]; reflexivity. }
  destruct (insights_end_with_no_purchase (ad_sessions_per_user a)
              (ad_percent_unassigned a) ds f Hp) as [found Hfound].
  assert (Hins : insight_events (found ++ [no_purchase_warning])
                 = map (fun insight => Write [Lit insight]) found
                   ++ [Write [Lit no_purchase_warning]]).
  { unfold insight_events.
    destruct (found ++ [no_purchase_warning]) eqn:E.
    - destruct found; discriminate.
    - rewrite <- E, map_app. reflexivity. }
  rewrite Htrace. unfold export_events. rewrite Hfound, Hins. split.
  - eexists. rewrite !app_assoc. reflexivity.
  - rewrite !filter_app, no_success_in_results.
    rewrite (filter_map_none is_success (fun insight => Write [Lit insight]))
      by reflexivity.
    unfold push_button_events.
    destruct (push_offered strip sheet_url); reflexivity.
Qed.

Lemma X7_no_purchase_rows_warn_witness :
  let run :=
    run_audit Sample.strip Sample.sheet_url
      Sample.dec_int Sample.dec_float
      (answering (funnel_request "purchase") (mkReport None None)
                 Sample.shop) in
  (exists t, fst run = t ++ [Write [Lit no_purchase_warning]]) /\
  List.filter is_success (fst run) = [].
Proof.
  apply (X7_no_purchase_rows_warn Sample.strip Sample.sheet_url
           Sample.dec_int Sample.dec_float
           (answering (funnel_request "purchase") (mkReport None None)
                      Sample.shop)
           (mkAudit 1000 500 (PFloat (of_hundredths 200))
                    300 (PFloat (of_hundredths 3000)) 25
                    (PFloat (RN 12345 10)))
           (mkReport None None)).
  - vm_compute. reflexivity.
  - reflexivity.
  - left. reflexivity.
Defined.

(** X9.  The page of a run that reaches its end is settled by what its
    four sections returned, the summary with the mediums, the duplicates
    and the funnel counts, and by the URL field: after the status lines
    and the nine requests it shows those values; under the export heading
    it draws the spreadsheet button exactly when the URL field holds more
    than blanks, then offers one download whose table is built from the
    same values, and judges the insight rules on them. *)
Theorem X9_page_of_completed_run (strip : string -> string)
    (sheet_url : string) (py_int : string -> option Z)
    (py_float : string -> option float) (post : Body -> option Payload)
    (a : AuditData) :
  snd (run_audit strip sheet_url py_int py_float post) = inr a ->
  exists f ms ds,
    (snd (sessions_and_users py_int post)
     = inr (total_sessions a, total_users a, ad_sessions_per_user a) /\
     snd (unassigned_traffic py_int post (total_sessions a))
     = inr (unassigned_sessions a, ad_percent_unassigned a, ms) /\
     snd (transactions_and_revenue py_int py_float post)
     = inr (total_transactions a, total_revenue a, ds) /\
     snd (funnel_analysis py_int post) = inr f) /\
    fst (run_audit strip sheet_url py_int py_float post)
    = fetch_events ++ results_events a f ms ds
      ++ [Markdown "### 📥 Export Options"]
      ++ (if not_empty sheet_url && not_empty (strip sheet_url)
          then [Button "📊 Push to Google Sheets"] else [])
      ++ [Markdown "**Or download as CSV:**";
          Download "📊 Download Full Audit Report (CSV)" ["Metric"; "Value"]
                   (csv_audit_data a f ms ds);
          Markdown "### 💡 Key Insights"]
      ++ insight_events (insights (ad_sessions_per_user a)
                                  (ad_percent_unassigned a) ds f) /\
    List.filter is_download
      (fst (run_audit strip sheet_url py_int py_float post))
    = [Download "📊 Download Full Audit Report (CSV)" ["Metric"; "Value"]
                (csv_audit_data a f ms ds)] /\
    List.filter is_button
      (fst (run_audit strip sheet_url py_int py_float post))
    = (if not_empty sheet_url && not_empty (strip sheet_url)
       then [Button "📊 Push to Google Sheets"] else []).
Proof.
  intros Hrun.
  destruct (completed_run _ _ _ _ _ _ Hrun)
    as (f & ms & ds & Hsections & Htrace & _).
  exists f, ms, ds. split; [exact Hsections |].
  split; [exact Htrace |].
  assert (Hins : forall p l,
             (forall s, p (Write [Lit s]) = false) ->
             p (Success healthy_message) = false ->
             List.filter p (insight_events l) = []).
  { intros p [| s l] Hw Hs; [cbn; rewrite Hs; reflexivity |].
    apply (filter_map_none p (fun insight => Write [Lit insight]) (s :: l)).
    exact Hw. }
  rewrite Htrace, !filter_app. unfold results_events, export_events.
  rewrite !filter_app.
  rewrite (filter_medium_events is_download ms) by reflexivity.
  rewrite (filter_duplicate_events is_download ds) by reflexivity.
  rewrite (filter_rates_events is_download f) by reflexivity.
  rewrite (filter_medium_events is_button ms) by reflexivity.
  rewrite (filter_duplicate_events is_button ds) by reflexivity.
  rewrite (filter_rates_events is_button f) by reflexivity.
  rewrite !Hins by reflexivity.
  unfold push_button_events, push_offered.
  destruct (not_empty sheet_url && not_empty (strip sheet_url));
    split; reflexivity.
Qed.

Lemma X9_page_of_completed_run_witness :
  exists f ms ds,
    (snd (sessions_and_users Sample.dec_int Sample.shop)
     = inr (1000, 500, PFloat (of_hundredths 200)) /\
     snd (unassigned_traffic Sample.dec_int Sample.shop 1000)
     = inr (300, PFloat (of_hundredths 3000), ms) /\
     snd (transactions_and_revenue Sample.dec_int Sample.dec_float Sample.shop)
     = inr (25, PFloat (RN 12345 10), ds) /\
     snd (funnel_analysis Sample.dec_int Sample.shop) = inr f) /\
    fst (run_audit Sample.strip Sample.sheet_url
           Sample.dec_int Sample.dec_float Sample.shop)
    = fetch_events
      ++ results_events
           (mkAudit 1000 500 (PFloat (of_hundredths 200))
                    300 (PFloat (of_hundredths 3000)) 25
                    (PFloat (RN 12345 10))) f ms ds
      ++ [Markdown "### 📥 Export Options"]
      ++ [Button "📊 Push to Google Sheets"]
      ++ [Markdown "**Or download as CSV:**";
          Download "📊 Download Full Audit Report (CSV)" ["Metric"; "Value"]
                   (csv_audit_data
                      (mkAudit 1000 500 (PFloat (of_hundredths 200))
                               300 (PFloat (of_hundredths 3000)) 25
                               (PFloat (RN 12345 10))) f ms ds);
          Markdown "### 💡 Key Insights"]
      ++ insight_events (insights (PFloat (of_hundredths 200))
                                  (PFloat (of_hundredths 3000)) ds f) /\
    List.filter is_download
      (fst (run_audit Sample.strip Sample.sheet_url
              Sample.dec_int Sample.dec_float Sample.shop))
    = [Download "📊 Download Full Audit Report (CSV)" ["Metric"; "Value"]
                (csv_audit_data
                   (mkAudit 1000 500 (PFloat (of_hundredths 200))
                            300 (PFloat (of_hundredths 3000)) 25
                            (PFloat (RN 12345 10))) f ms ds)] /\
    List.filter is_button
      (fst (run_audit Sample.strip Sample.sheet_url
              Sample.dec_int Sample.dec_float Sample.shop))
    = [Button "📊 Push to Google Sheets"].
Proof.
  apply (X9_page_of_completed_run Sample.strip Sample.sheet_url
           Sample.dec_int Sample.dec_float Sample.shop
           (mkAudit 1000 500 (PFloat (of_hundredths 200))
                    300 (PFloat (of_hundredths 3000)) 25
                    (PFloat (RN 12345 10)))).
  vm_compute. reflexivity.
Defined.

(** ** Google Sheets credentials *)

(** X10.  A credential is returned only when the stored one was valid,
    and then it is that one, or when the stored one was invalid, expired,
    had a refresh token and its refresh went through, and then it is the
    refreshed one; the returned credential is the one the session keeps.
    A valid credential is returned whatever the refresh would do: it is
    never refreshed. *)
Theorem X10_returned_credential
    (refresh refresh' : Credentials -> option Credentials)
    (sheets_creds : option (option Credentials)) (c : Credentials) :
  snd (get_google_sheets_auth refresh sheets_creds) = Some c ->
  fst (get_google_sheets_auth refresh sheets_creds) = Some (Some c) /\
  (exists c0,
     sheets_creds = Some (Some c0) /\
     ((valid c0 = true /\ c = c0 /\
       get_google_sheets_auth refresh' sheets_creds = (Some (Some c0), Some c0)) \/
      (valid c0 = false /\ expired c0 = true /\
       truthy (refresh_token c0) = true /\ refresh c0 = Some c))).
Proof.
  unfold get_google_sheets_auth.
  destruct sheets_creds as [[c0 |] |]; cbn [fst snd]; try discriminate.
  destruct (valid c0) eqn:Hv; cbn [fst snd].
  - intros H. injection H as <-. split; [reflexivity |].
    exists c0. split; [reflexivity |]. left.
    split; [exact Hv |]. split; reflexivity.
  - destruct (expired c0 && truthy (refresh_token c0)) eqn:He;
      cbn [fst snd]; [| discriminate].
    apply andb_true_iff in He. destruct He as [He Ht].
    destruct (refresh c0) as [c' |] eqn:Hr; cbn [fst snd]; [| discriminate].
    intros H. injection H as <-. split; [reflexivity |].
    exists c0. split; [reflexivity |]. right. repeat split; assumption.
Qed.

Lemma X10_returned_credential_witness :
  fst (get_google_sheets_auth
         (fun c => Some (mkCredentials true false (refresh_token c)))
         (Some (Some (mkCredentials false true (Some "1//r")))))
  = Some (Some (mkCredentials true false (Some "1//r"))).
Proof.
  apply (X10_returned_credential
           (fun c => Some (mkCredentials true false (refresh_token c)))
           (fun _ => None)
           (Some (Some (mkCredentials false true (Some "1//r"))))
           (mkCredentials true false (Some "1//r"))).
  reflexivity.
Defined.

(** X11.  No retry: once a call has returned no credential, every later
    call returns none either and leaves the session as it is, whatever a
    refresh would do then; after a failed refresh the stored credential is
    gone, so it is not refreshed again. *)
Theorem X11_failed_auth_stays_failed
    (refresh refresh' : Credentials -> option Credentials)
    (sheets_creds : option (option Credentials)) :
  snd (get_google_sheets_auth refresh sheets_creds) = None ->
  get_google_sheets_auth refresh'
    (fst (get_google_sheets_auth refresh sheets_creds))
  = (fst (get_google_sheets_auth refresh sheets_creds), None) /\
  (forall c0,
     sheets_creds = Some (Some c0) -> refresh c0 = None ->
     expired c0 = true -> truthy (refresh_token c0) = true ->
     fst (get_google_sheets_auth refresh sheets_creds) = Some None).
Proof.
  unfold get_google_sheets_auth.
  destruct sheets_creds as [[c0 |] |]; cbn [fst snd].
  - destruct (valid c0) eqn:Hv; cbn [fst snd]; [discriminate |].
    destruct (expired c0 && truthy (refresh_token c0)) eqn:He; cbn [fst snd].
    + destruct (refresh c0) as [c' |] eqn:Hr; cbn [fst snd]; [discriminate |].
      intros _. split; [reflexivity |]. intros c1 H. reflexivity.
    + intros _. split.
      * rewrite Hv, He. reflexivity.
      * intros c1 H _ He1 Ht1. injection H as <-.
        rewrite He1, Ht1 in He. discriminate.
  - intros _. split; [reflexivity |]. intros c0 H. discriminate.
  - intros _. split; [reflexivity |]. intros c0 H. discriminate.
Qed.

Lemma X11_failed_auth_stays_failed_witness :
  get_google_sheets_auth (fun c => Some (mkCredentials true false None))
    (fst (get_google_sheets_auth (fun _ => None)
            (Some (Some (mkCredentials false true (Some "1//r"))))))
  = (Some None, None).
Proof.
  apply (X11_failed_auth_stays_failed (fun _ => None)
           (fun c => Some (mkCredentials true false None))
           (Some (Some (mkCredentials false true (Some "1//r"))))).
  reflexivity.
Defined.

(** ** The property picker *)

Lemma append_assoc (a b c : string) :
  ((a ++ b) ++ c)%string = (a ++ b ++ c)%string.
Proof. induction a as [| x a IH]; cbn; [reflexivity | rewrite IH; reflexivity]. Qed.

Lemma append_inv_tail (a b c : string) :
  (a ++ c)%string = (b ++ c)%string -> a = b.
Proof.
  intros H.
  assert (Hl : list_ascii_of_string a ++ list_ascii_of_string c
               = list_ascii_of_string b ++ list_ascii_of_string c).
  { assert (G : forall x y, list_ascii_of_string (x ++ y)
                            = list_ascii_of_string x ++ list_ascii_of_string y).
    { intros x y. induction x as [| ch x IH]; cbn; [reflexivity |].
      rewrite IH. reflexivity. }
    rewrite <- !G, H. reflexivity. }
  apply app_inv_tail in Hl.
  rewrite <- (string_of_list_ascii_of_string a),
          <- (string_of_list_ascii_of_string b), Hl.
  reflexivity.
Qed.

Lemma has_char_append (c : ascii) (a b : string) :
  has_char c (a ++ b) = has_char c a || has_char c b.
Proof.
  induction a as [| x a IH]; cbn; [reflexivity |].
  rewrite IH, orb_assoc. reflexivity.
Qed.

(** The text between the last opening parenthesis and the closing one. *)
Lemma paren_tail (x1 x2 i1 i2 : string) :
  has_char "(" i1 = false -> has_char "(" i2 = false ->
  (x1 ++ String "(" (i1 ++ ")"))%string = (x2 ++ String "(" (i2 ++ ")"))%string ->
  i1 = i2.
Proof.
  intros H1 H2. revert x2.
  assert (Hno : forall i y z,
             has_char "(" i = false ->
             (i ++ ")")%string <> (y ++ String "(" z)%string).
  { intros i y z Hi E.
    assert (Hc : has_char "(" (i ++ ")") = has_char "(" (y ++ String "(" z))
      by (rewrite E; reflexivity).
    rewrite !has_char_append, Hi in Hc. cbn in Hc.
    rewrite orb_true_r in Hc. discriminate. }
  induction x1 as [| c x1 IH]; intros x2 E.
  - destruct x2 as [| c2 x2]; cbn in E.
    + injection E as E. apply append_inv_tail in E. exact E.
    + injection E as _ E. exfalso. apply (Hno i1 x2 (i2 ++ ")")%string H1 E).
  - destruct x2 as [| c2 x2]; cbn in E.
    + injection E as _ E. exfalso.
      apply (Hno i2 x1 (i1 ++ ")")%string H2). symmetry. exact E.
    + injection E as _ E. apply (IH x2 E).
Qed.

Lemma dict_get_set_same {V} (d : list (string * V)) (k : string) (v : V) :
  dict_get (dict_set d k v) k = Some v.
Proof.
  induction d as [| [k' v'] d IH]; cbn.
  - rewrite String.eqb_refl. reflexivity.
  - destruct (String.eqb k' k) eqn:E; cbn; rewrite E; [reflexivity | exact IH].
Qed.

Lemma dict_get_set_other {V} (d : list (string * V)) (k k0 : string) (v : V) :
  k <> k0 -> dict_get (dict_set d k v) k0 = dict_get d k0.
Proof.
  intros Hne. induction d as [| [k' v'] d IH]; cbn.
  - replace (String.eqb k k0) with false
      by (symmetry; apply String.eqb_neq; exact Hne).
    reflexivity.
  - destruct (String.eqb k' k) eqn:E; cbn.
    + apply String.eqb_eq in E. subst k'.
      replace (String.eqb k k0) with false
        by (symmetry; apply String.eqb_neq; exact Hne).
      reflexivity.
    + destruct (String.eqb k' k0); [reflexivity | exact IH].
Qed.

(** A key of the dict holds the id of an option with that label. *)
Lemma property_ids_get (opts : list PropertyOption)
    (d : list (string * option string)) (k : string) :
  (exists o, In o opts /\ label o = k /\
             dict_get (fold_left (fun d opt => dict_set d (label opt) (id opt))
                                 opts d) k = Some (id o)) \/
  ((forall o, In o opts -> label o <> k) /\
   dict_get (fold_left (fun d opt => dict_set d (label opt) (id opt)) opts d) k
   = dict_get d k).
Proof.
  revert d. induction opts as [| o opts IH]; intros d; cbn [fold_left].
  - right. split; [intros o [] | reflexivity].
  - destruct (IH (dict_set d (label o) (id o))) as [(o' & Hin & Hl & Hg) | [Hno Hg]].
    + left. exists o'. split; [right; exact Hin | split; assumption].
    + destruct (string_dec (label o) k) as [Hk | Hk].
      * left. exists o. split; [left; reflexivity | split; [exact Hk |]].
        rewrite Hg, <- Hk. apply dict_get_set_same.
      * right. split.
        -- intros o' [<- | Hin]; [exact Hk | apply Hno; exact Hin].
        -- rewrite Hg. apply dict_get_set_other. exact Hk.
Qed.

Lemma options_label_shape (summaries : list AccountSummary) (o : PropertyOption) :
  In o (options summaries) ->
  exists x, label o = (x ++ String "(" (text_of (id o) ++ ")"))%string.
Proof.
  unfold options.
  set (P := fun o : PropertyOption =>
              exists x, label o = (x ++ String "(" (text_of (id o) ++ ")"))%string).
  assert (Hinner : forall account ps acc,
             Forall P acc ->
             Forall P
               (fold_left
                  (fun options prop =>
                     options ++
                     [mkOption (account ++ " — "
                                ++ text_of (property_displayName prop)
                                ++ " (" ++ text_of (property prop) ++ ")")%string
                               (property prop)])
                  ps acc)).
  { intros account ps. induction ps as [| p ps IH]; intros acc Hacc;
      cbn [fold_left]; [exact Hacc |].
    apply IH. apply Forall_app. split; [exact Hacc |].
    constructor; [| constructor]. unfold P. cbn [label id].
    exists (account ++ " — " ++ text_of (property_displayName p) ++ " ")%string.
    rewrite !append_assoc. reflexivity. }
  assert (Houter : forall ss acc,
             Forall P acc ->
             Forall P
               (fold_left
                  (fun options summary =>
                     let account :=
                       match displayName summary with
                       | Some s => s
                       | None => "Unnamed Account"
                       end in
                     fold_left
                       (fun options prop =>
                          options ++
                          [mkOption (account ++ " — "
                                     ++ text_of (property_displayName prop)
                                     ++ " (" ++ text_of (property prop) ++ ")")%string
                                    (property prop)])
                       (match propertySummaries summary with
                        | Some ps => ps
                        | None => []
                        end)
                       options)
                  ss acc)).
  { intros ss. induction ss as [| s ss IH]; intros acc Hacc;
      cbn [fold_left]; [exact Hacc |].
    apply IH. apply Hinner. exact Hacc. }
  intros Hin. pose proof (Houter summaries [] (Forall_nil P)) as H.
  rewrite Forall_forall in H. apply H. exact Hin.
Qed.

(** X12.  A label of the picker is always a key of [property_ids], so
    looking up the selected label cannot fail; and when no property id has
    an opening parenthesis, the request URL built for the label of an
    option names the property of that very option, also when several
    options have the same label. *)
Theorem X12_selected_label_runs_its_property
    (summaries : list AccountSummary) (o : PropertyOption) :
  In o (options summaries) ->
  (exists i, dict_get (property_ids (options summaries)) (label o) = Some i) /\
  ((forall o', In o' (options summaries) ->
               has_char "(" (text_of (id o')) = false) ->
   run_report_url (options summaries) (label o)
   = Some ("https://analyticsdata.googleapis.com/v1beta/"
           ++ text_of (id o) ++ ":runReport")%string).
Proof.
  intros Hin.
  destruct (property_ids_get (options summaries) [] (label o))
    as [(o' & Hin' & Hl & Hg) | [Hno _]];
    [| exfalso; apply (Hno o Hin); reflexivity].
  fold (property_ids (options summaries)) in Hg.
  split; [exists (id o'); exact Hg |].
  intros Hparen. unfold run_report_url. rewrite Hg.
  destruct (options_label_shape summaries o Hin) as [x Hx].
  destruct (options_label_shape summaries o' Hin') as [x' Hx'].
  rewrite Hx, Hx' in Hl.
  rewrite (paren_tail x' x _ _ (Hparen o' Hin') (Hparen o Hin) Hl).
  reflexivity.
Qed.

Lemma X12_selected_label_runs_its_property_witness :
  exists i,
    dict_get
      (property_ids
         (options [mkAccount (Some "Shop")
                     (Some [mkProperty (Some "Web") (Some "properties/1");
                            mkProperty (Some "Web") (Some "properties/1");
                            mkProperty None (Some "properties/2")])]))
      "Shop — Web (properties/1)" = Some i.
Proof.
  apply (X12_selected_label_runs_its_property
           [mkAccount (Some "Shop")
              (Some [mkProperty (Some "Web") (Some "properties/1");
                     mkProperty (Some "Web") (Some "properties/1");
                     mkProperty None (Some "properties/2")])]
           (mkOption "Shop — Web (properties/1)" (Some "properties/1"))).
  left. reflexivity.
Defined.

(** ** Pushing to a spreadsheet *)

Lemma gbind_assoc {A B C} (m : G A) (f : A -> G B) (k : B -> G C) h :
  gbind (gbind m f) k h = gbind m (fun a => gbind (f a) k) h.
Proof. unfold gbind. destruct (m h) as [h' [e | a]]; reflexivity. Qed.

Lemma perform_cons world c t h :
  perform world (c :: t) h
  = match world h c with
    | Some e => (h ++ [c], inl (Raised e))
    | None => perform world t (h ++ [c])
    end.
Proof.
  unfold perform. cbn [gfor_each]. unfold gbind, call.
  destruct (world h c); reflexivity.
Qed.

Lemma perform_step {A} world c c' t (K k : unit -> G A) h :
  c = c' ->
  (forall h', K tt h' = gbind (perform world t) k h') ->
  gbind (call world c) K h = gbind (perform world (c' :: t)) k h.
Proof.
  intros <- Hk. unfold gbind at 1 2. rewrite perform_cons. unfold call.
  destruct (world h c); [reflexivity |]. rewrite Hk. reflexivity.
Qed.

Lemma perform_app {A} world t1 t2 (k : unit -> G A) h :
  gbind (perform world (t1 ++ t2)) k h
  = gbind (perform world t1) (fun _ => gbind (perform world t2) k) h.
Proof.
  revert h. induction t1 as [| c t1 IH]; intros h; [reflexivity |].
  cbn [app]. unfold gbind at 1 2. rewrite !perform_cons.
  destruct (world h c); [reflexivity |].
  specialize (IH (h ++ [c])). unfold gbind at 1 3 in IH. exact IH.
Qed.

Lemma rows_loop {A X} world ws (items : list X) (cells : X -> cell * cell)
    (K : Z -> G A) (k : unit -> G A) t :
  forall row h,
    (forall h', K (row + Z.of_nat (List.length items)) h'
                = gbind (perform world t) k h') ->
    gbind (gfor_each items
             (fun row x =>
                gbind (call world (Update ws (mkCell ColA row) (fst (cells x))))
                  (fun _ =>
                     gbind (call world
                              (Update ws (mkCell ColB row) (snd (cells x))))
                       (fun _ => gret (row + 1))))
             row) K h
    = gbind (perform world (row_calls ws row (map cells items) ++ t)) k h.
Proof.
  induction items as [| x items IH]; intros row h Hk.
  - cbn [List.length Z.of_nat] in Hk. rewrite Z.add_0_r in Hk.
    cbn [gfor_each map row_calls app]. apply Hk.
  - cbn [gfor_each map row_calls]. destruct (cells x) as [a b] eqn:Hx.
    cbn [fst snd app].
    rewrite gbind_assoc. rewrite gbind_assoc.
    apply perform_step; [reflexivity | intros h1].
    rewrite gbind_assoc.
    apply perform_step; [reflexivity | intros h2].
    change (gbind (gfor_each items
             (fun row x =>
                gbind (call world (Update ws (mkCell ColA row) (fst (cells x))))
                  (fun _ =>
                     gbind (call world
                              (Update ws (mkCell ColB row) (snd (cells x))))
                       (fun _ => gret (row + 1))))
             (row + 1)) K h2
            = gbind (perform world
                       (row_calls ws (row + 1) (map cells items) ++ t)) k h2).
    apply IH. intros h'. rewrite <- Hk. f_equal.
    cbn [List.length]. lia.
Qed.

Ltac same_call :=
  solve [ reflexivity
        | unfold funnel_row, transactions_row, block_rows;
          cbn [List.length];
          repeat (f_equal; try lia) ].

Ltac call_step :=
  first [ apply perform_step; [same_call | intros ?]
        | rewrite gbind_assoc; apply perform_step; [same_call | intros ?] ].

Lemma rows_loop_at {A X} world ws (items : list X)
    (cells : X -> cell * cell) (K : Z -> G A) (k : unit -> G A) t
    row row' cs h :
  cs = map cells items ->
  row' = row ->
  (forall h', K (row + Z.of_nat (List.length items)) h'
              = gbind (perform world t) k h') ->
  gbind (gfor_each items
           (fun row x =>
              gbind (call world (Update ws (mkCell ColA row) (fst (cells x))))
                (fun _ =>
                   gbind (call world
                            (Update ws (mkCell ColB row) (snd (cells x))))
                     (fun _ => gret (row + 1))))
           row) K h
  = gbind (perform world (row_calls ws row' cs ++ t)) k h.
Proof. intros -> ->. apply rows_loop. Qed.

Lemma gbind_gret {A B} (a : A) (f : A -> G B) h :
  gbind (gret a) f h = f a h.
Proof. reflexivity. Qed.

Ltac block_step cells :=
  rewrite gbind_assoc;
  match goal with
  | |- gbind (gret _) _ _ = _ => rewrite gbind_gret; cbv beta
  | |- _ =>
      rewrite gbind_assoc;
      apply perform_step; [same_call | intros ?];
      apply (rows_loop_at _ _ _ cells); [reflexivity | same_call | intros ?]
  end.

Lemma write_report_calls {A} world generated ws name a f ms ds
    (k : unit -> G A) h :
  gbind (write_report world generated ws name a f ms ds) k h
  = gbind (perform world (count_calls ws name generated a f ms ds))
      (fun _ =>
         match funnel_rates f with
         | inl e => gabort (Failed e)
         | inr rates =>
             gbind (perform world
                      (rate_calls ws (funnel_row ms ds) rates
                       ++ format_calls ws)) k
         end) h.
Proof.
  unfold write_report, count_calls.
  cbn [app].
  do 17 call_step.
  destruct ms as [| m ms]; cbn [map block_calls app];
    block_step medium_cells; do 5 call_step;
    (destruct ds as [| d ds]; cbn [map block_calls app];
     block_step duplicate_cells; do 9 call_step;
     rewrite gbind_assoc;
     (destruct (funnel_rates f) as [e | [r |]]; [reflexivity | |]);
     unfold rate_calls, format_calls; cbn [app glift];
     rewrite gbind_gret; cbv beta; rewrite ?gbind_assoc, ?gbind_gret;
     repeat call_step; reflexivity).
Qed.

Lemma calmly_app world h t1 t2 :
  calmly world h t1 -> calmly world (h ++ t1) t2 ->
  calmly world h (t1 ++ t2).
Proof.
  revert h. induction t1 as [| c t1 IH]; intros h H1 H2; cbn [app calmly] in *.
  - rewrite app_nil_r in H2. exact H2.
  - destruct H1 as [Hc H1]. split; [exact Hc |].
    apply IH; [exact H1 |]. rewrite <- app_assoc. exact H2.
Qed.

Lemma calmly_app_inv world h t1 t2 :
  calmly world h (t1 ++ t2) ->
  calmly world h t1 /\ calmly world (h ++ t1) t2.
Proof.
  revert h. induction t1 as [| c t1 IH]; intros h H; cbn [app calmly] in *.
  - rewrite app_nil_r. split; [exact I | exact H].
  - destruct H as [Hc H]. destruct (IH _ H) as [H1 H2].
    rewrite <- app_assoc in H2. repeat split; assumption.
Qed.

Lemma calmly_at world h t p c q :
  calmly world h t -> t = p ++ c :: q -> answered world (h ++ p) c.
Proof.
  intros H ->. apply calmly_app_inv in H. destruct H as [_ [H _]]. exact H.
Qed.

Lemma calmly_before_last world h t p c q :
  calmly world h (removelast t) -> t = p ++ c :: q -> q <> [] ->
  answered world (h ++ p) c.
Proof.
  intros H -> Hq.
  rewrite removelast_app in H by discriminate.
  cbn [removelast] in H. destruct q as [| c' q]; [congruence |].
  apply calmly_app_inv in H. destruct H as [_ [H _]]. exact H.
Qed.

Lemma calmly_removelast world h t :
  calmly world h t -> calmly world h (removelast t).
Proof.
  revert h. induction t as [| c t IH]; intros h Hq; [exact I |].
  destruct t as [| c' t]; [exact I |].
  change (removelast (c :: c' :: t)) with (c :: removelast (c' :: t)).
  destruct Hq as [Hc Hq]. split; [exact Hc |]. apply IH. exact Hq.
Qed.

Lemma perform_cases world t h :
  (calmly world h t /\ perform world t h = (h ++ t, inr tt)) \/
  (exists pre c post e,
      t = pre ++ c :: post /\ calmly world h pre /\
      world (h ++ pre) c = Some e /\
      perform world t h = (h ++ pre ++ [c], inl (Raised e))).
Proof.
  revert h. induction t as [| c t IH]; intros h.
  - left. split; [exact I |]. rewrite app_nil_r. reflexivity.
  - rewrite perform_cons. destruct (world h c) as [e |] eqn:Hw.
    + right. exists [], c, t, e. cbn [app]. rewrite app_nil_r.
      repeat split; assumption.
    + destruct (IH (h ++ [c]))
        as [[Hq Hp] | (pre & c' & post & e & -> & Hq & Hw' & Hp)].
      * left. split; [split; [left; exact Hw | exact Hq] |].
        rewrite Hp, <- app_assoc. reflexivity.
      * right. exists (c :: pre), c', post, e.
        rewrite <- app_assoc in Hw'. rewrite <- app_assoc in Hp.
        repeat split; try assumption. left. exact Hw.
Qed.

Lemma report_cases world generated ws name a f ms ds h :
  exists pre post r,
    gbind (write_report world generated ws name a f ms ds)
          (fun _ => gret name) h = (h ++ pre, r) /\
    report_calls ws name generated a f ms ds (rates_of f) = pre ++ post /\
    calmly world h (removelast pre) /\
    match r with
    | inr n => n = name /\ post = [] /\ calmly world h pre /\
               exists rates, funnel_rates f = inr rates
    | inl (Failed e) => funnel_rates f = inl e
    | inl (Raised e) => exists p c, pre = p ++ [c] /\
                                    world (h ++ p) c = Some e
    | inl (Return _) => False
    end.
Proof.
  rewrite write_report_calls. unfold report_calls, rates_of.
  remember (count_calls ws name generated a f ms ds) as t1 eqn:Et1.
  clear Et1. unfold gbind at 1.
  destruct (perform_cases world t1 h)
    as [[Hq Hp] | (pre & c & post & e & Ht & Hq & Hw & Hp)]; rewrite Hp.
  - destruct (funnel_rates f) as [e | rates] eqn:Hr.
    + exists t1, (rate_calls ws (funnel_row ms ds) None ++ format_calls ws),
        (inl (Failed e)).
      split; [reflexivity |]. split; [reflexivity |].
      split; [apply calmly_removelast; exact Hq | reflexivity].
    + remember (rate_calls ws (funnel_row ms ds) rates ++ format_calls ws)
        as t2 eqn:Et2.
      clear Et2. unfold gbind.
      destruct (perform_cases world t2 (h ++ t1))
        as [[Hq2 Hp2] | (pre & c & post & e & Ht & Hq2 & Hw & Hp2)];
        rewrite Hp2.
      * exists (t1 ++ t2), [], (inr name). rewrite app_nil_r, <- app_assoc.
        assert (Hall : calmly world h (t1 ++ t2))
          by (apply calmly_app; assumption).
        split; [reflexivity |]. split; [reflexivity |].
        split; [apply calmly_removelast; exact Hall |].
        split; [reflexivity |]. split; [reflexivity |].
        split; [exact Hall | exists rates; reflexivity].
      * exists (t1 ++ pre ++ [c]), post, (inl (Raised e)).
        split; [rewrite <- ?app_assoc; reflexivity |].
        split; [rewrite Ht, <- ?app_assoc; reflexivity |].
        split.
        -- rewrite app_assoc, removelast_last.
           apply calmly_app; [exact Hq | exact Hq2].
        -- exists (t1 ++ pre), c. rewrite <- ?app_assoc.
           split; [reflexivity |].
           rewrite <- app_assoc in Hw. exact Hw.
  - exists (pre ++ [c]),
      (post ++ rate_calls ws (funnel_row ms ds)
                 match funnel_rates f with
                 | inl _ => None
                 | inr rates => rates
                 end ++ format_calls ws),
      (inl (Raised e)).
    split; [rewrite <- ?app_assoc; reflexivity |].
    split; [rewrite Ht, <- ?app_assoc; reflexivity |].
    split; [rewrite removelast_last; exact Hq |].
    exists pre, c. split; [reflexivity | exact Hw].
Qed.

Lemma gbind_call {A} world c (K : unit -> G A) h :
  gbind (call world c) K h
  = match world h c with
    | Some e => (h ++ [c], inl (Raised e))
    | None => K tt (h ++ [c])
    end.
Proof. unfold gbind, call. destruct (world h c); reflexivity. Qed.

Lemma open_by_key_run {A} world has_APIError sheet_id (K : unit -> G A) h :
  gbind (open_by_key world has_APIError sheet_id) K h
  = match world h (OpenByKey sheet_id) with
    | None => K tt (h ++ [OpenByKey sheet_id])
    | Some e =>
        (h ++ [OpenByKey sheet_id],
         inl match kind e with
             | SpreadsheetNotFound => Return spreadsheet_not_found_message
             | k =>
                 if has_APIError then
                   match k with
                   | APIError => Return (api_error_prefix ++ text e)%string
                   | _ => Raised e
                   end
                 else Raised no_APIError
             end)
    end.
Proof.
  unfold gbind, open_by_key, gcatch, call.
  destruct (world h (OpenByKey sheet_id)) as [e |]; [| reflexivity].
  destruct (kind e), has_APIError; reflexivity.
Qed.

Lemma add_worksheet_run {A} world timestamp name (K : worksheet -> G A) h :
  gbind (add_worksheet world timestamp name) K h
  = match world h (AddWorksheet name 100 10) with
    | None => K (Added name) (h ++ [AddWorksheet name 100 10])
    | Some e =>
        match kind e with
        | WorksheetNotFound =>
            gbind (perform world (fallback_calls timestamp))
                  (fun _ => K (Named "Sheet1"))
                  (h ++ [AddWorksheet name 100 10])
        | _ => (h ++ [AddWorksheet name 100 10], inl (Raised e))
        end
    end.
Proof.
  unfold add_worksheet, gcatch, perform, fallback_calls. cbn [gfor_each].
  unfold gbind, call, gret.
  destruct (world h (AddWorksheet name 100 10)) as [e |]; [| reflexivity].
  destruct (kind e); try reflexivity.
  repeat (match goal with
          | |- context [match world ?h ?c with _ => _ end] =>
              destruct (world h c)
          end; try reflexivity).
Qed.

(** The outcome of the body, case by case. *)
Lemma push_body_cases world has_APIError timestamp generated creds sheet_id
    a f ms ds :
  exists fallback pre post r,
    push_body world has_APIError timestamp generated creds sheet_id
              a f ms ds []
    = (pre, r) /\
    push_plan creds sheet_id timestamp generated fallback a f ms ds
    = pre ++ post /\
    pre <> [] /\
    calmly world [] (removelast pre) /\
    (fallback = true ->
     exists e,
       world [Authorize creds; OpenByKey sheet_id]
             (AddWorksheet ("GA4 Audit V2 - " ++ timestamp) 100 10) = Some e
       /\ kind e = WorksheetNotFound) /\
    match r with
    | inr n => n = ("GA4 Audit V2 - " ++ timestamp)%string /\ post = [] /\
               calmly world [] pre /\
               exists rates, funnel_rates f = inr rates
    | inl (Failed e) => funnel_rates f = inl e
    | inl (Raised _) => exists p c e, pre = p ++ [c] /\ world p c = Some e
    | inl (Return m) =>
        exists e, pre = [Authorize creds; OpenByKey sheet_id] /\
                  world [Authorize creds] (OpenByKey sheet_id) = Some e
    end.
Proof.
  unfold push_body, push_plan.
  set (name := ("GA4 Audit V2 - " ++ timestamp)%string).
  rewrite gbind_call. cbn [app].
  destruct (world [] (Authorize creds)) as [e1 |] eqn:H1.
  { exists false, [Authorize creds]. eexists. exists (inl (Raised e1)).
    split; [reflexivity |]. split; [reflexivity |].
    split; [discriminate |]. split; [exact I |].
    split; [discriminate |].
    exists [], (Authorize creds), e1. split; [reflexivity | exact H1]. }
  rewrite open_by_key_run. cbn [app].
  destruct (world [Authorize creds] (OpenByKey sheet_id)) as [e2 |] eqn:H2.
  { exists false, [Authorize creds; OpenByKey sheet_id]. eexists. eexists.
    split; [reflexivity |]. split; [reflexivity |].
    split; [discriminate |].
    split; [split; [left; exact H1 | exact I] |].
    split; [discriminate |].
    destruct (kind e2), has_APIError;
      first [ exists e2; split; reflexivity
            | exists [Authorize creds], (OpenByKey sheet_id), e2;
              split; [reflexivity | exact H2] ]. }
  rewrite add_worksheet_run. cbn [app].
  set (h2 := [Authorize creds; OpenByKey sheet_id]).
  set (add := AddWorksheet name 100 10).
  assert (Hh2 : calmly world [] h2)
    by (split; [left; exact H1 | split; [left; exact H2 | exact I]]).
  change [Authorize creds; OpenByKey sheet_id; add] with (h2 ++ [add]).
  destruct (world h2 add) as [e3 |] eqn:H3.
  - destruct (kind e3) eqn:Hk3.
    1, 3, 4:
      exists false, (h2 ++ [add]); eexists; exists (inl (Raised e3));
      (split; [reflexivity |]); (split; [reflexivity |]);
      (split; [discriminate |]); (split; [exact Hh2 |]);
      (split; [discriminate |]);
      exists h2, add, e3; split; [reflexivity | exact H3].
    (* the worksheet "Sheet1" takes the report *)
    assert (Hh3 : calmly world [] (h2 ++ [add])).
    { apply calmly_app; [exact Hh2 |].
      split; [| exact I]. right. exists name, e3. repeat split; assumption. }
    unfold gbind at 1.
    destruct (perform_cases world (fallback_calls timestamp) (h2 ++ [add]))
      as [[Hq Hp] | (pre & c & post & e & Ht & Hq & Hw & Hp)]; rewrite Hp.
    + destruct (report_cases world generated (Named "Sheet1") name a f ms ds
                  ((h2 ++ [add]) ++ fallback_calls timestamp))
        as (pre & post & r & Hrun & Hplan & Hcalm & Hr).
      rewrite Hrun.
      assert (Hh4 : calmly world []
                      ((h2 ++ [add]) ++ fallback_calls timestamp))
        by (apply calmly_app; assumption).
      exists true, (((h2 ++ [add]) ++ fallback_calls timestamp) ++ pre),
        post, r.
      split; [reflexivity |].
      split; [rewrite Hplan, <- !app_assoc; reflexivity |].
      split; [discriminate |].
      split.
      { destruct pre as [| c pre].
        - rewrite app_nil_r. apply calmly_removelast. exact Hh4.
        - rewrite removelast_app by discriminate.
          apply calmly_app; assumption. }
      split; [intros _; exists e3; split; [reflexivity | exact Hk3] |].
      destruct r as [[m | e | e] | n].
      * destruct Hr.
      * destruct Hr as (p & c & -> & Hw).
        exists (((h2 ++ [add]) ++ fallback_calls timestamp) ++ p), c, e.
        split; [rewrite <- !app_assoc; reflexivity | exact Hw].
      * exact Hr.
      * destruct Hr as (-> & -> & Hc & Hrt).
        split; [reflexivity |]. split; [reflexivity |].
        split; [apply calmly_app; assumption | exact Hrt].
    + exists true, ((h2 ++ [add]) ++ pre ++ [c]). eexists.
      exists (inl (Raised e)).
      split; [rewrite <- ?app_assoc; reflexivity |].
      split; [rewrite Ht, <- !app_assoc; cbn [app]; reflexivity |].
      split; [discriminate |].
      split.
      { rewrite app_assoc, removelast_last.
        apply calmly_app; assumption. }
      split; [intros _; exists e3; split; [reflexivity | exact Hk3] |].
      exists ((h2 ++ [add]) ++ pre), c, e.
      split; [rewrite <- !app_assoc; reflexivity | exact Hw].
  - assert (Hh3 : calmly world [] (h2 ++ [add])).
    { apply calmly_app; [exact Hh2 |]. split; [left; exact H3 | exact I]. }
    destruct (report_cases world generated (Added name) name a f ms ds
                (h2 ++ [add]))
      as (pre & post & r & Hrun & Hplan & Hcalm & Hr).
    rewrite Hrun.
    exists false, ((h2 ++ [add]) ++ pre), post, r.
    split; [reflexivity |].
    split; [cbn [app]; rewrite Hplan; reflexivity |].
    split; [discriminate |].
    split.
    { destruct pre as [| c pre].
      - rewrite app_nil_r. apply calmly_removelast. exact Hh3.
      - rewrite removelast_app by discriminate.
        apply calmly_app; assumption. }
    split; [discriminate |].
    destruct r as [[m | e | e] | n].
    * destruct Hr.
    * destruct Hr as (p & c & -> & Hw).
      exists ((h2 ++ [add]) ++ p), c, e.
      split; [rewrite <- !app_assoc; reflexivity | exact Hw].
    * exact Hr.
    * destruct Hr as (-> & -> & Hc & Hrt).
      split; [reflexivity |]. split; [reflexivity |].
      split; [apply calmly_app; assumption | exact Hrt].
Qed.


Section Push.

Variable world : list gcall -> gcall -> option raised.
Variable has_APIError : bool.
Variable refresh : Credentials -> option Credentials.
Variables timestamp generated sheet_url : string.
Variable a : AuditData.
Variable f : FunnelData.
Variable ms : list Medium.
Variable ds : list Duplicate.
Variable sheets_creds : option (option Credentials).

Local Notation "'o'" :=
  (push_to_google_sheet world has_APIError refresh timestamp generated
     sheet_url
                        a f ms ds sheets_creds) (only parsing).
Local Notation "'name'" :=
  ("GA4 Audit V2 - " ++ timestamp)%string (only parsing).

(** A push is turned down before any call, or it makes a part of the
    planned calls, from the first one on. *)
Lemma push_cases :
  (calls o = [] /\ success o = false /\
   ((forall c s, extract_sheet_id_from_url sheet_url <> Some (String c s)) \/
    snd (get_google_sheets_auth refresh sheets_creds) = None)) \/
  (exists creds sheet_id fallback post,
      extract_sheet_id_from_url sheet_url = Some sheet_id /\
      get_google_sheets_auth refresh sheets_creds = (session o, Some creds) /\
      push_plan creds sheet_id timestamp generated fallback a f ms ds
      = calls o ++ post /\
      calls o <> [] /\
      calmly world [] (removelast (calls o)) /\
      (fallback = true ->
       exists e,
         world [Authorize creds; OpenByKey sheet_id]
               (AddWorksheet name 100 10) = Some e
         /\ kind e = WorksheetNotFound) /\
      (success o = true ->
       post = [] /\ calmly world [] (calls o) /\
       sheet_name o = Some name /\ shown o = [] /\
       exists rates, funnel_rates f = inr rates) /\
      (success o = false ->
       sheet_name o = None /\ (exists n, shown o = [n]) /\
       ((exists e, funnel_rates f = inl e) \/
        exists p c e, calls o = p ++ [c] /\ world p c = Some e))).
Proof.
  unfold push_to_google_sheet.
  destruct (extract_sheet_id_from_url sheet_url) as [[| c0 s0] |] eqn:Hid.
  1, 3: left; cbn; repeat split; left; intros c s; congruence.
  destruct (get_google_sheets_auth refresh sheets_creds)
    as [session' [creds |]] eqn:Hauth.
  2: left; cbn; repeat split; right; reflexivity.
  right.
  destruct (push_body_cases world has_APIError timestamp generated creds
              (String c0 s0)
              a f ms ds)
    as (fallback & pre & post & r & Hrun & Hplan & Hne & Hcalm & Hfb & Hr).
  rewrite Hrun.
  exists creds, (String c0 s0), fallback, post.
  destruct r as [[m | e | e] | n]; cbn [calls success session sheet_name shown].
  - repeat (split; [first [reflexivity | assumption] |]).
    split; [discriminate |]. intros _.
    split; [reflexivity |]. split; [eexists; reflexivity |].
    right. destruct Hr as (e & -> & Hw).
    exists [Authorize creds], (OpenByKey (String c0 s0)), e.
    split; [reflexivity | exact Hw].
  - repeat (split; [first [reflexivity | assumption] |]).
    split; [discriminate |]. intros _.
    split; [reflexivity |]. split; [eexists; reflexivity |].
    right. destruct Hr as (p & c & e0 & -> & Hw). exists p, c, e0.
    split; [reflexivity | exact Hw].
  - repeat (split; [first [reflexivity | assumption] |]).
    split; [discriminate |]. intros _.
    split; [reflexivity |]. split; [eexists; reflexivity |].
    left. exists e. exact Hr.
  - repeat (split; [first [reflexivity | assumption] |]).
    destruct Hr as (-> & -> & Hc & Hrt).
    split; [| discriminate]. intros _.
    repeat (split; [first [reflexivity | assumption] |]). exact Hrt.
Qed.

Lemma row_calls_write ws row items :
  Forall (fun c => exists r v, c = Update ws r v) (row_calls ws row items).
Proof.
  revert row. induction items as [| [x y] items IH]; intros row;
    cbn [row_calls]; [constructor |].
  constructor; [eexists; eexists; reflexivity |].
  constructor; [eexists; eexists; reflexivity | apply IH].
Qed.

Lemma block_calls_write ws row title items :
  Forall (fun c => exists r v, c = Update ws r v)
         (block_calls ws row title items).
Proof.
  destruct items as [| x items]; [constructor |].
  unfold block_calls. constructor; [eexists; eexists; reflexivity |].
  apply row_calls_write.
Qed.

Lemma count_calls_write ws n g :
  Forall (fun c => exists r v, c = Update ws r v)
         (count_calls ws n g a f ms ds).
Proof.
  unfold count_calls.
  repeat (apply Forall_app; split);
    try apply block_calls_write;
    repeat (constructor; [eexists; eexists; reflexivity |]); constructor.
Qed.

Lemma rate_calls_write ws r4 rates :
  Forall (fun c => exists r v, c = Update ws r v) (rate_calls ws r4 rates).
Proof.
  destruct rates as [r |]; unfold rate_calls;
    repeat (constructor; [eexists; eexists; reflexivity |]); constructor.
Qed.

(** The report is made of updates and formats of the one worksheet. *)
Lemma report_calls_write ws n g rates :
  Forall (fun c => match c with
                   | Update w _ _ | Format w _ _ _ _ => w = ws
                   | _ => False
                   end)
         (report_calls ws n g a f ms ds rates).
Proof.
  unfold report_calls.
  apply Forall_app. split; [| apply Forall_app; split].
  - eapply Forall_impl; [| apply count_calls_write].
    intros c (r & v & ->). reflexivity.
  - eapply Forall_impl; [| apply rate_calls_write].
    intros c (r & v & ->). reflexivity.
  - unfold format_calls. repeat constructor.
Qed.

(** X13.  Every call of a push uses what the two checks let through: the
    client is authorized with the credential that
    [get_google_sheets_auth] returned, and the spreadsheet that is opened
    is the one whose id was extracted from the URL; without such an id or
    without a credential no call is made at all. *)
Theorem X13_push_opens_the_named_sheet :
  (forall c, In c (calls o) ->
     match c with
     | Authorize creds =>
         snd (get_google_sheets_auth refresh sheets_creds) = Some creds
     | OpenByKey key => extract_sheet_id_from_url sheet_url = Some key
     | _ => True
     end) /\
  (extract_sheet_id_from_url sheet_url = None \/
   snd (get_google_sheets_auth refresh sheets_creds) = None ->
   calls o = [] /\ success o = false).
Proof.
  destruct push_cases
    as [(Hc & Hs & Hwhy)
       | (creds & sheet_id & fallback & post & Hid & Hauth & Hplan & Hrest)].
  - split; [rewrite Hc; intros c [] | intros _; split; assumption].
  - split.
    + intros c Hin.
      assert (Hin' : In c (push_plan creds sheet_id timestamp generated
                             fallback a f ms ds))
        by (rewrite Hplan; apply in_or_app; left; exact Hin).
      unfold push_plan in Hin'. cbn [app] in Hin'.
      destruct Hin' as [<- | [<- | [<- | Hin']]];
        [rewrite Hauth; reflexivity | exact Hid | exact I |].
      apply in_app_or in Hin'. destruct Hin' as [Hin' | Hin'].
      * destruct fallback; [| destruct Hin'].
        destruct Hin' as [<- | [<- | [<- | []]]]; exact I.
      * pose proof (report_calls_write
                      (if fallback then Named "Sheet1" else Added name)
                      name generated (rates_of f)) as Hw.
        rewrite Forall_forall in Hw. specialize (Hw c Hin').
        destruct c; try exact I; destruct Hw.
    + rewrite Hid, Hauth. intros [H | H]; discriminate.
Qed.

(** X14.  A push stops at the first call that raises and undoes nothing:
    every call but the last was answered ([add_worksheet] may have raised
    [WorksheetNotFound], which is caught), after a success the last one
    too; and a push that made calls and failed has its last call raise,
    unless the arithmetic of the rates failed. *)
Theorem X14_push_stops_at_first_failure :
  (forall p c q, calls o = p ++ c :: q -> q <> [] -> answered world p c) /\
  (success o = true ->
   forall p c q, calls o = p ++ c :: q -> answered world p c) /\
  (success o = false -> calls o <> [] ->
   (exists e, funnel_rates f = inl e) \/
   exists p c e, calls o = p ++ [c] /\ world p c = Some e).
Proof.
  destruct push_cases
    as [(Hc & Hs & Hwhy)
       | (creds & sheet_id & fallback & post & Hid & Hauth & Hplan & Hne
          & Hcalm & Hfb & Hok & Hko)].
  - rewrite Hc, Hs. split; [| split].
    + intros p c q H. destruct p; discriminate.
    + discriminate.
    + intros _ H. congruence.
  - split; [| split].
    + intros p c q H Hq.
      apply (calmly_before_last world [] _ p c q Hcalm H Hq).
    + intros Hs p c q H. destruct (Hok Hs) as (_ & Hall & _).
      apply (calmly_at world [] _ p c q Hall H).
    + intros Hs _. destruct (Hko Hs) as (_ & _ & H). exact H.
Qed.

Lemma chain_weaken lo lo' l hi : lo <= lo' -> chain lo' l hi -> chain lo l hi.
Proof. destruct l; cbn [chain]; intros; [lia | intuition lia]. Qed.

Lemma chain_raise lo l hi hi' : chain lo l hi -> hi <= hi' -> chain lo l hi'.
Proof.
  revert lo. induction l as [| x l IH]; intros lo H Hhi; cbn [chain] in *;
    [lia |].
  destruct H as [Hx H]. split; [exact Hx | apply IH; assumption].
Qed.

Lemma chain_app lo l1 mid l2 hi :
  chain lo l1 mid -> chain mid l2 hi -> chain lo (l1 ++ l2) hi.
Proof.
  revert lo. induction l1 as [| x l1 IH]; intros lo H1 H2; cbn [app chain] in *.
  - apply (chain_weaken lo mid); assumption.
  - destruct H1 as [Hx H1]. split; [exact Hx | apply IH; assumption].
Qed.

Lemma chain_lower lo l hi x : chain lo l hi -> In x l -> lo <= x.
Proof.
  revert lo. induction l as [| y l IH]; intros lo H Hin; [destruct Hin |].
  destruct H as [Hy H]. destruct Hin as [<- | Hin]; [exact Hy |].
  specialize (IH _ H Hin). lia.
Qed.

Lemma chain_NoDup lo l hi : chain lo l hi -> NoDup l.
Proof.
  revert lo. induction l as [| x l IH]; intros lo H; [constructor |].
  destruct H as [_ H]. constructor; [| apply (IH _ H)].
  intros Hin. pose proof (chain_lower _ _ _ _ H Hin). lia.
Qed.

Lemma keys_app l1 l2 : keys (l1 ++ l2) = keys l1 ++ keys l2.
Proof. unfold keys, updated. rewrite flat_map_app, map_app. reflexivity. Qed.

Lemma chain_rows ws items :
  forall row,
    chain (2 * row) (keys (row_calls ws row items))
          (2 * (row + Z.of_nat (List.length items))).
Proof.
  induction items as [| [x y] items IH]; intros row.
  - unfold keys, updated.
    cbn [row_calls flat_map map chain List.length Z.of_nat]. lia.
  - cbn [row_calls]. change (keys (?u :: ?v :: ?t))
      with (cell_key (mkCell ColA row) :: cell_key (mkCell ColB row)
            :: keys (row_calls ws (row + 1) items)).
    cbn [chain List.length]. unfold cell_key. cbn [cell_col cell_row].
    split; [lia |]. split; [lia |].
    specialize (IH (row + 1)).
    replace (2 * row + 1 + 1) with (2 * (row + 1)) by lia.
    replace (2 * (row + Z.of_nat (S (List.length items))))
      with (2 * (row + 1 + Z.of_nat (List.length items))) by lia.
    exact IH.
Qed.

Lemma chain_block {X} ws row title (cells : X -> cell * cell) items :
  chain (2 * row) (keys (block_calls ws row title (map cells items)))
        (2 * (row + block_rows items)).
Proof.
  destruct items as [| x items];
    [unfold keys, updated, block_rows;
     cbn [map block_calls flat_map chain]; lia |].
  unfold block_calls, block_rows. cbn [map].
  change (keys (?u :: ?t))
    with (cell_key (mkCell ColA row)
          :: keys (row_calls ws (row + 1) (cells x :: map cells items))).
  cbn [chain]. unfold cell_key. cbn [cell_col cell_row]. split; [lia |].
  pose proof (chain_rows ws (cells x :: map cells items) (row + 1)) as H.
  cbn [List.length] in H. rewrite length_map in H.
  apply (chain_weaken _ (2 * (row + 1))); [lia |].
  replace (2 * (row + (1 + Z.of_nat (List.length (x :: items)))))
    with (2 * (row + 1 + Z.of_nat (S (List.length items))))
    by (cbn [List.length]; lia).
  exact H.
Qed.

Ltac chain_list :=
  unfold keys, updated; cbn [flat_map app map chain];
  unfold cell_key; cbn [cell_col cell_row];
  repeat split; lia.

(** The report's updates go through the cells in reading order. *)
Lemma chain_report ws n g rates :
  chain 2 (keys (report_calls ws n g a f ms ds rates))
        (2 * (funnel_row ms ds + 11)).
Proof.
  unfold report_calls, count_calls. rewrite !keys_app.
  assert (H3 : 0 <= block_rows ms)
    by (unfold block_rows; destruct ms; cbn [List.length]; lia).
  assert (H4 : 0 <= block_rows ds)
    by (unfold block_rows; destruct ds; cbn [List.length]; lia).
  apply (chain_app _ _ (2 * (funnel_row ms ds + 5))).
  - apply (chain_app _ _ (2 * 13)); [chain_list |].
    apply (chain_app _ _ (2 * transactions_row ms)).
    { eapply chain_raise; [apply chain_block |].
      unfold transactions_row. lia. }
    apply (chain_app _ _ (2 * (transactions_row ms + 3))); [chain_list |].
    apply (chain_app _ _ (2 * funnel_row ms ds)).
    { eapply chain_raise; [apply chain_block |].
      unfold funnel_row. lia. }
    chain_list.
  - apply (chain_app _ _ (2 * (funnel_row ms ds + 11)));
      [destruct rates; unfold rate_calls; chain_list
      | unfold keys, updated, format_calls; cbn [flat_map app map chain];
        lia].
Qed.

Lemma updated_app l1 l2 : updated (l1 ++ l2) = updated l1 ++ updated l2.
Proof. unfold updated. apply flat_map_app. Qed.

Lemma NoDup_updated_report ws n g rates :
  NoDup (updated (report_calls ws n g a f ms ds rates)).
Proof.
  apply (NoDup_map_inv cell_key).
  apply (chain_NoDup _ _ _ (chain_report ws n g rates)).
Qed.

Lemma prefix_cons {X} (pre post l : list X) (x : X) :
  pre ++ post = x :: l ->
  pre = [] \/ exists pre', pre = x :: pre' /\ pre' ++ post = l.
Proof.
  destruct pre as [| y pre]; [left; reflexivity |].
  cbn [app]. intros H. injection H as -> H. right. exists pre.
  split; [reflexivity | exact H].
Qed.

(** X15.  A push never writes a cell twice, so nothing it wrote is
    overwritten; the one exception is [A1] of ["Sheet1"], which gets a
    title and then the heading when [add_worksheet] had raised
    [WorksheetNotFound]. *)
Theorem X15_push_never_overwrites :
  (~ In (GetWorksheet "Sheet1") (calls o) -> NoDup (updated (calls o))) /\
  NoDup (tl (updated (calls o))).
Proof.
  destruct push_cases
    as [(Hc & Hs & Hwhy)
       | (creds & sheet_id & fallback & post & Hid & Hauth & Hplan & _)].
  - rewrite Hc. split; [intros _ |]; constructor.
  - unfold push_plan in Hplan.
    pose proof (NoDup_updated_report
                  (if fallback then Named "Sheet1" else Added name)
                  name generated (rates_of f)) as Hnd.
    revert Hplan Hnd.
    generalize (report_calls (if fallback then Named "Sheet1" else Added name)
                  name generated a f ms ds (rates_of f)) as rep.
    generalize (calls o) as cs.
    intros cs rep Hplan Hnd. symmetry in Hplan. cbn [app] in Hplan.
    destruct (prefix_cons _ _ _ _ Hplan) as [-> | (cs1 & -> & H1)];
      [split; [intros _ |]; constructor |].
    destruct (prefix_cons _ _ _ _ H1) as [-> | (cs2 & -> & H2)];
      [split; [intros _ |]; constructor |].
    destruct (prefix_cons _ _ _ _ H2) as [-> | (cs3 & -> & H3)];
      [split; [intros _ |]; constructor |].
    change (updated (Authorize creds :: OpenByKey sheet_id
                     :: AddWorksheet name 100 10 :: cs3))
      with (updated cs3).
    destruct fallback.
    + cbn [fallback_calls app] in H3.
      destruct (prefix_cons _ _ _ _ H3) as [-> | (cs4 & -> & H4)];
        [split; [intros _ |]; constructor |].
      destruct (prefix_cons _ _ _ _ H4) as [-> | (cs5 & -> & H5)];
        [split; [intros _ |]; constructor |].
      destruct (prefix_cons _ _ _ _ H5) as [-> | (cs6 & -> & H6)];
        [split; [intros _ |]; constructor |].
      split; [intros H; exfalso; apply H; cbn; tauto |].
      change (NoDup (updated cs6)). rewrite <- H6 in Hnd.
      rewrite updated_app in Hnd. apply NoDup_app_remove_r in Hnd.
      exact Hnd.
    + cbn [app] in H3. rewrite <- H3 in Hnd.
      rewrite updated_app in Hnd. apply NoDup_app_remove_r in Hnd.
      split; [intros _; exact Hnd |].
      destruct (updated cs3) as [| u us]; [constructor |].
      inversion Hnd; assumption.
Qed.

Lemma row_calls_in {X} ws (cells : X -> cell * cell) items x :
  In x items ->
  forall row,
  exists r,
    In (Update ws (mkCell ColA r) (fst (cells x)))
       (row_calls ws row (map cells items)) /\
    In (Update ws (mkCell ColB r) (snd (cells x)))
       (row_calls ws row (map cells items)).
Proof.
  induction items as [| y items IH]; intros Hin row; [destruct Hin |].
  cbn [map row_calls]. destruct (cells y) as [u v] eqn:Hy.
  destruct Hin as [-> | Hin].
  - exists row. rewrite Hy. cbn [fst snd].
    split; [left; reflexivity | right; left; reflexivity].
  - destruct (IH Hin (row + 1)) as (r & HA & HB). exists r.
    split; right; right; assumption.
Qed.

Lemma block_calls_in {X} ws row title (cells : X -> cell * cell) items x :
  In x items ->
  exists r,
    In (Update ws (mkCell ColA r) (fst (cells x)))
       (block_calls ws row title (map cells items)) /\
    In (Update ws (mkCell ColB r) (snd (cells x)))
       (block_calls ws row title (map cells items)).
Proof.
  intros Hin. destruct (row_calls_in ws cells items x Hin (row + 1))
    as (r & HA & HB).
  exists r. destruct items as [| y items]; [destruct Hin |].
  unfold block_calls. cbn [map] in *. split; right; assumption.
Qed.

(** The plan of a push that went through is all there. *)
Lemma successful_calls :
  success o = true ->
  exists creds sheet_id fallback,
    calls o = push_plan creds sheet_id timestamp generated fallback
                        a f ms ds /\
    sheet_name o = Some name /\
    (fallback = true ->
     exists e,
       world [Authorize creds; OpenByKey sheet_id]
             (AddWorksheet name 100 10) = Some e
       /\ kind e = WorksheetNotFound).
Proof.
  intros Hs.
  destruct push_cases
    as [(Hc & Hs' & Hwhy)
       | (creds & sheet_id & fallback & post & Hid & Hauth & Hplan & Hne
          & Hcalm & Hfb & Hok & Hko)]; [congruence |].
  destruct (Hok Hs) as (-> & _ & Hn & _).
  rewrite app_nil_r in Hplan.
  exists creds, sheet_id, fallback.
  split; [symmetry; exact Hplan | split; [exact Hn | exact Hfb]].
Qed.

(** X16.  A push that returns success has written every unassigned medium
    with its sessions and every duplicate transaction id with its count,
    each pair side by side in one row: all of them, not only the ten that
    the page lists. *)
Theorem X16_successful_push_writes_every_item :
  success (push_to_google_sheet world has_APIError refresh timestamp generated
     sheet_url
                                a f ms ds sheets_creds) = true ->
  exists ws,
    (forall m, In m ms ->
       exists r,
         In (Update ws (mkCell ColA r) (CStr [Lit "- "; FStr (medium m)]))
            (calls o) /\
         In (Update ws (mkCell ColB r) (CNum (PInt (sessions m))))
            (calls o)) /\
    (forall d, In d ds ->
       exists r,
         In (Update ws (mkCell ColA r)
               (CStr [Lit "- "; FStr (transaction_id d)])) (calls o) /\
         In (Update ws (mkCell ColB r) (CNum (PInt (count d)))) (calls o)).
Proof.
  intros Hs. destruct (successful_calls Hs) as (creds & id & fb & -> & _).
  exists (if fb then Named "Sheet1" else Added name).
  unfold push_plan, report_calls, count_calls.
  split.
  - intros m Hin.
    destruct (block_calls_in (if fb then Named "Sheet1" else Added name) 13
                "Session Medium Breakdown (Unassigned):" medium_cells ms m Hin)
      as (r & HA & HB).
    exists r. split.
    + apply in_or_app; right. apply in_or_app; right. apply in_or_app; left.
      apply in_or_app; right. apply in_or_app; left. exact HA.
    + apply in_or_app; right. apply in_or_app; right. apply in_or_app; left.
      apply in_or_app; right. apply in_or_app; left. exact HB.
  - intros d Hin.
    destruct (block_calls_in (if fb then Named "Sheet1" else Added name)
                (transactions_row ms + 3)
                "Duplicate Transaction IDs:" duplicate_cells ds d Hin)
      as (r & HA & HB).
    exists r. split.
    + apply in_or_app; right. apply in_or_app; right. apply in_or_app; left.
      apply in_or_app; right. apply in_or_app; right. apply in_or_app; right.
      apply in_or_app; left. exact HA.
    + apply in_or_app; right. apply in_or_app; right. apply in_or_app; left.
      apply in_or_app; right. apply in_or_app; right. apply in_or_app; right.
      apply in_or_app; left. exact HB.
Qed.

Lemma formatted_app l1 l2 : formatted (l1 ++ l2) = formatted l1 ++ formatted l2.
Proof. unfold formatted. apply flat_map_app. Qed.

Lemma formatted_updates ws l :
  Forall (fun c => exists r v, c = Update ws r v) l -> formatted l = [].
Proof.
  induction 1 as [| c l (r & v & ->) _ IH]; [reflexivity | exact IH].
Qed.

Lemma formatted_plan creds sheet_id fallback :
  formatted (push_plan creds sheet_id timestamp generated fallback
                       a f ms ds)
  = [(mkCell ColA 1, mkCell ColB 1); (mkCell ColA 4, mkCell ColA 4);
     (mkCell ColA 8, mkCell ColA 8); (mkCell ColA 12, mkCell ColA 12);
     (mkCell ColA 16, mkCell ColA 16)].
Proof.
  unfold push_plan, report_calls. rewrite !formatted_app.
  rewrite (formatted_updates _ _ (count_calls_write _ _ _)).
  rewrite (formatted_updates _ _ (rate_calls_write _ _ _)).
  destruct fallback; reflexivity.
Qed.

(** X17.  Where the headings are and what is formatted, after a push that
    returns success.  The five formatted ranges are fixed: [A1:B1], [A4],
    [A8], [A12], [A16].  [A4] holds the heading of section 1, but [A8]
    and [A12] hold the labels of two figures, while the heading of
    section 2 is in [A10]; the heading of section 3 is in [A16] exactly
    when there is one unassigned medium, and the heading of section 4 is
    in row 18 or below. *)
Theorem X17_headings_and_formats :
  success o = true ->
  formatted (calls o)
  = [(mkCell ColA 1, mkCell ColB 1); (mkCell ColA 4, mkCell ColA 4);
     (mkCell ColA 8, mkCell ColA 8); (mkCell ColA 12, mkCell ColA 12);
     (mkCell ColA 16, mkCell ColA 16)] /\
  (exists ws,
      let heading r s := In (Update ws (mkCell ColA r) (CStr [Lit s]))
                            (calls o) in
      heading 4 "1. SESSIONS AND USERS ANALYSIS (Last 90 Days)" /\
      heading 8 "Sessions per User" /\
      heading 10 "2. UNASSIGNED TRAFFIC ANALYSIS" /\
      heading 12 "Percent of Total Sessions" /\
      heading (transactions_row ms) "3. TRANSACTIONS AND REVENUE ANALYSIS" /\
      heading (funnel_row ms ds) "4. CONVERSION FUNNEL ANALYSIS") /\
  (transactions_row ms = 16 <-> List.length ms = 1%nat) /\
  18 <= funnel_row ms ds.
Proof.
  intros Hs. destruct (successful_calls Hs) as (creds & id & fb & -> & _).
  split; [apply formatted_plan |].
  split.
  - exists (if fb then Named "Sheet1" else Added name).
    unfold push_plan, report_calls, count_calls. cbv zeta.
    repeat split;
      apply in_or_app; right; apply in_or_app; right; apply in_or_app; left.
    + apply in_or_app; left. cbn [In]. tauto.
    + apply in_or_app; left. cbn [In]. tauto.
    + apply in_or_app; left. cbn [In]. tauto.
    + apply in_or_app; left. cbn [In]. tauto.
    + apply in_or_app; right. apply in_or_app; right.
      apply in_or_app; left. left. reflexivity.
    + apply in_or_app; right. apply in_or_app; right.
      apply in_or_app; right. apply in_or_app; right. left. reflexivity.
  - unfold funnel_row, transactions_row, block_rows.
    destruct ms as [| m ms']; destruct ds as [| d ds'];
      cbn [List.length]; split; try lia; split; intros H; try lia;
      try discriminate.
Qed.

Lemma written_app l1 l2 : written (l1 ++ l2) = written l1 ++ written l2.
Proof. unfold written. apply flat_map_app. Qed.

Lemma written_report ws n g rates w :
  In w (written (report_calls ws n g a f ms ds rates)) -> w = ws.
Proof.
  pose proof (report_calls_write ws n g rates) as H.
  induction H as [| c l Hc _ IH]; [intros [] |].
  destruct c as [cr | k | t nr nc | t | w0 | w0 r v | w0 r1 r2 b s];
    try contradiction.
  - change (written (Update w0 r v :: l)) with (w0 :: written l).
    intros [<- | Hin]; [exact Hc | apply IH; exact Hin].
  - change (written (Format w0 r1 r2 b s :: l)) with (w0 :: written l).
    intros [<- | Hin]; [exact Hc | apply IH; exact Hin].
Qed.

(** X18.  The name that a successful push returns, and that the page then
    shows as the new sheet, is always that of the worksheet it asked to
    add.  When adding it went through, every write went to it.  When
    [add_worksheet] raised [WorksheetNotFound], every write went to
    ["Sheet1"], which was cleared first: the name returned is then that of
    a worksheet the push did not write. *)
Theorem X18_returned_name_and_written_sheet :
  success o = true ->
  sheet_name o = Some name /\
  snd (push_pressed world has_APIError refresh timestamp generated
                    sheet_url
                    a f ms ds sheets_creds)
  = [SuccessText
       ("✅ Data successfully pushed to Google Sheets! New sheet: '"
        ++ name ++ "'")%string] /\
  ((~ In (GetWorksheet "Sheet1") (calls o) /\
    forall w, In w (written (calls o)) -> w = Added name) \/
   (In (Clear (Named "Sheet1")) (calls o) /\
    (forall w, In w (written (calls o)) -> w = Named "Sheet1") /\
    exists p e, world p (AddWorksheet name 100 10) = Some e /\
                kind e = WorksheetNotFound)).
Proof.
  intros Hs.
  assert (Hshown : shown o = []).
  { destruct push_cases
      as [(Hc & Hs' & Hwhy)
         | (creds & sheet_id & fallback & post & Hid & Hauth & Hplan & Hne
            & Hcalm & Hfb & Hok & Hko)]; [congruence |].
    destruct (Hok Hs) as (_ & _ & _ & H & _). exact H. }
  destruct (successful_calls Hs) as (creds & id & fb & Hcalls & Hn & Hfb).
  split; [exact Hn |].
  split; [unfold push_pressed; cbn [snd]; rewrite Hshown, Hs, Hn;
          reflexivity |].
  rewrite Hcalls. unfold push_plan. destruct fb.
  - right. split; [cbn; tauto |]. split.
    + intros w Hin. rewrite !written_app in Hin.
      apply in_app_or in Hin. destruct Hin as [Hin | Hin];
        [destruct Hin |].
      apply in_app_or in Hin. destruct Hin as [Hin | Hin].
      * destruct Hin as [<- | [<- | []]]; reflexivity.
      * apply (written_report _ name generated (rates_of f)) in Hin.
        exact Hin.
    + destruct (Hfb eq_refl) as (e & He & Hk).
      exists [Authorize creds; OpenByKey id], e. split; assumption.
  - left. split.
    + intros Hin. apply in_app_or in Hin.
      destruct Hin as [Hin | Hin].
      * destruct Hin as [H | [H | [H | []]]]; discriminate.
      * cbn [app] in Hin.
        pose proof (report_calls_write (Added name) name generated
                      (rates_of f)) as Hw.
        rewrite Forall_forall in Hw. apply (Hw _ Hin).
    + intros w Hin. rewrite !written_app in Hin.
      apply in_app_or in Hin. destruct Hin as [Hin | Hin];
        [destruct Hin |].
      cbn [app] in Hin.
      apply (written_report _ name generated (rates_of f)) in Hin.
      exact Hin.
Qed.

(** X19.  When no call raises, the URL holds an id, a credential is
    returned and the rates can be computed, the push succeeds with
    exactly the planned calls; their number grows with the mediums and
    the duplicates: 39, two for each medium and each duplicate, one for
    the title of each list that is not empty, and nine for the rates. *)
Theorem X19_calm_push_succeeds (creds : Credentials) (sheet_id : string)
    (rates : option Rates) :
  (forall h c, world h c = None) ->
  extract_sheet_id_from_url sheet_url = Some sheet_id ->
  snd (get_google_sheets_auth refresh sheets_creds) = Some creds ->
  funnel_rates f = inr rates ->
  success o = true /\
  calls o = push_plan creds sheet_id timestamp generated false a f ms ds /\
  Z.of_nat (List.length (calls o))
  = 39 + (block_rows ms + Z.of_nat (List.length ms))
    + (block_rows ds + Z.of_nat (List.length ds))
    + match rates with Some _ => 9 | None => 0 end.
Proof.
  intros Hcalm Hid Hauth Hrates.
  destruct push_cases
    as [(Hc & Hs' & [Hwhy | Hwhy])
       | (creds' & sheet_id' & fallback & post & Hid' & Hauth' & Hplan & Hne
          & _ & Hfb & Hok & Hko)].
  - exfalso. destruct (search_sound _ _ Hid) as (_ & _ & _ & Hne & _).
    destruct sheet_id as [| c s]; [congruence |]. apply (Hwhy c s Hid).
  - congruence.
  - rewrite Hauth' in Hauth. cbn [snd] in Hauth.
    assert (creds' = creds) by congruence.
    assert (sheet_id' = sheet_id) by congruence. subst creds' sheet_id'.
    assert (Hs : success o = true).
    { destruct (success o); [reflexivity |].
      destruct (Hko eq_refl) as (_ & _ & [(e & He) | (p & c & e & _ & He)]);
        [congruence | rewrite Hcalm in He; discriminate]. }
    destruct (Hok Hs) as (-> & _). rewrite app_nil_r in Hplan.
    assert (fallback = false).
    { destruct fallback; [| reflexivity].
      destruct (Hfb eq_refl) as (e & He & _). rewrite Hcalm in He.
      discriminate. }
    subst fallback. split; [exact Hs |]. split; [symmetry; exact Hplan |].
    rewrite <- Hplan.
    unfold push_plan, report_calls, count_calls, rates_of.
    rewrite Hrates. cbv zeta.
    assert (Hrows : forall ws row items,
               List.length (row_calls ws row items)
               = (2 * List.length items)%nat).
    { intros ws row items. revert row.
      induction items as [| [x y] items IH]; intros row; [reflexivity |].
      cbn [row_calls List.length]. rewrite IH. lia. }
    assert (Hblock : forall X ws row title (cells : X -> cell * cell) items,
               Z.of_nat (List.length
                           (block_calls ws row title (map cells items)))
               = block_rows items + Z.of_nat (List.length items)).
    { intros X ws row title cells [| x items]; [reflexivity |].
      unfold block_calls, block_rows. cbn [map].
      change (List.length (?u :: ?t)) with (S (List.length t)) at 1.
      rewrite Hrows. cbn [List.length]. rewrite length_map. lia. }
    rewrite !length_app, !Nat2Z.inj_add, !Hblock.
    destruct rates; cbn [rate_calls format_calls List.length]; lia.
Qed.

(** X20.  After a push that fails the page shows two errors and no
    success: first the one of the push, then the general one; and no name
    is returned. *)
Theorem X20_failed_push_shows_two_errors :
  success o = false ->
  sheet_name o = None /\
  exists n,
    (forall s, n <> SuccessText s) /\
    snd (push_pressed world has_APIError refresh timestamp generated
                    sheet_url
                      a f ms ds sheets_creds)
    = [n; ErrorText push_failed_message].
Proof.
  intros Hs. unfold push_pressed. cbn [snd]. rewrite Hs.
  revert Hs. unfold push_to_google_sheet.
  destruct (extract_sheet_id_from_url sheet_url) as [[| c0 s0] |].
  1, 3: cbn; intros _; split; [reflexivity |]; eexists;
    split; [| reflexivity]; discriminate.
  destruct (get_google_sheets_auth refresh sheets_creds) as [s' [creds |]].
  2: cbn; intros _; split; [reflexivity |]; eexists;
    split; [| reflexivity]; discriminate.
  destruct (push_body _ _ _ _ _ _ _ _ _ _ _) as [cs [[m | e | e] | n]];
    cbn [success sheet_name shown app]; intros Hs;
    try discriminate;
    (split; [reflexivity |]; eexists; split; [| reflexivity]; discriminate).
Qed.

End Push.

Lemma X13_push_opens_the_named_sheet_witness :
  extract_sheet_id_from_url PushSample.url = Some "abc-1".
Proof.
  apply (proj1 (X13_push_opens_the_named_sheet calm false (fun _ => None)
                  "20260101_120000" "2026-01-01 12:00:00" PushSample.url
                  PushSample.audit PushSample.funnel PushSample.mediums
                  PushSample.duplicates (Some (Some PushSample.creds)))
               (OpenByKey "abc-1")).
  right. left. reflexivity.
Defined.

Lemma X14_push_stops_at_first_failure_witness :
  (exists e, funnel_rates PushSample.funnel = inl e) \/
  exists p c e,
    calls (PushSample.push PushSample.quota) = p ++ [c] /\
    PushSample.quota p c = Some e.
Proof.
  apply (proj2 (proj2 (X14_push_stops_at_first_failure PushSample.quota false
                         (fun _ => None)
                         "20260101_120000" "2026-01-01 12:00:00"
                         PushSample.url PushSample.audit PushSample.funnel
                         PushSample.mediums PushSample.duplicates
                         (Some (Some PushSample.creds))))).
  - vm_compute. reflexivity.
  - vm_compute. discriminate.
Defined.

Lemma X15_push_never_overwrites_witness :
  NoDup (updated (calls (PushSample.push calm))).
Proof.
  apply (proj1 (X15_push_never_overwrites calm false (fun _ => None)
                  "20260101_120000" "2026-01-01 12:00:00" PushSample.url
                  PushSample.audit PushSample.funnel PushSample.mediums
                  PushSample.duplicates (Some (Some PushSample.creds)))).
  vm_compute. intros H.
  repeat (destruct H as [H | H]; [discriminate H |]). exact H.
Defined.

Lemma X16_successful_push_writes_every_item_witness :
  exists ws,
    (forall m, In m PushSample.mediums ->
       exists r,
         In (Update ws (mkCell ColA r) (CStr [Lit "- "; FStr (medium m)]))
            (calls (PushSample.push calm)) /\
         In (Update ws (mkCell ColB r) (CNum (PInt (sessions m))))
            (calls (PushSample.push calm))) /\
    (forall d, In d PushSample.duplicates ->
       exists r,
         In (Update ws (mkCell ColA r)
               (CStr [Lit "- "; FStr (transaction_id d)]))
            (calls (PushSample.push calm)) /\
         In (Update ws (mkCell ColB r) (CNum (PInt (count d))))
            (calls (PushSample.push calm))).
Proof.
  apply (X16_successful_push_writes_every_item calm false (fun _ => None)
           "20260101_120000" "2026-01-01 12:00:00" PushSample.url
           PushSample.audit PushSample.funnel PushSample.mediums
           PushSample.duplicates (Some (Some PushSample.creds))).
  vm_compute. reflexivity.
Defined.

Lemma X17_headings_and_formats_witness :
  formatted (calls (PushSample.push calm))
  = [(mkCell ColA 1, mkCell ColB 1); (mkCell ColA 4, mkCell ColA 4);
     (mkCell ColA 8, mkCell ColA 8); (mkCell ColA 12, mkCell ColA 12);
     (mkCell ColA 16, mkCell ColA 16)] /\
  transactions_row PushSample.mediums = 16.
Proof.
  destruct (X17_headings_and_formats calm false (fun _ => None)
              "20260101_120000" "2026-01-01 12:00:00" PushSample.url
              PushSample.audit PushSample.funnel PushSample.mediums
              PushSample.duplicates (Some (Some PushSample.creds)))
    as (Hf & _ & [_ Hrow] & _).
  - vm_compute. reflexivity.
  - split; [exact Hf | apply Hrow; reflexivity].
Defined.

Lemma X18_returned_name_and_written_sheet_witness :
  sheet_name (PushSample.push PushSample.no_new_sheet)
  = Some "GA4 Audit V2 - 20260101_120000" /\
  In (Clear (Named "Sheet1"))
     (calls (PushSample.push PushSample.no_new_sheet)).
Proof.
  destruct (X18_returned_name_and_written_sheet PushSample.no_new_sheet false
              (fun _ => None)
              "20260101_120000" "2026-01-01 12:00:00" PushSample.url
              PushSample.audit PushSample.funnel PushSample.mediums
              PushSample.duplicates (Some (Some PushSample.creds)))
    as (Hn & _ & [[Hnot _] | [Hclear _]]).
  - vm_compute. reflexivity.
  - exfalso. apply Hnot. vm_compute. do 3 right. left. reflexivity.
  - split; [exact Hn | exact Hclear].
Defined.

Lemma X19_calm_push_succeeds_witness :
  success (PushSample.push calm) = true /\
  Z.of_nat (List.length (calls (PushSample.push calm))) = 56.
Proof.
  destruct (X19_calm_push_succeeds calm false (fun _ => None)
              "20260101_120000" "2026-01-01 12:00:00" PushSample.url
              PushSample.audit PushSample.funnel PushSample.mediums
              PushSample.duplicates (Some (Some PushSample.creds))
              PushSample.creds "abc-1" (rates_of PushSample.funnel))
    as (Hs & _ & Hlen).
  - intros h c. reflexivity.
  - vm_compute. reflexivity.
  - reflexivity.
  - vm_compute. reflexivity.
  - split; [exact Hs | exact Hlen].
Defined.

Lemma X20_failed_push_shows_two_errors_witness :
  sheet_name (PushSample.push PushSample.quota) = None /\
  exists n,
    (forall s, n <> SuccessText s) /\
    snd (push_pressed PushSample.quota false (fun _ => None)
           "20260101_120000" "2026-01-01 12:00:00" PushSample.url
           PushSample.audit PushSample.funnel PushSample.mediums
           PushSample.duplicates (Some (Some PushSample.creds)))
    = [n; ErrorText push_failed_message].
Proof.
  apply (X20_failed_push_shows_two_errors PushSample.quota false (fun _ => None)
           "20260101_120000" "2026-01-01 12:00:00" PushSample.url
           PushSample.audit PushSample.funnel PushSample.mediums
           PushSample.duplicates (Some (Some PushSample.creds))).
  vm_compute. reflexivity.
Defined.


(** ** The two ratio warnings in terms of the counts *)


Lemma below_one_and_a_half (k : Z) :
  0 <= k < 150 -> F64.ltb (of_hundredths k) one_and_a_half = true.
Proof.
  intros Hk.
  assert (H : forallb (fun i => F64.ltb (of_hundredths (Z.of_nat i))
                                        one_and_a_half)
                      (seq 0 150) = true) by (vm_compute; reflexivity).
  rewrite forallb_forall in H. specialize (H (Z.to_nat k)).
  rewrite Z2Nat.id in H by lia. apply H. apply in_seq. lia.
Qed.

Lemma not_below_one_and_a_half (k : Z) :
  150 <= k -> F64.ltb (of_hundredths k) one_and_a_half = false.
Proof.
  intros Hk. destruct (Z.eq_dec k 150) as [-> | Hne];
    [vm_compute; reflexivity |].
  pose proof (RN_nonneg k 100 ltac:(lia) ltac:(lia)) as Hnn.
  fold (of_hundredths k) in Hnn.
  destruct F2R_one_and_a_half as (m' & e' & -> & Hv).
  destruct (of_hundredths k) as [m e | neg |] eqn:Hof.
  - destruct (F64.ltb (Finite m e) (Finite m' e')) eqn:Hlt; [| reflexivity].
    exfalso. apply ltb_finite_real in Hlt.
    pose proof (of_hundredths_close k m e ltac:(lia) Hof) as Hc.
    apply Rabs_le_between in Hc.
    assert (Hk' : (151 <= IZR k)%R) by (apply IZR_le; lia).
    lra.
  - cbn in Hnn. subst neg. reflexivity.
  - reflexivity.
Qed.

Lemma above_twenty (k : Z) :
  2001 <= k -> F64.ltb (Finite 20 0) (of_hundredths k) = true.
Proof.
  intros Hk.
  pose proof (RN_nonneg k 100 ltac:(lia) ltac:(lia)) as Hnn.
  fold (of_hundredths k) in Hnn.
  destruct (of_hundredths k) as [m e | neg |] eqn:Hof.
  - apply ltb_finite_real.
    pose proof (of_hundredths_close k m e ltac:(lia) Hof) as Hc.
    apply Rabs_le_between in Hc.
    assert (Hk' : (2001 <= IZR k)%R) by (apply IZR_le; lia).
    unfold F2R at 1. simpl. lra.
  - cbn in Hnn. subst neg. reflexivity.
  - destruct Hnn.
Qed.

Lemma not_above_twenty (k : Z) :
  0 <= k <= 2000 -> F64.ltb (Finite 20 0) (of_hundredths k) = false.
Proof.
  intros Hk.
  assert (H : forallb (fun i => negb (F64.ltb (Finite 20 0)
                                               (of_hundredths (Z.of_nat i))))
                      (seq 0 2001) = true) by (vm_compute; reflexivity).
  rewrite forallb_forall in H. specialize (H (Z.to_nat k)).
  rewrite Z2Nat.id in H by lia. apply negb_true_iff. apply H.
  apply in_seq. lia.
Qed.

Lemma sessions_per_user_spec (s u : Z) :
  0 <= s < 2 ^ 45 -> 0 < u ->
  exists k, sessions_per_user s u = inr (PFloat (of_hundredths k)) /\
            nearest k (100 * s) u.
Proof.
  intros Hs Hu. unfold sessions_per_user.
  replace (0 <? u) with true by (symmetry; apply Z.ltb_lt; lia).
  rewrite int_true_div_pos by exact Hu.
  destruct (Z.eq_dec s 0) as [-> | Hnz].
  - exists 0. split; [reflexivity | apply nearest_zero; lia].
  - destruct (round2_quotient s u ltac:(lia) Hu) as (m & e & HRN & Hnear).
    rewrite HRN. exists (hundredths m e). split; [reflexivity | exact Hnear].
Qed.

Lemma low_warning_iff (v p : pynum) (ds : list Duplicate) (f : FunnelData) :
  In low_sessions_warning (insights v p ds f)
  <-> num_ltb v (PFloat one_and_a_half) = true.
Proof.
  unfold insights.
  destruct (num_ltb v (PFloat one_and_a_half)), (num_gtb p (PInt 20)),
    (0 <? Z.of_nat (List.length ds)), (purchase f =? 0); cbn;
    split; intros H; try reflexivity; try discriminate;
    repeat match goal with
           | H : _ \/ _ |- _ => destruct H
           | H : False |- _ => destruct H
           end;
    try discriminate; auto.
Qed.

Lemma high_warning_iff (v p : pynum) (ds : list Duplicate) (f : FunnelData) :
  In high_unassigned_warning (insights v p ds f)
  <-> num_gtb p (PInt 20) = true.
Proof.
  unfold insights.
  destruct (num_ltb v (PFloat one_and_a_half)), (num_gtb p (PInt 20)),
    (0 <? Z.of_nat (List.length ds)), (purchase f =? 0); cbn;
    split; intros H; try reflexivity; try discriminate;
    repeat match goal with
           | H : _ \/ _ |- _ => destruct H
           | H : False |- _ => destruct H
           end;
    try discriminate; auto.
Qed.

(** X21.  The warning about low sessions per user in terms of the counts,
    for sessions below 2^45: it is shown when there are fewer than 1.495
    sessions for each user, and also when there is no user at all; it is
    not shown when there are users and more than 1.495 sessions for each.
    The rounding to two digits moves the threshold of the rule from 1.5 to
    1.495. *)
Theorem X21_low_sessions_warning (total_sessions total_users : Z)
    (percent_unassigned : pynum) (duplicate_transaction_ids : list Duplicate)
    (funnel_data : FunnelData) :
  0 <= total_sessions < 2 ^ 45 -> 0 <= total_users ->
  exists v,
    sessions_per_user total_sessions total_users = inr v /\
    let found := insights v percent_unassigned duplicate_transaction_ids
                          funnel_data in
    (total_users = 0 \/ 200 * total_sessions < 299 * total_users ->
     In low_sessions_warning found) /\
    (0 < total_users -> 299 * total_users < 200 * total_sessions ->
     ~ In low_sessions_warning found).
Proof.
  intros Hs Hu. destruct (Z.eq_dec total_users 0) as [-> | Hnz].
  - exists (PInt 0). split; [reflexivity |]. cbv zeta. split.
    + intros _. apply low_warning_iff. vm_compute. reflexivity.
    + intros H. lia.
  - destruct (sessions_per_user_spec total_sessions total_users Hs
                ltac:(lia)) as (k & Hv & Hk).
    exists (PFloat (of_hundredths k)). split; [exact Hv |]. cbv zeta.
    unfold nearest in Hk. rewrite low_warning_iff. unfold num_ltb.
    cbn [exact]. split.
    + intros [H0 | Hlt]; [lia |].
      apply below_one_and_a_half. nia.
    + intros _ Hgt. rewrite not_below_one_and_a_half by nia. discriminate.
Qed.

Lemma X21_low_sessions_warning_witness :
  exists v,
    sessions_per_user 1490 1000 = inr v /\
    In low_sessions_warning (insights v (PInt 0) [] (mkFunnel 1 1 1 1)).
Proof.
  destruct (X21_low_sessions_warning 1490 1000 (PInt 0) []
              (mkFunnel 1 1 1 1))
    as (v & Hv & Hshown & _); [lia | lia |].
  exists v. split; [exact Hv | apply Hshown; right; lia].
Defined.

(** X22.  The warning about unassigned traffic in terms of the counts, for
    unassigned sessions below 2^37: it is shown when more than 20.005 % of
    the sessions are unassigned, and not shown when fewer are, or when
    there is no session at all. *)
Theorem X22_high_unassigned_warning (unassigned_sessions total_sessions : Z)
    (sessions_per_user : pynum) (duplicate_transaction_ids : list Duplicate)
    (funnel_data : FunnelData) :
  0 <= unassigned_sessions < 2 ^ 37 -> 0 <= total_sessions ->
  exists v,
    percent_unassigned unassigned_sessions total_sessions = inr v /\
    let found := insights sessions_per_user v duplicate_transaction_ids
                          funnel_data in
    (4001 * total_sessions < 20000 * unassigned_sessions ->
     0 < total_sessions -> In high_unassigned_warning found) /\
    (total_sessions = 0 \/
     20000 * unassigned_sessions < 4001 * total_sessions ->
     ~ In high_unassigned_warning found).
Proof.
  intros Hb Ha. destruct (Z.eq_dec total_sessions 0) as [-> | Hnz].
  - exists (PInt 0). split; [reflexivity |]. cbv zeta. split.
    + intros _ H. lia.
    + intros _. rewrite high_warning_iff. vm_compute. discriminate.
  - unfold percent_unassigned.
    replace (0 <? total_sessions) with true
      by (symmetry; apply Z.ltb_lt; lia).
    destruct (percent_spec unassigned_sessions total_sessions Hb
                ltac:(lia)) as (k & Hv & Hk).
    exists (PFloat (of_hundredths k)). split; [exact Hv |]. cbv zeta.
    unfold nearest in Hk. rewrite high_warning_iff.
    unfold num_gtb, num_ltb. cbn [exact]. split.
    + intros Hgt _. apply above_twenty. nia.
    + intros [H0 | Hlt]; [lia |].
      rewrite not_above_twenty by nia. discriminate.
Qed.

Lemma X22_high_unassigned_warning_witness :
  exists v,
    percent_unassigned 2001 10000 = inr v /\
    In high_unassigned_warning
       (insights (PInt 2) v [] (mkFunnel 1 1 1 1)).
Proof.
  destruct (X22_high_unassigned_warning 2001 10000 (PInt 2) []
              (mkFunnel 1 1 1 1))
    as (v & Hv & Hshown & _); [lia | lia |].
  exists v. split; [exact Hv | apply Hshown; lia].
Defined.
